(** * PIAS: column inference, data cleaning and the inventory metric engine

    A shallow embedding of [analysis/data_processor.py] (class [DataProcessor])
    and [analysis/calculations.py] (class [InventoryCalculations]).

    Modelling choices.
    - A float64 value is an exact rational extended with [nan], [+inf] and
      [-inf]; the special values follow IEEE 754 as numpy does, rounding
      and signed zeros are not modelled, nor is the wrap-around of int64
      columns.  A statement that turns on a comparison at an exact bound,
      or on the sign of an absolute value, says on which numbers the
      arithmetic is exact ([Num.whole_within], [Num.int64_min]).
    - Text is a string of bytes; [Str.lower] and [Str.strip] are those of
      Python on ASCII text ([Str.is_ascii]).
    - The headers of a table are distinct, as [pd.read_csv] makes them.
    - A pandas DataFrame is a list of row labels (the index) and an ordered
      list of named columns, each a list of cells; a cell holds a number
      (a missing value is the number [nan]) or a string.
    - A Python dict keyed by strings is a [gmap string _]; where insertion
      order matters (the score table of [find_column]) it is an
      association list.
    - Raising an exception is returning [Err]. *)

From Stdlib Require Import QArith Qround Qabs ZArith Lia Lqa Ascii String DecimalString.
From stdpp Require Import gmap strings list sorting.

Local Open Scope nat_scope.

(** ** Numbers *)

Inductive num : Type :=
| Fin (q : Q)
| PInf
| NInf
| NaN.

Module Num.

Definition of_Z (z : Z) : num := Fin (inject_Z z).

Definition is_nan (x : num) : bool :=
  match x with NaN => true | _ => false end.

Definition notna (x : num) : bool := negb (is_nan x).

(** -1, 0 or 1 for a number that is not [nan]. *)
Definition sign (x : num) : Z :=
  match x with
  | Fin q => Z.sgn (Qnum q)
  | PInf => 1
  | NInf => -1
  | NaN => 0
  end.

Definition inf_of_sign (s : Z) : num :=
  if (0 <? s)%Z then PInf else if (s <? 0)%Z then NInf else NaN.

Definition opp (x : num) : num :=
  match x with
  | Fin q => Fin (Qred (- q))
  | PInf => NInf
  | NInf => PInf
  | NaN => NaN
  end.

(** [abs(x)]; exact for a float64 and for an int64 other than
    [int64_min]. *)
Definition abs (x : num) : num :=
  match x with
  | Fin q => Fin (Qred (Qabs q))
  | PInf | NInf => PInf
  | NaN => NaN
  end.

Definition add (x y : num) : num :=
  match x, y with
  | NaN, _ | _, NaN => NaN
  | Fin a, Fin b => Fin (Qred (a + b))
  | PInf, NInf | NInf, PInf => NaN
  | PInf, _ | _, PInf => PInf
  | NInf, _ | _, NInf => NInf
  end.

Definition sub (x y : num) : num := add x (opp y).

Definition mul (x y : num) : num :=
  match x, y with
  | NaN, _ | _, NaN => NaN
  | Fin a, Fin b => Fin (Qred (a * b))
  | _, _ => inf_of_sign (sign x * sign y)
  end.

(** Division as numpy does it: a nonzero number over zero is an
    infinity, zero over zero is [nan]. *)
Definition div (x y : num) : num :=
  match x, y with
  | NaN, _ | _, NaN => NaN
  | Fin a, Fin b =>
      if Qeq_bool b 0 then inf_of_sign (sign x) else Fin (Qred (a / b))
  | Fin _, _ => Fin 0
  | _, Fin b => inf_of_sign (sign x * (if Qeq_bool b 0 then 1 else sign y))
  | _, _ => NaN
  end.

(** Comparisons; every comparison with [nan] is false. *)
Definition leb (x y : num) : bool :=
  match x, y with
  | NaN, _ | _, NaN => false
  | Fin a, Fin b => Qle_bool a b
  | NInf, _ | _, PInf => true
  | _, _ => false
  end.

Definition ltb (x y : num) : bool :=
  match x, y with
  | NaN, _ | _, NaN => false
  | _, _ => negb (leb y x)
  end.

Definition gtb (x y : num) : bool := ltb y x.
Definition geb (x y : num) : bool := leb y x.

Definition eqb (x y : num) : bool := leb x y && leb y x.

(** [np.minimum] and [np.maximum]: a [nan] operand gives [nan]. *)
Definition minimum (x y : num) : num :=
  match x, y with
  | NaN, _ | _, NaN => NaN
  | _, _ => if leb x y then x else y
  end.

Definition maximum (x y : num) : num :=
  match x, y with
  | NaN, _ | _, NaN => NaN
  | _, _ => if leb x y then y else x
  end.

(** Sum of the values that are not [nan] ([Series.sum], skipna). *)
Definition nansum (xs : list num) : num :=
  foldl add (Fin 0) (filter (fun x => is_nan x = false) xs).

(** [Series.cumsum]: a [nan] entry stays [nan] and is skipped by the
    running total. *)
Fixpoint cumsum_from (acc : num) (xs : list num) : list num :=
  match xs with
  | [] => []
  | x :: xs' =>
      if is_nan x then NaN :: cumsum_from acc xs'
      else add acc x :: cumsum_from (add acc x) xs'
  end.

Definition cumsum (xs : list num) : list num := cumsum_from (Fin 0) xs.

(** A whole number. *)
Definition is_whole (x : num) : bool :=
  match x with
  | Fin q => Qeq_bool q (inject_Z (Qfloor q))
  | _ => false
  end.

(** A whole number of magnitude at most [bound].  Up to [2^53] such a
    number is the same in an int64 and in a float64 column, and sums and
    products that stay within the bound are computed without rounding and
    without wrap-around. *)
Definition whole_within (bound : Z) (x : num) : bool :=
  match x with
  | Fin q => Qeq_bool q (inject_Z (Qfloor q)) && (Z.abs (Qfloor q) <=? bound)%Z
  | _ => false
  end.

(** The least int64, the one value whose [abs] numpy leaves negative. *)
Definition int64_min : num := Fin (inject_Z (- 2 ^ 63)%Z).

End Num.

Declare Scope num_scope.
Delimit Scope num_scope with num.
Bind Scope num_scope with num.
Infix "+" := Num.add : num_scope.
Infix "-" := Num.sub : num_scope.
Infix "*" := Num.mul : num_scope.
Infix "/" := Num.div : num_scope.
Infix "<=?" := Num.leb : num_scope.
Infix "<?" := Num.ltb : num_scope.
Infix ">?" := Num.gtb : num_scope.
Infix ">=?" := Num.geb : num_scope.

(** A Python numeric literal. *)
Definition lit (q : Q) : num := Fin (Qred q).

(** ** Exceptions *)

Inductive exn : Type :=
| KeyError (key : option string)
| TypeError
| ValueError (msg : string)
| OverflowError.

Inductive result (A : Type) : Type :=
| Ok (a : A)
| Err (e : exn).
Arguments Ok {A} a.
Arguments Err {A} e.

#[global] Instance result_ret : MRet result := fun A a => Ok a.
#[global] Instance result_bind : MBind result :=
  fun A B f m => match m with Ok a => f a | Err e => Err e end.
#[global] Instance result_fmap : FMap result :=
  fun A B f m => match m with Ok a => Ok (f a) | Err e => Err e end.

Definition is_ok {A} (r : result A) : bool :=
  match r with Ok _ => true | Err _ => false end.

Definition raises {A} (r : result A) : Prop := exists e, r = Err e.

(** [mapM] over a list, stopping at the first exception. *)
Fixpoint traverse {A B} (f : A -> result B) (l : list A) : result (list B) :=
  match l with
  | [] => Ok []
  | a :: l' => b ← f a; bs ← traverse f l'; Ok (b :: bs)
  end.

(** ** Cells, arrays and data frames *)

Inductive cell : Type :=
| CNum (x : num)
| CStr (s : string).

(** A missing value ([isna]): the float [nan]. *)
Definition isna (c : cell) : bool :=
  match c with CNum x => Num.is_nan x | CStr _ => false end.

(** [cell == label] for a string [label]. *)
Definition cell_is (label : string) (c : cell) : bool :=
  match c with CStr s => String.eqb s label | CNum _ => false end.

(** A numpy value: a scalar, or a one-dimensional array. *)
Inductive ndarray : Type :=
| Scal (x : num)
| Arr (xs : list num).

Module Np.

Definition map (f : num -> num) (a : ndarray) : ndarray :=
  match a with Scal x => Scal (f x) | Arr xs => Arr (List.map f xs) end.

(** A binary operation with broadcasting of a scalar operand. *)
Definition zip (f : num -> num -> num) (a b : ndarray) : ndarray :=
  match a, b with
  | Scal x, Scal y => Scal (f x y)
  | Scal x, Arr ys => Arr (List.map (f x) ys)
  | Arr xs, Scal y => Arr (List.map (fun x => f x y) xs)
  | Arr xs, Arr ys => Arr (zip_with f xs ys)
  end.

Definition add := zip Num.add.
Definition sub := zip Num.sub.
Definition mul := zip Num.mul.
Definition div := zip Num.div.
Definition minimum := zip Num.minimum.
Definition maximum := zip Num.maximum.

(** The values of an array broadcast to [n] entries. *)
Definition values (n : nat) (a : ndarray) : list num :=
  match a with Scal x => replicate n x | Arr xs => xs end.

(** A comparison of an array with a scalar or an array: a mask. *)
Definition cmp (f : num -> num -> bool) (n : nat) (a b : ndarray) : list bool :=
  zip_with f (values n a) (values n b).

(** [np.where(cond, a, b)] for a mask [cond]. *)
Definition where_ (cond : list bool) (a b : ndarray) : ndarray :=
  let n := length cond in
  Arr (zip_with (fun c xy => if c : bool then fst xy else snd xy) cond
         (zip_with pair (values n a) (values n b))).

(** [np.where(cond, a, b)] for a scalar condition: the chosen operand,
    broadcast to the common shape. *)
Definition where_scalar (cond : bool) (n : nat) (a b : ndarray) : ndarray :=
  Arr (values n (if cond then a else b)).

(** [np.select(conditions, choices, default)]: per entry, the choice of
    the first condition that holds there. *)
Fixpoint select_at {A} (i : nat) (conds : list (list bool)) (choices : list A)
    (dflt : A) : A :=
  match conds, choices with
  | c :: conds', x :: choices' =>
      match c !! i with
      | Some true => x
      | _ => select_at i conds' choices' dflt
      end
  | _, _ => dflt
  end.

Definition select {A} (n : nat) (conds : list (list bool)) (choices : list A)
    (dflt : A) : list A :=
  List.map (fun i => select_at i conds choices dflt) (seq 0 n).

End Np.

Declare Scope np_scope.
Delimit Scope np_scope with np.
Bind Scope np_scope with ndarray.
Infix "+" := Np.add : np_scope.
Infix "-" := Np.sub : np_scope.
Infix "*" := Np.mul : np_scope.
Infix "/" := Np.div : np_scope.

Record DataFrame : Type := mkDF {
  index : list Z;
  columns : list (string * list cell)
}.

Module Df.

Definition len (df : DataFrame) : nat := length (index df).

Definition names (df : DataFrame) : list string := (columns df).*1.

(** [key in df.columns]; the key may be [None]. *)
Definition contains (key : option string) (df : DataFrame) : bool :=
  match key with
  | Some k => bool_decide (k ∈ names df)
  | None => false
  end.

Fixpoint assoc {A} (k : string) (l : list (string * A)) : option A :=
  match l with
  | [] => None
  | (k', v) :: l' => if String.eqb k k' then Some v else assoc k l'
  end.

(** [df[key]] for a table with distinct headers: an unknown key, [None]
    included, raises [KeyError]. *)
Definition getitem (df : DataFrame) (key : option string) : result (list cell) :=
  match key with
  | Some k =>
      match assoc k (columns df) with
      | Some c => Ok c
      | None => Err (KeyError key)
      end
  | None => Err (KeyError None)
  end.

Fixpoint assoc_set {A} (k : string) (v : A) (l : list (string * A)) :
    list (string * A) :=
  match l with
  | [] => [(k, v)]
  | (k', v') :: l' =>
      if String.eqb k k' then (k, v) :: l' else (k', v') :: assoc_set k v l'
  end.

(** [df[k] = c]: an existing column is replaced in place, a new one is
    appended. *)
Definition setitem (df : DataFrame) (k : string) (c : list cell) : DataFrame :=
  mkDF (index df) (assoc_set k c (columns df)).

(** The numbers of a float column; a string in it makes arithmetic
    raise. *)
Definition as_float (c : list cell) : result (list num) :=
  traverse (fun x => match x with CNum v => Ok v | CStr _ => Err TypeError end) c.

Definition of_float (xs : list num) : list cell := CNum <$> xs.
Definition of_str (xs : list string) : list cell := CStr <$> xs.

(** [df[key]] read as a float array. *)
Definition floats (df : DataFrame) (key : option string) : result ndarray :=
  c ← getitem df key; xs ← as_float c; Ok (Arr xs).

(** [df[k] = a] for a numpy value, a scalar being broadcast. *)
Definition set_floats (df : DataFrame) (k : string) (a : ndarray) : DataFrame :=
  setitem df k (of_float (Np.values (len df) a)).

(** [df.get(k, default)] *)
Definition get (df : DataFrame) (k : string) (dflt : num) : result ndarray :=
  match assoc k (columns df) with
  | Some c => xs ← as_float c; Ok (Arr xs)
  | None => Ok (Scal dflt)
  end.

(** The rows at the given positions, in that order ([take], [iloc]). *)
Definition pick {A} (pos : list nat) (l : list A) : list A :=
  omap (fun i => l !! i) pos.

Definition take (pos : list nat) (df : DataFrame) : DataFrame :=
  mkDF (pick pos (index df)) (prod_map id (pick pos) <$> columns df).

(** The positions at which a mask holds. *)
Definition mask_positions (mask : list bool) : list nat :=
  List.map fst (List.filter snd (imap pair mask)).

(** [df[mask]] *)
Definition where_ (mask : list bool) (df : DataFrame) : DataFrame :=
  take (mask_positions mask) df.

End Df.

(** ** Sorting and order statistics *)

Section StableSort.
Context {A : Type} (before : A -> A -> bool).

(** [before y x]: [y] goes strictly before [x].  An element is put after
    the elements that go strictly before it and in front of the rest, so
    equal keys keep the order they came in. *)
Fixpoint insert_by (x : A) (l : list A) : list A :=
  match l with
  | [] => [x]
  | y :: l' => if before y x then y :: insert_by x l' else x :: y :: l'
  end.

Definition stable_sort (l : list A) : list A := foldr insert_by [] l.
End StableSort.

Module Order.

(** Descending, missing values last ([sort_values(ascending=False)],
    [nlargest]). *)
Definition desc (a b : num) : bool :=
  Num.notna a && (Num.is_nan b || Num.ltb b a).

(** Ascending, missing values last ([nsmallest], the sorted sample of
    [median] and [quantile]). *)
Definition asc (a b : num) : bool :=
  Num.notna a && (Num.is_nan b || Num.ltb a b).

(** The positions of the keys in sorted order. *)
Definition argsort (before : num -> num -> bool) (keys : list num) : list nat :=
  (stable_sort (fun p q => before p.2 q.2) (imap pair keys)).*1.

End Order.

Module Stats.

Definition dropna (xs : list num) : list num :=
  List.filter Num.notna xs.

(** [Series.mean()]: the mean of the values present, [nan] when there
    is none. *)
Definition mean (xs : list num) : num :=
  let v := dropna xs in
  match v with
  | [] => NaN
  | _ => (Num.nansum v / Num.of_Z (Z.of_nat (length v)))%num
  end.

Definition nth_num (l : list num) (i : nat) : num := default NaN (l !! i).

(** [Series.median()] *)
Definition median (xs : list num) : num :=
  let v := stable_sort Order.asc (dropna xs) in
  let n := length v in
  match n with
  | O => NaN
  | _ =>
      if Nat.even n
      then ((nth_num v (n / 2 - 1) + nth_num v (n / 2)) / Num.of_Z 2)%num
      else nth_num v (n / 2)
  end.

(** [Series.quantile(q)] with linear interpolation between the two
    closest ranks. *)
Definition quantile (q : Q) (xs : list num) : num :=
  let v := stable_sort Order.asc (dropna xs) in
  let n := length v in
  match n with
  | O => NaN
  | _ =>
      let pos := (inject_Z (Z.of_nat (n - 1)) * q)%Q in
      let lo := Z.to_nat (Qfloor pos) in
      let hi := Nat.min (lo + 1) (n - 1) in
      let t := Fin (Qred (pos - inject_Z (Z.of_nat lo))) in
      (nth_num v lo + (nth_num v hi - nth_num v lo) * t)%num
  end.

End Stats.

(** ** Joining on the index *)

Module Merge.

(** The positions of the right rows labelled [a]. *)
Definition matches (a : Z) (right_index : list Z) : list nat :=
  List.map fst (List.filter (fun p => Z.eqb p.2 a) (imap pair right_index)).

(** The rows of a left join on the index: every left row, once per right
    row carrying the same label, or once with no partner. *)
Definition rows (left_index right_index : list Z) : list (nat * option nat) :=
  mjoin (imap (fun i a =>
           match matches a right_index with
           | [] => [(i, None)]
           | js => List.map (fun j => (i, Some j)) js
           end) left_index).

Definition pick_right (js : list (option nat)) (c : list cell) : list cell :=
  List.map (fun j => default (CNum NaN) (j ≫= fun j => c !! j)) js.

Definition suffix (sfx : string) (others : list string) (k : string) : string :=
  if bool_decide (k ∈ others) then k +:+ sfx else k.

(** [left.merge(right, left_index=True, right_index=True, how='left')]:
    a column name the two frames share gets the suffix [_x] on the left
    and [_y] on the right. *)
Definition left_index (left right : DataFrame) : DataFrame :=
  let rs := rows (index left) (index right) in
  mkDF (Df.pick rs.*1 (index left))
    (List.map (fun kc => (suffix "_x" (Df.names right) kc.1, Df.pick rs.*1 kc.2))
       (columns left)
     ++ List.map (fun kc => (suffix "_y" (Df.names left) kc.1, pick_right rs.*2 kc.2))
       (columns right)).

End Merge.

(** ** Python built-ins *)

Module Py.

(** Truth value of an optional string: [None] and the empty string are
    false. *)
Definition truthy (o : option string) : bool :=
  match o with
  | Some s => negb (String.eqb s "")
  | None => false
  end.

(** [d.get(k)] for a dict whose values may be [None]. *)
Definition get (d : gmap string (option string)) (k : string) : option string :=
  d !! k ≫= id.

(** [d[k]] *)
Definition item (d : gmap string (option string)) (k : string) :
    result (option string) :=
  match d !! k with
  | Some v => Ok v
  | None => Err (KeyError (Some k))
  end.

(** [int(x)] of a float: truncation towards zero. *)
Definition int (x : num) : result Z :=
  match x with
  | Fin q => Ok (Z.quot (Qnum q) (Zpos (Qden q)))
  | NaN => Err (ValueError "cannot convert float NaN to integer")
  | _ => Err OverflowError
  end.

Definition round_half_even (q : Q) : Z :=
  let f := Qfloor q in
  match (q - inject_Z f ?= 1 # 2)%Q with
  | Lt => f
  | Gt => f + 1
  | Eq => if Z.even f then f else f + 1
  end.

(** [round(x, ndigits)] *)
Definition round (x : num) (ndigits : nat) : num :=
  match x with
  | Fin q =>
      let s := inject_Z (10 ^ Z.of_nat ndigits) in
      Fin (Qred (inject_Z (round_half_even (q * s)) / s))
  | _ => x
  end.

End Py.

(** ** Library functions outside the repository

    What pandas and numpy do with text and square roots is not part of the
    code under study; the development is parametric in it. *)

Class Library : Type := {
  (** [pd.to_numeric(s, errors='coerce')] of one string: [nan] when the
      string is not a number. *)
  parse_float : string -> num;
  (** [str(x)] of a float. *)
  str_of_float : num -> string;
  (** [np.sqrt] *)
  np_sqrt : num -> num;
  (** [Series.str.contains(pat, case=False)] on one string: a
      case-insensitive regular expression search. *)
  str_contains : string -> string -> bool
}.

Section Pandas.
Context `{Library}.

(** [pd.to_numeric(column, errors='coerce')] *)
Definition to_numeric (c : list cell) : list num :=
  List.map (fun x => match x with CNum v => v | CStr s => parse_float s end) c.

(** [str(cell)]; a missing value prints as [nan]. *)
Definition str (c : cell) : string :=
  match c with
  | CNum v => if Num.is_nan v then "nan" else str_of_float v
  | CStr s => s
  end.

(** [column.astype(str)] *)
Definition astype_str (c : list cell) : list string := List.map str c.

End Pandas.

(** ** The metric engine: [InventoryCalculations] *)

Record InventoryCalculations : Type := mkCalc {
  df : DataFrame;
  cols : gmap string (option string)
}.

Section MetricEngine.
Context `{Library}.

Definition safety_stock_multiplier : num := lit 1.5.

(** [self.cols.get(k) and self.cols[k] in self.df.columns] *)
Definition resolved (self : InventoryCalculations) (k : string) : result bool :=
  if Py.truthy (Py.get (cols self) k)
  then key ← Py.item (cols self) k; Ok (Df.contains key (df self))
  else Ok false.

(** [df[key] = c] for a key read from the column map. *)
Definition setitem_at (d : DataFrame) (key : option string) (c : list cell) :
    DataFrame :=
  match key with Some k => Df.setitem d k c | None => d end.

(** The impact, the running total and the percentage are exact, and rows
    of equal impact keep their order; numpy rounds each step and leaves
    the order of equal keys open. *)
Definition _calculate_abc_analysis (self : InventoryCalculations) :
    result DataFrame :=
  let df_sorted := df self in
  annual ← Df.floats df_sorted (Some "Annual_Sales");
  cogs ← Df.get df_sorted "COGS" (lit 25);
  annual' ← Df.floats df_sorted (Some "Annual_Sales");
  let df_sorted := Df.set_floats df_sorted "Revenue_Impact" (annual * cogs / annual') in
  impact ← Df.getitem df_sorted (Some "Revenue_Impact") ≫= Df.as_float;
  let df_sorted := Df.take (Order.argsort Order.desc impact) df_sorted in
  impact ← Df.getitem df_sorted (Some "Revenue_Impact") ≫= Df.as_float;
  let cumulative_value := Num.cumsum impact in
  let total_value := Num.nansum impact in
  let cumulative_percent := (Arr cumulative_value / Scal total_value * Scal (lit 100))%np in
  let n := Df.len df_sorted in
  let conditions :=
    [ Np.cmp Num.leb n cumulative_percent (Scal (lit 70));
      Np.cmp Num.leb n cumulative_percent (Scal (lit 90));
      Np.cmp Num.leb n cumulative_percent (Scal (lit 100)) ] in
  let choices := ["A"; "B"; "C"] in
  let df_sorted :=
    Df.setitem df_sorted "ABC_Class" (Df.of_str (Np.select n conditions choices "C")) in
  abc ← Df.getitem df_sorted (Some "ABC_Class");
  Ok (Merge.left_index (df self) (mkDF (index df_sorted) [("ABC_Class", abc)])).

(** The multiples of the reorder level are exact; numpy rounds them in a
    float64 column and wraps them in an int64 column. *)
Definition _classify_stock_status (self : InventoryCalculations) :
    result InventoryCalculations :=
  let d := df self in
  has_reorder ← resolved self "reorder";
  reorder_level ←
    (if has_reorder : bool
     then key ← Py.item (cols self) "reorder"; Df.floats d key
     else Df.floats d (Some "Optimal_Reorder_Point"));
  k_stock ← Py.item (cols self) "stock";
  current_stock ← Df.floats d k_stock;
  days_supply ← Df.floats d (Some "Days_of_Supply");
  let n := Df.len d in
  let le := Np.cmp Num.leb n in
  let conditions :=
    [ zip_with orb (le current_stock (reorder_level * Scal (lit 0.5))%np)
        (le days_supply (Scal (lit 7)));
      zip_with orb (le current_stock reorder_level) (le days_supply (Scal (lit 15)));
      zip_with andb (le current_stock (reorder_level * Scal (lit 2))%np)
        (le days_supply (Scal (lit 45)));
      zip_with andb (le current_stock (reorder_level * Scal (lit 3))%np)
        (le days_supply (Scal (lit 90))) ] in
  let choices := ["CRITICAL"; "LOW"; "NORMAL"; "HEALTHY"] in
  let d := Df.setitem d "Stock_Status" (Df.of_str (Np.select n conditions choices "EXCESS")) in
  days_supply ← Df.floats d (Some "Days_of_Supply");
  k_sales ← Py.item (cols self) "sales";
  sales ← Df.floats d k_sales;
  abc ← Df.getitem d (Some "ABC_Class");
  status ← Df.getitem d (Some "Stock_Status");
  let flag (label : string) (c : list cell) : ndarray :=
    Arr (List.map (fun x => if cell_is label x then lit 1 else lit 0) c) in
  let d :=
    Df.set_floats d "Priority_Score"
      ((Scal (lit 100) - days_supply) * Scal (lit 0.4)
       + sales * Scal (lit 0.3)
       + flag "A" abc * Scal (lit 20)
       + flag "CRITICAL" status * Scal (lit 30))%np in
  Ok (mkCalc d (cols self)).

End MetricEngine.

Section MetricEngineInit.
Context `{Library}.

(** [self.df[self.cols[k]]] as a float array. *)
Definition col (self : InventoryCalculations) (k : string) : result ndarray :=
  key ← Py.item (cols self) k; Df.floats (df self) key.

(** [self.df[name]] as a float array. *)
Definition field (self : InventoryCalculations) (name : string) : result ndarray :=
  Df.floats (df self) (Some name).

(** [self.df[name] = a] *)
Definition assign (self : InventoryCalculations) (name : string) (a : ndarray) :
    InventoryCalculations :=
  mkCalc (Df.set_floats (df self) name a) (cols self).

Definition _prepare_data (self : InventoryCalculations) :
    result InventoryCalculations :=
  let n := Df.len (df self) in
  (* annual sales, the sales column being monthly *)
  sales ← col self "sales";
  let self := assign self "Annual_Sales" (sales * Scal (lit 12)) in
  (* cost of goods sold *)
  has_price ← resolved self "price";
  self ←
    (if has_price : bool
     then
       key ← Py.item (cols self) "price";
       raw ← Df.getitem (df self) key;
       let self :=
         mkCalc (setitem_at (df self) key (Df.of_float (to_numeric raw))) (cols self) in
       annual ← field self "Annual_Sales";
       price ← col self "price";
       Ok (assign self "COGS" (annual * price))
     else
       annual ← field self "Annual_Sales";
       Ok (assign self "COGS" (annual * Scal (lit 25))));
  (* the two turnover estimates *)
  stock ← col self "stock";
  cogs ← field self "COGS";
  stock' ← col self "stock";
  cogs' ← Df.get (df self) "COGS" (lit 25);
  annual ← field self "Annual_Sales";
  let self :=
    assign self "Inventory_Turnover"
      (Np.where_ (Np.cmp Num.gtb n stock (Scal (lit 0)))
         (cogs / (stock' * cogs' / annual)) (Scal (lit 0))) in
  stock ← col self "stock";
  annual ← field self "Annual_Sales";
  stock' ← col self "stock";
  let self :=
    assign self "Simple_Turnover"
      (Np.where_ (Np.cmp Num.gtb n stock (Scal (lit 0)))
         (annual / stock') (Scal (lit 0))) in
  inventory_turnover ← field self "Inventory_Turnover";
  simple_turnover ← field self "Simple_Turnover";
  let self :=
    assign self "Final_Turnover" (Np.minimum inventory_turnover simple_turnover) in
  let self := mkCalc (df self) (<["turnover" := Some "Final_Turnover"]> (cols self)) in
  (* days of supply *)
  sales ← col self "sales";
  stock ← col self "stock";
  sales' ← col self "sales";
  let self :=
    assign self "Days_of_Supply"
      (Np.where_ (Np.cmp Num.gtb n sales (Scal (lit 0)))
         (stock / sales' * Scal (lit 30)) (Scal (lit 365))) in
  (* safety stock and reorder point *)
  monthly_sales ← col self "sales";
  let self := assign self "Safety_Stock" (monthly_sales * Scal safety_stock_multiplier) in
  let daily_usage := (monthly_sales / Scal (lit 30))%np in
  let lead_time_days := Scal (lit 14) in
  safety_stock ← field self "Safety_Stock";
  let self :=
    assign self "Optimal_Reorder_Point" (daily_usage * lead_time_days + safety_stock) in
  (* economic order quantity *)
  annual_demand ← field self "Annual_Sales";
  let ordering_cost := Scal (lit 50) in
  let holding_cost_rate := Scal (lit 0.25) in
  has_price ← resolved self "price";
  key ← Py.item (cols self) "price";
  price ← Df.floats (df self) key;
  let unit_cost := Np.where_scalar has_price n price (Scal (lit 25)) in
  let holding_cost := (unit_cost * holding_cost_rate)%np in
  let self :=
    assign self "EOQ"
      (Np.map np_sqrt
         (Scal (lit 2) * annual_demand * ordering_cost
          / Np.maximum holding_cost (Scal (lit 1)))) in
  (* inventory value *)
  stock ← col self "stock";
  let self := assign self "Inventory_Value" (stock * unit_cost) in
  (* ABC analysis, then stock status and priority score *)
  d ← _calculate_abc_analysis self;
  _classify_stock_status (mkCalc d (cols self)).

(** [df.fillna({key: 0, ...})] for one key: a key that names no column
    is skipped. *)
Definition fillna_zero (d : DataFrame) (key : option string) : DataFrame :=
  match key with
  | Some k =>
      match Df.assoc k (columns d) with
      | Some c =>
          Df.setitem d k
            (List.map (fun x => if isna x then CNum (lit 0) else x) c)
      | None => d
      end
  | None => d
  end.

(** One round of the loop over [numeric_cols] in [_validate_data]. *)
Definition coerce_numeric (self : InventoryCalculations) (c : string) :
    result InventoryCalculations :=
  ok ← resolved self c;
  if ok : bool
  then
    key ← Py.item (cols self) c;
    raw ← Df.getitem (df self) key;
    Ok (mkCalc (setitem_at (df self) key (Df.of_float (to_numeric raw))) (cols self))
  else Ok self.

Definition _validate_data (self : InventoryCalculations) :
    result InventoryCalculations :=
  let required_cols := ["stock"; "sales"; "name"; "category"] in
  let missing_cols :=
    List.filter (fun c => negb (Py.truthy (Py.get (cols self) c))) required_cols in
  match missing_cols with
  | _ :: _ => Err (ValueError "Missing required columns")
  | [] =>
      let numeric_cols := ["stock"; "sales"; "reorder"] in
      self ← foldl (fun acc c => self ← acc; coerce_numeric self c) (Ok self) numeric_cols;
      let key_or (k dflt : string) : option string :=
        default (Some dflt) (cols self !! k) in
      let d :=
        foldl fillna_zero (df self)
          [key_or "stock" "stock"; key_or "sales" "sales";
           key_or "reorder" "reorder_level"] in
      Ok (mkCalc d (cols self))
  end.

(** [InventoryCalculations(df, columns_map)].  The column map is the
    caller's dict, so the entry [_prepare_data] adds to it is seen by the
    caller too; the table is a copy. *)
Definition __init__ (table : DataFrame) (columns_map : gmap string (option string)) :
    result InventoryCalculations :=
  _prepare_data (mkCalc table columns_map) ≫= _validate_data.

End MetricEngineInit.

(** ** Strings *)

Module Str.

(** [sub in s] *)
Fixpoint contains (sub s : string) : bool :=
  String.prefix sub s
  || match s with
     | EmptyString => false
     | String _ s' => contains sub s'
     end.

Definition lower_ascii (c : ascii) : ascii :=
  let n := nat_of_ascii c in
  if (65 <=? n)%nat && (n <=? 90)%nat then ascii_of_nat (n + 32) else c.

(** [s.lower()], on the ASCII letters. *)
Fixpoint lower (s : string) : string :=
  match s with
  | EmptyString => EmptyString
  | String c s' => String (lower_ascii c) (lower s')
  end.

(** Text of ASCII characters only, on which [lower] and [strip] below are
    Python's [str.lower] and [str.strip]. *)
Definition is_ascii (s : string) : bool :=
  forallb (fun c => (nat_of_ascii c <? 128)%nat) (list_ascii_of_string s).

(** The ASCII characters [str.strip] removes. *)
Definition is_space (c : ascii) : bool :=
  let n := nat_of_ascii c in
  ((9 <=? n)%nat && (n <=? 13)%nat) || ((28 <=? n)%nat && (n <=? 32)%nat).

Fixpoint lstrip (s : string) : string :=
  match s with
  | String c s' => if is_space c then lstrip s' else s
  | EmptyString => EmptyString
  end.

Fixpoint rstrip (s : string) : string :=
  match s with
  | String c s' =>
      match rstrip s' with
      | EmptyString => if is_space c then EmptyString else String c EmptyString
      | t => String c t
      end
  | EmptyString => EmptyString
  end.

(** [s.strip()], on ASCII white space. *)
Definition strip (s : string) : string := rstrip (lstrip s).

(** [s.split(sep)] for a one-character separator. *)
Fixpoint split (sep : ascii) (s : string) : list string :=
  match s with
  | EmptyString => [EmptyString]
  | String c s' =>
      if Ascii.eqb c sep then EmptyString :: split sep s'
      else
        match split sep s' with
        | t :: ts => String c t :: ts
        | [] => [String c EmptyString]
        end
  end.

End Str.

(** ** The column resolver and the data cleaner: [DataProcessor] *)

Module DataProcessor.

Definition inventory_terms : list string :=
  ["qty"; "amount"; "level"; "count"; "volume"; "units"].

(** The points one keyword gives a header (already lower-cased and
    stripped). *)
Definition keyword_points (col_lower keyword : string) : nat :=
  let k := Str.lower keyword in
  if String.eqb k col_lower then 100
  else if Str.contains k col_lower then 50
  else if existsb (fun t => Str.contains t col_lower) (Str.split "_" k) then 25
  else 0.

(** The score of one header: the body of the loop of [find_column]. *)
Definition column_score (keywords : list string) (col : string) : nat :=
  let col_lower := Str.strip (Str.lower col) in
  let score := foldl (fun score keyword => score + keyword_points col_lower keyword)
                 0 keywords in
  if existsb (fun term => Str.contains term col_lower) inventory_terms
  then score + 10 else score.

(** [max(d, key=d.get)] over the keys of a dict in insertion order: the
    first key with the greatest value. *)
Fixpoint max_from (best : string * nat) (l : list (string * nat)) : string * nat :=
  match l with
  | [] => best
  | x :: l' => max_from (if best.2 <? x.2 then x else best) l'
  end.

Definition find_column (keywords : list string) (columns : list string) :
    option string :=
  let column_scores :=
    foldl (fun scores col =>
             let score := column_score keywords col in
             if 0 <? score then Df.assoc_set col score scores else scores)
      [] columns in
  match column_scores with
  | [] => None
  | first :: rest => Some (max_from first rest).1
  end.

Definition column_keywords : list (string * list string) :=
  [ ("name",
     ["name"; "product"; "item"; "description"; "title"; "product_name";
      "item_name"; "prod_name"; "sku"; "code"; "id"]);
    ("category",
     ["category"; "catagory"; "cat"; "type"; "class"; "group"; "segment";
      "product_category"; "item_category"; "classification"]);
    ("stock",
     ["stock"; "inventory"; "quantity"; "qty"; "current_stock";
      "on_hand"; "available"; "balance"; "units"; "count"; "level";
      "current_quantity"; "stock_level"; "inventory_level"]);
    ("sales",
     ["sales"; "sold"; "volume"; "demand"; "usage"; "consumption";
      "monthly_sales"; "sales_volume"; "units_sold"; "turnover_qty";
      "demand_qty"; "usage_rate"; "monthly_demand"]);
    ("reorder",
     ["reorder"; "reorder_level"; "reorder_point"; "min_stock";
      "minimum"; "safety_stock"; "threshold"; "trigger_level";
      "min_level"; "reorder_qty"; "minimum_stock"]);
    ("price",
     ["price"; "cost"; "unit_price"; "unit_cost"; "value"; "amount";
      "rate"; "price_per_unit"; "cost_per_unit"; "unit_value"]);
    ("supplier",
     ["supplier"; "vendor"; "source"; "provider"; "manufacturer";
      "supplier_name"; "vendor_name"; "supplier_id"]);
    ("lead_time",
     ["lead_time"; "leadtime"; "delivery_time"; "order_time";
      "procurement_time"; "lead_days"]);
    ("max_stock",
     ["max_stock"; "maximum"; "max_level"; "maximum_stock";
      "max_quantity"; "upper_limit"; "ceiling"]) ].

Definition turnover_keywords : list string :=
  ["turnover"; "turns"; "rotation"; "velocity"; "frequency"].

Definition detect_columns (d : DataFrame) : gmap string (option string) :=
  let columns_map :=
    foldl (fun m kv => <[kv.1 := find_column kv.2 (Df.names d)]> m)
      (∅ : gmap string (option string)) column_keywords in
  <["turnover" := find_column turnover_keywords (Df.names d)]> columns_map.

(** [(is_valid, missing_required)] *)
Definition validate_required_columns (columns_map : gmap string (option string)) :
    bool * list string :=
  let required_cols := ["name"; "category"; "stock"; "sales"] in
  let missing_required :=
    List.filter (fun name => negb (Py.truthy (Py.get columns_map name))) required_cols in
  (Nat.eqb (length missing_required) 0, missing_required).

End DataProcessor.

(** ** The data cleaner: [DataProcessor.clean_data] *)

(** The entries of [cleaning_log], with the numbers the messages print. *)
Inductive log_entry : Type :=
| LogNegative (negative_count : nat) (col_name : string)
| LogFilled (null_count : nat) (col_name : string) (fill_value : num)
| LogText (count : nat) (col_name : string)
| LogRemoved (removed_rows : nat).

Section Cleaner.
Context `{Library}.

Definition count_if {A} (p : A -> bool) (l : list A) : nat :=
  length (List.filter p l).

(** [column.fillna(fill_value)] *)
Definition fillna (fill_value : num) (xs : list num) : list num :=
  List.map (fun x => if Num.is_nan x then fill_value else x) xs.

(** [col_type in columns_map and columns_map[col_type] in df.columns] *)
Definition mapped (columns_map : gmap string (option string)) (col_type : string)
    (d : DataFrame) : option string :=
  match columns_map !! col_type with
  | Some key => if Df.contains key d then key else None
  | None => None
  end.

(** The value that fills the gaps of a numeric column. *)
Definition fill_value_for (columns_map : gmap string (option string))
    (col_type : string) (df_clean : DataFrame) (xs : list num) : result num :=
  let all_na := forallb Num.is_nan xs in
  if String.eqb col_type "stock" then
    Ok (if negb all_na then Stats.median xs else lit 0)
  else if String.eqb col_type "sales" then
    Ok (if negb all_na then Stats.mean xs else lit 1)
  else if String.eqb col_type "reorder" then
    let stock_col := Py.get columns_map "stock" in
    if Py.truthy stock_col && Df.contains stock_col df_clean
    then
      stock ← Df.getitem df_clean stock_col ≫= Df.as_float;
      Ok (Stats.mean stock * lit 0.2)%num
    else Ok (lit 10)
  else
    Ok (if negb all_na then Stats.median xs else lit 0).

(** One round of the loop over [numeric_columns]. *)
Definition clean_numeric (columns_map : gmap string (option string))
    (col_type : string) (st : DataFrame * list log_entry) :
    result (DataFrame * list log_entry) :=
  let '(df_clean, cleaning_log) := st in
  match mapped columns_map col_type df_clean with
  | None => Ok st
  | Some col_name =>
      raw ← Df.getitem df_clean (Some col_name);
      let xs := to_numeric raw in
      let df_clean := Df.setitem df_clean col_name (Df.of_float xs) in
      let negative_count := count_if (fun x => Num.ltb x (lit 0)) xs in
      let fix_negative :=
        (String.eqb col_type "stock" || String.eqb col_type "sales")
        && (0 <? negative_count) in
      let xs := if fix_negative then List.map Num.abs xs else xs in
      let df_clean :=
        if fix_negative then Df.setitem df_clean col_name (Df.of_float xs)
        else df_clean in
      let cleaning_log :=
        if fix_negative then cleaning_log ++ [LogNegative negative_count col_name]
        else cleaning_log in
      if existsb Num.is_nan xs then
        let null_count := count_if Num.is_nan xs in
        fill_value ← fill_value_for columns_map col_type df_clean xs;
        Ok (Df.setitem df_clean col_name (Df.of_float (fillna fill_value xs)),
            cleaning_log ++ [LogFilled null_count col_name fill_value])
      else Ok (df_clean, cleaning_log)
  end.

Definition placeholder (col_type : string) : option string :=
  if String.eqb col_type "name" then Some "Unknown Product"
  else if String.eqb col_type "category" then Some "Uncategorized"
  else if String.eqb col_type "supplier" then Some "Unknown Supplier"
  else None.

(** One round of the loop over [text_columns]. *)
Definition clean_text (columns_map : gmap string (option string))
    (col_type : string) (st : DataFrame * list log_entry) :
    result (DataFrame * list log_entry) :=
  let '(df_clean, cleaning_log) := st in
  match mapped columns_map col_type df_clean with
  | None => Ok st
  | Some col_name =>
      raw ← Df.getitem df_clean (Some col_name);
      let ss := List.map Str.strip (astype_str raw) in
      let df_clean := Df.setitem df_clean col_name (Df.of_str ss) in
      let empty_mask :=
        List.map (fun s => String.eqb s "" || String.eqb s "nan") ss in
      if existsb id empty_mask then
        let ss :=
          match placeholder col_type with
          | Some p => zip_with (fun (m : bool) s => if m then p else s) empty_mask ss
          | None => ss
          end in
        Ok (Df.setitem df_clean col_name (Df.of_str ss),
            cleaning_log ++ [LogText (count_if id empty_mask) col_name])
      else Ok (df_clean, cleaning_log)
  end.

(** [df.dropna(subset=cols, how='all')]: a row goes when every one of
    its cells in [cols] is missing. *)
Definition dropna_all (subset : list string) (d : DataFrame) : result DataFrame :=
  cs ← traverse (fun k => Df.getitem d (Some k)) subset;
  let keep :=
    List.map (fun i => negb (forallb (fun c => default false (isna <$> c !! i)) cs))
      (seq 0 (Df.len d)) in
  Ok (Df.where_ keep d).

(** [clean_data(df, columns_map)]: the cleaned table and the cleaning
    log it stores. *)
Definition clean_data (table : DataFrame) (columns_map : gmap string (option string)) :
    result (DataFrame * list log_entry) :=
  let numeric_columns := ["stock"; "sales"; "reorder"; "price"; "turnover"] in
  st ← foldl (fun acc col_type => acc ≫= clean_numeric columns_map col_type)
         (Ok (table, [])) numeric_columns;
  let text_columns := ["name"; "category"; "supplier"] in
  st ← foldl (fun acc col_type => acc ≫= clean_text columns_map col_type)
         (Ok st) text_columns;
  let '(df_clean, cleaning_log) := st in
  let critical_cols :=
    omap (fun c => if Py.truthy (Py.get columns_map c) then Py.get columns_map c else None)
      ["name"; "stock"; "sales"] in
  let critical_cols :=
    List.filter (fun c => Py.truthy (Some c) && Df.contains (Some c) df_clean)
      critical_cols in
  match critical_cols with
  | [] => Ok (df_clean, cleaning_log)
  | _ =>
      let initial_rows := Df.len df_clean in
      df_clean ← dropna_all critical_cols df_clean;
      let removed_rows := initial_rows - Df.len df_clean in
      Ok (df_clean,
          if 0 <? removed_rows then cleaning_log ++ [LogRemoved removed_rows]
          else cleaning_log)
  end.

End Cleaner.

(** ** The aggregator: read-only views of the augmented table *)

(** One row of a frame, as [iterrows] yields it. *)
Definition Row : Type := list (string * cell).

Module RowOps.

Definition at_ (d : DataFrame) (i : nat) : Row :=
  omap (fun kc => pair kc.1 <$> kc.2 !! i) (columns d).

(** [df.iterrows()] *)
Definition iterrows (d : DataFrame) : list Row :=
  List.map (at_ d) (seq 0 (Df.len d)).

(** [row[key]] *)
Definition item (row : Row) (key : option string) : result cell :=
  match key ≫= fun k => Df.assoc k row with
  | Some c => Ok c
  | None => Err (KeyError key)
  end.

(** [row.get(k, default)] *)
Definition get (row : Row) (k : string) (dflt : cell) : cell :=
  default dflt (Df.assoc k row).

(** [float(cell)] *)
Definition float (c : cell) : result num :=
  match c with
  | CNum v => Ok v
  | CStr _ => Err (ValueError "could not convert string to float")
  end.

(** [int(cell)] *)
Definition int (c : cell) : result Z :=
  match c with
  | CNum v => Py.int v
  | CStr _ => Err (ValueError "invalid literal for int()")
  end.

End RowOps.

(** [df.nlargest(n, column)] and [df.nsmallest(n, column)]: the first [n]
    rows by the column, ties in table order, missing values last. *)
Definition nselect (before : num -> num -> bool) (n : nat) (column : string)
    (d : DataFrame) : result DataFrame :=
  keys ← Df.getitem d (Some column) ≫= Df.as_float;
  Ok (Df.take (List.firstn n (Order.argsort before keys)) d).

Definition nlargest := nselect Order.desc.
Definition nsmallest := nselect Order.asc.

Module Mover.
Record t : Type := mk {
  name : string;
  category : string;
  turnover : num;
  stock : Z;
  monthlySales : Z;
  daysSupply : num;
  inventoryValue : num;
  abcClass : string;
  status : string;
  priorityScore : num
}.
End Mover.

Module Movers.
Record t : Type := mk {
  fastMovers : list Mover.t;
  slowMovers : list Mover.t;
  fastMoversCount : nat;
  slowMoversCount : nat;
  fastMover : num;
  slowMover : num
}.
End Movers.

Module Product.
Record t : Type := mk {
  name : string;
  category : string;
  currentStock : Z;
  monthlySales : Z;
  turnover : num;
  daysOfSupply : num;
  status : string;
  abcClass : string;
  inventoryValue : num;
  reorderPoint : Z;
  suggestedOrder : Z;
  priorityScore : num
}.
End Product.

Section Aggregator.
Context `{Library}.

(** [row[self.cols[k]]] *)
Definition row_col (self : InventoryCalculations) (row : Row) (k : string) :
    result cell :=
  key ← Py.item (cols self) k; RowOps.item row key.

(** [float(row[name])] and [int(row[name])] *)
Definition row_float (row : Row) (name : string) : result num :=
  c ← RowOps.item row (Some name); RowOps.float c.

Definition row_int (row : Row) (name : string) : result Z :=
  c ← RowOps.item row (Some name); RowOps.int c.

Definition mover_of_row (self : InventoryCalculations) (row : Row) : result Mover.t :=
  name ← row_col self row "name";
  category ← row_col self row "category";
  turnover ← row_float row "Final_Turnover";
  stock ← row_col self row "stock" ≫= RowOps.int;
  monthlySales ← row_col self row "sales" ≫= RowOps.int;
  daysSupply ← row_float row "Days_of_Supply";
  inventoryValue ← row_float row "Inventory_Value";
  let abcClass := str (RowOps.get row "ABC_Class" (CStr "C")) in
  status ← RowOps.item row (Some "Stock_Status");
  priorityScore ← row_float row "Priority_Score";
  Ok (Mover.mk (str name) (str category) (Py.round turnover 2) stock monthlySales
        (Py.round daysSupply 1) (Py.round inventoryValue 2) abcClass (str status)
        (Py.round priorityScore 1)).

(** The local function [format_movers] of [get_fast_slow_movers]. *)
Definition format_movers (self : InventoryCalculations) (d : DataFrame)
    (limit : nat) : result (list Mover.t) :=
  df_sorted ← (if Nat.eqb (Df.len d) 0 then Ok d else nlargest limit "Priority_Score" d);
  traverse (mover_of_row self) (RowOps.iterrows df_sorted).

Definition get_fast_slow_movers (self : InventoryCalculations) : result Movers.t :=
  let d := df self in
  turnover ← Df.getitem d (Some "Final_Turnover") ≫= Df.as_float;
  let turnover_75th := Stats.quantile 0.75 turnover in
  let turnover_25th := Stats.quantile 0.25 turnover in
  let fast_movers := Df.where_ (List.map (fun x => Num.geb x turnover_75th) turnover) d in
  let slow_movers := Df.where_ (List.map (fun x => Num.leb x turnover_25th) turnover) d in
  fast ← nlargest 10 "Final_Turnover" fast_movers ≫= fun top => format_movers self top 10;
  slow ← nsmallest 10 "Final_Turnover" slow_movers ≫= fun top => format_movers self top 10;
  Ok (Movers.mk fast slow (Df.len fast_movers) (Df.len slow_movers)
        (Py.round turnover_75th 2) (Py.round turnover_25th 2)).

Definition product_of_row (self : InventoryCalculations) (row : Row) :
    result Product.t :=
  name ← row_col self row "name";
  category ← row_col self row "category";
  currentStock ← row_col self row "stock" ≫= RowOps.int;
  monthlySales ← row_col self row "sales" ≫= RowOps.int;
  turnover ← row_float row "Final_Turnover";
  daysOfSupply ← row_float row "Days_of_Supply";
  status ← RowOps.item row (Some "Stock_Status");
  let abcClass := str (RowOps.get row "ABC_Class" (CStr "C")) in
  inventoryValue ← row_float row "Inventory_Value";
  reorderPoint ← row_int row "Optimal_Reorder_Point";
  suggestedOrder ← RowOps.int (RowOps.get row "EOQ" (CNum (lit 0)));
  priorityScore ← row_float row "Priority_Score";
  Ok (Product.mk (str name) (str category) currentStock monthlySales
        (Py.round turnover 2) (Py.round daysOfSupply 1) (str status) abcClass
        (Py.round inventoryValue 2) reorderPoint suggestedOrder
        (Py.round priorityScore 1)).

(** [df[df[column] == value]] *)
Definition where_eq (d : DataFrame) (column : option string) (value : string) :
    result DataFrame :=
  c ← Df.getitem d column;
  Ok (Df.where_ (List.map (cell_is value) c) d).

Definition status_mapping : gmap string string :=
  list_to_map [("Critical", "CRITICAL"); ("Low Stock", "LOW");
               ("Healthy", "HEALTHY"); ("Excess", "EXCESS")].

Definition is_set (o : option string) (all : list string) : option string :=
  match o with
  | Some s => if negb (String.eqb s "") && negb (bool_decide (s ∈ all)) then Some s else None
  | None => None
  end.

(** The four filters of [filter_products], in the order they are applied. *)
Definition by_category (self : InventoryCalculations) (category : option string)
    (filtered_df : DataFrame) : result DataFrame :=
  match is_set category ["All Categories"; "All"] with
  | Some category =>
      key ← Py.item (cols self) "category"; where_eq filtered_df key category
  | None => Ok filtered_df
  end.

Definition by_status (status : option string) (filtered_df : DataFrame) :
    result DataFrame :=
  match is_set status ["All"] with
  | Some status =>
      values ← Df.getitem filtered_df (Some "Stock_Status");
      if existsb (cell_is status) values
      then where_eq filtered_df (Some "Stock_Status") status
      else
        (* the legacy status labels *)
        match status_mapping !! status with
        | Some mapped_status =>
            if negb (String.eqb mapped_status "")
            then where_eq filtered_df (Some "Stock_Status") mapped_status
            else Ok filtered_df
        | None => Ok filtered_df
        end
  | None => Ok filtered_df
  end.

Definition by_abc_class (abc_class : option string) (filtered_df : DataFrame) :
    result DataFrame :=
  match is_set abc_class ["All"] with
  | Some abc_class => where_eq filtered_df (Some "ABC_Class") abc_class
  | None => Ok filtered_df
  end.

Definition by_search (self : InventoryCalculations) (search : option string)
    (filtered_df : DataFrame) : result DataFrame :=
  match search with
  | Some s =>
      if negb (String.eqb s "") && negb (String.eqb (Str.strip s) "")
      then
        key ← Py.item (cols self) "name";
        names ← Df.getitem filtered_df key;
        let search_mask :=
          List.map (fun c => match c with
                             | CStr v => str_contains (Str.strip s) v
                             | CNum _ => false
                             end) names in
        Ok (Df.where_ search_mask filtered_df)
      else Ok filtered_df
  | None => Ok filtered_df
  end.

Definition filter_products (self : InventoryCalculations)
    (category status search abc_class : option string) : result (list Product.t) :=
  filtered_df ← by_category self category (df self);
  filtered_df ← by_status status filtered_df;
  filtered_df ← by_abc_class abc_class filtered_df;
  filtered_df ← by_search self search filtered_df;
  results ← traverse (product_of_row self) (RowOps.iterrows filtered_df);
  Ok (stable_sort (fun a b => Num.ltb (Product.priorityScore b) (Product.priorityScore a))
        results).

End Aggregator.

(** ** A reference instance of the library functions

    Used to run the engine on concrete tables: decimal literals, a square
    root rounded down to six decimals, and a plain case-insensitive
    substring search where pandas takes a regular expression. *)

Module Reference.

Definition digits (s : string) : option Z :=
  match s with
  | EmptyString => None
  | _ => Z.of_uint <$> NilZero.uint_of_string s
  end.

Definition parse_decimal (s : string) : num :=
  let s := Str.strip s in
  let '(negative, body) :=
    match s with
    | String "-" t => (true, t)
    | String "+" t => (false, t)
    | _ => (false, s)
    end in
  let signed (q : Q) : num := Fin (Qred (if negative : bool then - q else q)) in
  match Str.split "." body with
  | [whole] =>
      match digits whole with
      | Some w => signed (inject_Z w)
      | None => NaN
      end
  | [whole; frac] =>
      match digits whole, digits frac with
      | Some w, Some f =>
          let scale := (10 ^ Z.of_nat (String.length frac))%Z in
          signed (inject_Z (w * scale + f) / inject_Z scale)%Q
      | _, _ => NaN
      end
  | _ => NaN
  end.

Definition string_of_Z (z : Z) : string := NilZero.string_of_int (Z.to_int z).

(** Up to six decimals, the value cut off there. *)
Definition show_float (x : num) : string :=
  match x with
  | NaN => "nan"
  | PInf => "inf"
  | NInf => "-inf"
  | Fin q =>
      let scaled := Z.quot (Qnum q * 1000000) (Zpos (Qden q)) in
      let whole := Z.quot scaled 1000000 in
      let frac := Z.abs (Z.rem scaled 1000000) in
      let pad := String.substring 1 6 (string_of_Z (1000000 + frac)) in
      (if (scaled <? 0)%Z && (whole =? 0)%Z then "-" else "")
      +:+ string_of_Z whole +:+ "." +:+ pad
  end.

Definition sqrt_floor (x : num) : num :=
  match x with
  | Fin q =>
      if Qle_bool 0 q
      then Fin (Qred (inject_Z (Z.sqrt (Qfloor (q * 1000000000000))) / 1000000))
      else NaN
  | PInf => PInf
  | _ => NaN
  end.

Definition contains_ci (pat s : string) : bool :=
  Str.contains (Str.lower pat) (Str.lower s).

#[export] Instance library : Library :=
  {| parse_float := parse_decimal;
     str_of_float := show_float;
     np_sqrt := sqrt_floor;
     str_contains := contains_ci |}.

End Reference.

(** ** The rules in the words of the specification *)

(** The stock-status cascade for one row. *)
Definition status_rule (stock reorder_level days_of_supply : num) : string :=
  if (stock <=? reorder_level * lit 0.5)%num || (days_of_supply <=? lit 7)%num
  then "CRITICAL"
  else if (stock <=? reorder_level)%num || (days_of_supply <=? lit 15)%num
  then "LOW"
  else if (stock <=? reorder_level * lit 2)%num && (days_of_supply <=? lit 45)%num
  then "NORMAL"
  else if (stock <=? reorder_level * lit 3)%num && (days_of_supply <=? lit 90)%num
  then "HEALTHY"
  else "EXCESS".

(** ** Example tables *)

Module Examples.
Import Reference.

Definition floats (l : list Q) : list cell := CNum <$> (lit <$> l).
Definition strings (l : list string) : list cell := CStr <$> l.

(** The column map of a table with the headers Product, Category, Stock,
    Sales, Reorder and Price. *)
Definition full_map : gmap string (option string) :=
  list_to_map
    [("name", Some "Product"); ("category", Some "Category");
     ("stock", Some "Stock"); ("sales", Some "Sales");
     ("reorder", Some "Reorder"); ("price", Some "Price");
     ("supplier", None); ("lead_time", None); ("max_stock", None);
     ("turnover", None)].

(** One product with stock 0, monthly sales 10 and reorder level 5, as
    it reaches [_classify_stock_status]. *)
Definition out_of_stock : InventoryCalculations :=
  mkCalc
    (mkDF [0%Z]
       [("Product", strings ["Widget"]); ("Category", strings ["Tools"]);
        ("Stock", floats [0%Q]); ("Sales", floats [10%Q]);
        ("Reorder", floats [5%Q]); ("Price", floats [2%Q]);
        ("Days_of_Supply", floats [0%Q]);
        ("Optimal_Reorder_Point", floats [(59 # 3)%Q]);
        ("ABC_Class", strings ["C"])])
    full_map.

Definition out_of_stock_classified : InventoryCalculations :=
  match _classify_stock_status out_of_stock with
  | Ok self => self
  | Err _ => out_of_stock
  end.

(** A small cleaned table with a price column, and the engine run on it. *)
Definition inventory : DataFrame :=
  mkDF [0%Z; 1%Z; 2%Z]
    [("Product", strings ["Widget A"; "Widget B"; "Gadget"]);
     ("Category", strings ["Tools"; "Tools"; "Toys"]);
     ("Stock", floats [5; 100; 0]%Q);
     ("Sales", floats [2; 1; 10]%Q);
     ("Reorder", floats [10; 5; 5]%Q);
     ("Price", floats [10; 2; 4]%Q)].

(** The engine's state for a table, the untouched table when the engine
    raises. *)
Definition run (table : DataFrame) (columns_map : gmap string (option string)) :
    InventoryCalculations :=
  match __init__ table columns_map with
  | Ok self => self
  | Err _ => mkCalc table columns_map
  end.

Definition augmented : InventoryCalculations := run inventory full_map.

(** A cleaned table none of whose headers resolves to a price. *)
Definition unpriced : DataFrame :=
  mkDF [0%Z; 1%Z]
    [("Product", strings ["Widget A"; "Widget B"]);
     ("Category", strings ["Tools"; "Tools"]);
     ("Stock", floats [5; 100]%Q);
     ("Sales", floats [2; 1]%Q)].

Definition unpriced_map : gmap string (option string) :=
  DataProcessor.detect_columns unpriced.

(** A cleaned table whose first product sold nothing this month. *)
Definition dead_stock : DataFrame :=
  mkDF [0%Z; 1%Z]
    [("Product", strings ["Shelf"; "Widget"]);
     ("Category", strings ["Tools"; "Tools"]);
     ("Stock", floats [5; 100]%Q);
     ("Sales", floats [0; 1]%Q);
     ("Reorder", floats [2; 5]%Q);
     ("Price", floats [10; 2]%Q)].

(** Two products whose order by annual sales and by cost of goods sold
    differ: a dear one that sells little and a cheap one that sells more. *)
Definition priced : DataFrame :=
  mkDF [0%Z; 1%Z]
    [("Product", strings ["Drill"; "Nail"]);
     ("Category", strings ["Tools"; "Tools"]);
     ("Stock", floats [10; 10]%Q);
     ("Sales", floats [1; 5]%Q);
     ("Reorder", floats [5; 5]%Q);
     ("Price", floats [10; 1]%Q)].

(** The same table as it reaches [_calculate_abc_analysis]. *)
Definition priced_before_abc : InventoryCalculations :=
  mkCalc
    (mkDF [0%Z; 1%Z]
       [("Product", strings ["Drill"; "Nail"]);
        ("Sales", floats [1; 5]%Q);
        ("Price", floats [10; 1]%Q);
        ("Annual_Sales", floats [12; 60]%Q);
        ("COGS", floats [120; 60]%Q)])
    full_map.

(** Twelve products that all turn over twelve times a year: stock and
    monthly sales are equal, from 1 to 12. *)
Definition steady : DataFrame :=
  let units := [1; 2; 3; 4; 5; 6; 7; 8; 9; 10; 11; 12]%Q in
  mkDF [0; 1; 2; 3; 4; 5; 6; 7; 8; 9; 10; 11]%Z
    [("Product",
      strings ["P1"; "P2"; "P3"; "P4"; "P5"; "P6"; "P7"; "P8"; "P9"; "P10";
               "P11"; "P12"]);
     ("Category", strings (replicate 12 "Tools"));
     ("Stock", floats units);
     ("Sales", floats units);
     ("Reorder", floats (replicate 12 1%Q));
     ("Price", floats (replicate 12 1%Q))].

Definition steady_engine : InventoryCalculations := run steady full_map.

Definition steady_movers : Movers.t :=
  match get_fast_slow_movers steady_engine with
  | Ok movers => movers
  | Err _ => Movers.mk [] [] 0 0 NaN NaN
  end.

Definition missing : cell := CNum NaN.

(** A raw table with a negative stock entry and gaps in the stock and
    reorder columns. *)
Definition restock : DataFrame :=
  mkDF [0%Z; 1%Z; 2%Z]
    [("Product", strings ["Widget A"; "Widget B"; "Gadget"]);
     ("Category", strings ["Tools"; "Tools"; "Toys"]);
     ("Stock", [CNum (lit (-10)); CNum (lit 20); missing]);
     ("Sales", floats [2; 1; 10]%Q);
     ("Reorder", [CNum (lit 5); missing; CNum (lit 3)]);
     ("Price", floats [10; 2; 4]%Q)].

(** A raw table whose second row has no name, no stock and no sales. *)
Definition gaps : DataFrame :=
  mkDF [0%Z; 1%Z; 2%Z]
    [("Product", [CStr "Widget A"; missing; CStr "Gadget"]);
     ("Category", strings ["Tools"; "Tools"; "Toys"]);
     ("Stock", [CNum (lit 5); missing; CNum (lit 7)]);
     ("Sales", [CNum (lit 2); missing; CNum (lit 4)]);
     ("Price", floats [10; 3; 4]%Q)].

Definition gaps_map : gmap string (option string) :=
  DataProcessor.detect_columns gaps.

End Examples.

(** Numbers that are present and not negative. *)
Definition nonneg (x : num) : bool :=
  match x with
  | Fin q => Qle_bool 0 q
  | PInf => true
  | _ => false
  end.

Section CleanedStock.
Context `{Library}.

(** The stock column as [clean_data] leaves it: numbers, negative entries
    made positive, gaps filled with the median. *)
Definition cleaned_stock (raw : list cell) : list num :=
  let xs := to_numeric raw in
  let xs := if existsb (fun x => Num.ltb x (lit 0)) xs then List.map Num.abs xs else xs in
  fillna (if forallb Num.is_nan xs then lit 0 else Stats.median xs) xs.

End CleanedStock.

(** The ABC class of a cumulative share of the total, in percent. *)
Definition abc_class_of (cumulative_percent : num) : string :=
  if (cumulative_percent <=? lit 70)%num then "A"
  else if (cumulative_percent <=? lit 90)%num then "B"
  else "C".

(** The place of a row in a ranking. *)
Fixpoint index_of (row : nat) (ranking : list nat) : option nat :=
  match ranking with
  | [] => None
  | r :: ranking' => if Nat.eqb r row then Some 0 else S <$> index_of row ranking'
  end.

(** ABC classes by Pareto banding of a per-row impact: rank the rows by
    descending impact, accumulate, and class each row by the cumulative
    percentage of the total reached at its rank. *)
Definition abc_by (impact : list num) : list string :=
  let ranking := Order.argsort Order.desc impact in
  let ranked := Df.pick ranking impact in
  let total := Num.nansum ranked in
  let class_at_rank :=
    (fun c => abc_class_of (c / total * lit 100)%num) <$> Num.cumsum ranked in
  (fun row => default "C" (index_of row ranking ≫= fun r => class_at_rank !! r))
    <$> seq 0 (length impact).

(** Every column of a frame has one cell per row. *)
Definition well_formed (d : DataFrame) : Prop :=
  Forall (fun kc => length kc.2 = Df.len d) (columns d).

(** The key of the row at a position. *)
Definition key_at (keys : list num) (row : nat) : num := default NaN (keys !! row).

(** The first [n] of the given rows when they are put in the order
    [before] of their keys, rows with equal keys staying in the order
    given. *)
Definition first_by (before : num -> num -> bool) (keys : list num) (n : nat)
    (rows : list nat) : list nat :=
  firstn n (stable_sort (fun i j => before (key_at keys i) (key_at keys j)) rows).

(** The rows whose key passes a test, in table order. *)
Definition cohort (test : num -> bool) (keys : list num) : list nat :=
  Df.mask_positions (List.map test keys).

(** [chosen] are [n] of [rows] (all of them when there are fewer), in the
    order [before], and no row left out goes strictly before a chosen
    one. *)
Definition selects (before : num -> num -> bool) (keys : list num) (n : nat)
    (rows chosen : list nat) : Prop :=
  length chosen = Nat.min n (length rows)
  /\ StronglySorted (fun i j => before (key_at keys j) (key_at keys i) = false) chosen
  /\ exists rest,
       rows ≡ₚ chosen ++ rest
       /\ forall i j, i ∈ chosen -> j ∈ rest ->
            before (key_at keys j) (key_at keys i) = false.

(** ** More example tables *)

Module Samples.

(** A table whose first header carries one of the generic inventory
    terms and nothing else that names a field. *)
Definition counted : DataFrame :=
  mkDF [0%Z; 1%Z]
    [("Units", Examples.floats [3; 4]%Q);
     ("Notes", Examples.strings ["fragile"; "heavy"]);
     ("Region", Examples.strings ["North"; "South"])].

(** A cleaned table with the usual headers and no row. *)
Definition no_rows : DataFrame :=
  mkDF []
    [("Product", []); ("Category", []); ("Stock", []); ("Sales", []);
     ("Reorder", []); ("Price", [])].

(** A cleaned table with a product that is out of stock and no longer
    sells. *)
Definition dormant : DataFrame :=
  mkDF [0%Z; 1%Z]
    [("Product", Examples.strings ["Widget"; "Relic"]);
     ("Category", Examples.strings ["Tools"; "Tools"]);
     ("Stock", Examples.floats [50; 0]%Q);
     ("Sales", Examples.floats [20; 0]%Q);
     ("Reorder", Examples.floats [10; 5]%Q);
     ("Price", Examples.floats [10; 3]%Q)].

(** A table read from a CSV file whose header line has a blank after
    each comma: [Product, Category, Stock, Sales, Reorder, Price]. *)
Definition spaced : DataFrame :=
  mkDF [0%Z; 1%Z]
    [("Product", Examples.strings ["Widget"; "Gadget"]);
     (" Category", Examples.strings [" Tools"; " Toys"]);
     (" Stock", Examples.floats [50; 8]%Q);
     (" Sales", Examples.floats [20; 4]%Q);
     (" Reorder", Examples.floats [10; 5]%Q);
     (" Price", Examples.floats [10; 3]%Q)].

Definition spaced_map : gmap string (option string) :=
  DataProcessor.detect_columns spaced.

(** The engine on the table as [clean_data] leaves it. *)
Definition spaced_engine : InventoryCalculations :=
  match clean_data (H := Reference.library) spaced spaced_map with
  | Ok (cleaned, _) => Examples.run cleaned spaced_map
  | Err _ => mkCalc spaced spaced_map
  end.

End Samples.

(** ** Python numbers outside numpy

    A cell read from a row that [iterrows] yields is a Python object: the
    columns of the engine's table have mixed types, so pandas hands out
    each row with dtype [object], floats as Python floats.  Division of
    Python numbers raises [ZeroDivisionError] on a zero divisor, where
    numpy returns an infinity or [nan]. *)

Inductive error : Type :=
| Raised (e : exn)
| ZeroDivisionError.

Inductive outcome (A : Type) : Type :=
| Returns (a : A)
| Fails (e : error).
Arguments Returns {A} a.
Arguments Fails {A} e.

#[global] Instance outcome_ret : MRet outcome := fun A a => Returns a.
#[global] Instance outcome_bind : MBind outcome :=
  fun A B f m => match m with Returns a => f a | Fails e => Fails e end.

(** A step that can only raise the exceptions of [exn]. *)
Definition lift {A} (r : result A) : outcome A :=
  match r with Ok a => Returns a | Err e => Fails (Raised e) end.

Fixpoint traverse_outcome {A B} (f : A -> outcome B) (l : list A) : outcome (list B) :=
  match l with
  | [] => Returns []
  | a :: l' => b ← f a; bs ← traverse_outcome f l'; Returns (b :: bs)
  end.

Module PyNum.

Definition is_zero (x : num) : bool :=
  match x with Fin q => Qeq_bool q 0 | _ => false end.

(** [x / y] for Python floats and ints. *)
Definition div (x y : num) : outcome num :=
  if is_zero y then Fails ZeroDivisionError else Returns (x / y)%num.

(** [a - b] for two row entries. *)
Definition sub (a b : cell) : result cell :=
  match a, b with
  | CNum x, CNum y => Ok (CNum (x - y)%num)
  | _, _ => Err TypeError
  end.

(** [a * n] and [n * a] for a row entry and an int: text is repeated. *)
Definition times (a : cell) (n : Z) : cell :=
  match a with
  | CNum x => CNum (x * Num.of_Z n)%num
  | CStr s => CStr (String.concat "" (replicate (Z.to_nat n) s))
  end.

(** [a / b] for two row entries. *)
Definition quotient (a b : cell) : outcome num :=
  match a, b with
  | CNum x, CNum y => div x y
  | _, _ => Fails (Raised TypeError)
  end.

(** [a <= n] for a row entry and a number. *)
Definition le (a : cell) (n : num) : result bool :=
  match a with
  | CNum x => Ok (x <=? n)%num
  | CStr _ => Err TypeError
  end.

(** [a / b] for two Python ints. *)
Definition int_div (a b : Z) : outcome num :=
  if (b =? 0)%Z then Fails ZeroDivisionError
  else Returns (Fin (Qred (inject_Z a / inject_Z b))).

End PyNum.

(** ** Grouping and reducing: [groupby(...).agg(...)] *)

(** [{..., k: v}]: one more entry of a dict literal.  A key written twice
    keeps its first place and takes the last value. *)
Fixpoint dict_set {V} (k : option string) (v : V) (d : list (option string * V)) :
    list (option string * V) :=
  match d with
  | [] => [(k, v)]
  | (k', v') :: d' =>
      if decide (k = k') then (k', v) :: d' else (k', v') :: dict_set k v d'
  end.

Inductive agg : Type := Sum | Mean | Count | Median.

(** What a dict passed to [agg] gives for a column: a list of reductions,
    or the name of one. *)
Inductive reducers : Type :=
| Many (fs : list agg)
| One (f : agg).

Module Group.

Definition agg_name (f : agg) : string :=
  match f with
  | Sum => "sum"
  | Mean => "mean"
  | Count => "count"
  | Median => "median"
  end.

Definition cell_eqb (a b : cell) : bool :=
  match a, b with
  | CNum x, CNum y => Num.eqb x y
  | CStr s, CStr t => String.eqb s t
  | _, _ => false
  end.

(** [Series.unique()]: the values in order of first appearance; the
    missing value counts as one value. *)
Definition same (a b : cell) : bool := cell_eqb a b || (isna a && isna b).

Definition unique (c : list cell) : list cell :=
  foldl (fun seen x => if existsb (same x) seen then seen else seen ++ [x]) [] c.

(** The order of group keys: numbers first, then text. *)
Definition key_lt (a b : cell) : bool :=
  match a, b with
  | CNum x, CNum y => (x <? y)%num
  | CNum _, CStr _ => true
  | CStr _, CNum _ => false
  | CStr s, CStr t => String.ltb s t
  end.

(** The group keys of a column: its distinct values that are not
    missing, sorted. *)
Definition keys (c : list cell) : list cell :=
  stable_sort key_lt (unique (List.filter (fun x => negb (isna x)) c)).

(** The rows of a group. *)
Definition members (key : cell) (c : list cell) : list nat :=
  Df.mask_positions (List.map (cell_eqb key) c).

Definition reduce (f : agg) (xs : list num) : num :=
  match f with
  | Sum => Num.nansum xs
  | Mean => Stats.mean xs
  | Count => Num.of_Z (Z.of_nat (length (Stats.dropna xs)))
  | Median => Stats.median xs
  end.

(** The reductions asked for a column, in order. *)
Definition functions (r : reducers) : list agg :=
  match r with Many fs => fs | One f => [f] end.

Definition is_many (r : reducers) : bool :=
  match r with Many _ => true | One _ => false end.

(** The columns of the result: pairs (column, reduction) as soon as one
    entry of the dict is a list, plain column names otherwise. *)
Inductive label : Type :=
| Pair (column reduction : string)
| Plain (column : string).

Definition labels (spec : list (string * reducers)) : list (label * (string * agg)) :=
  if existsb (fun kr => is_many kr.2) spec
  then mjoin (List.map (fun kr =>
                 List.map (fun f => (Pair kr.1 (agg_name f), (kr.1, f)))
                   (functions kr.2)) spec)
  else mjoin (List.map (fun kr =>
                 List.map (fun f => (Plain kr.1, (kr.1, f))) (functions kr.2)) spec).

(** The columns named in the dict have to be columns of the frame other
    than the grouping column. *)
Definition selected (d : DataFrame) (by_ : string) (key : option string) :
    result string :=
  match key with
  | Some k =>
      if Df.contains key d && negb (String.eqb k by_) then Ok k else Err (KeyError key)
  | None => Err (KeyError None)
  end.

(** [df.groupby(by)]: the name and the cells of the grouping column. *)
Definition by_ (d : DataFrame) (key : option string) : result (string * list cell) :=
  match key with
  | None => Err TypeError
  | Some k => grouping ← Df.getitem d key; Ok (k, grouping)
  end.

(** [grouped.agg(spec)]: the group keys, and for each column of the
    result its label and its values, one per group. *)
Definition agg_dict (d : DataFrame) (grouped : string * list cell)
    (spec : list (option string * reducers)) :
    result (list cell * list (label * list num)) :=
  let '(by_name, grouping) := grouped in
  spec ← traverse (fun kr => k ← selected d by_name kr.1; Ok (k, kr.2)) spec;
  let groups := keys grouping in
  columns ←
    traverse (fun lf : label * (string * agg) =>
                xs ← Df.getitem d (Some lf.2.1) ≫= Df.as_float;
                Ok (lf.1,
                    List.map (fun key => reduce lf.2.2 (Df.pick (members key grouping) xs))
                      groups))
      (labels spec);
  Ok (groups, columns).

(** ['_'.join(col).strip()] for a column label: the two parts of a pair,
    or the characters of a plain name. *)
Fixpoint characters (s : string) : list string :=
  match s with
  | EmptyString => []
  | String c s' => String c EmptyString :: characters s'
  end.

Definition flatten (l : label) : string :=
  Str.strip (String.concat "_"
               match l with
               | Pair column reduction => [column; reduction]
               | Plain column => characters column
               end).

(** [row[name]] converted by [float] or [int], for a row of a frame whose
    columns are named [names]: a name borne by two columns yields both
    entries, which cannot be converted. *)
Definition entry (columns : list (string * list num)) (group : nat) (name : string) :
    result num :=
  match List.filter (fun kc => String.eqb kc.1 name) columns with
  | [] => Err (KeyError (Some name))
  | [kc] => Ok (Stats.nth_num kc.2 group)
  | _ => Err TypeError
  end.

End Group.

(** ** The aggregator: the other reports *)

Module Kpis.
Record t : Type := mk {
  totalProducts : nat;
  criticalAlerts : nat;
  averageTurnover : num;
  inventoryHealth : num;
  totalInventoryValue : num;
  totalAnnualSales : num;
  inventoryROI : num;
  weightedTurnover : num;
  avgDaysSupply : num;
  serviceLevel : num;
  emergencyStock : nat;
  lowStock : nat;
  healthyStock : nat;
  excessStock : nat;
  obsoleteItems : nat;
  obsoleteValue : num;
  stockoutRisk : num;
  abcBreakdown : list (string * list (cell * num))
}.
End Kpis.

Module Reorder.
Record t : Type := mk {
  product : string;
  category : string;
  currentStock : Z;
  reorderPoint : Z;
  suggestedOrder : Z;
  daysOfSupply : num;
  urgency : string;
  priority_score : num;
  monthlySales : Z;
  turnoverRate : num;
  abcClass : string;
  estimatedCost : num;
  status : string
}.
End Reorder.

Module CategoryMetrics.
Record t : Type := mk {
  totalSales : num;
  avgSales : num;
  productCount : Z;
  avgTurnover : num;
  inventoryValue : num;
  avgDaysSupply : num;
  totalStock : Z
}.
End CategoryMetrics.

Module FilterOptions.
Record t : Type := mk {
  categories : list string;
  statuses : list string;
  abcClasses : list string;
  turnoverRanges : list string;
  daysSupplyRanges : list string
}.
End FilterOptions.

(** The messages of [get_inventory_insights], with the numbers they
    print. *)
Inductive insight : Type :=
| CriticallyLow (critical_items : nat)
| ExcessInventory (excess_value : num)
| SlowMoving (slow_movers : nat)
| UnderstockedAClass (a_class_low : nat).

Module Insights.
Record t : Type := mk {
  alerts : list insight;
  recommendations : list insight;
  opportunities : list insight;
  risks : list insight
}.
End Insights.

Section Reports.
Context `{Library}.

(** [len(self.df[self.df[column] == label])] *)
Definition count_where (self : InventoryCalculations) (column label : string) :
    result nat :=
  c ← Df.getitem (df self) (Some column);
  Ok (Df.len (Df.where_ (List.map (cell_is label) c) (df self))).

(** [self.df[mask][column].sum()] *)
Definition sum_where (d : DataFrame) (mask : list bool) (column : string) :
    result num :=
  xs ← Df.getitem (Df.where_ mask d) (Some column) ≫= Df.as_float;
  Ok (Num.nansum xs).

(** The ABC summary of [calculate_kpis]:
    [groupby('ABC_Class').agg({...}).to_dict()]. *)
Definition abc_breakdown (self : InventoryCalculations) :
    result (list (string * list (cell * num))) :=
  let d := df self in
  classes ← Df.getitem d (Some "ABC_Class");
  k_name ← Py.item (cols self) "name";
  let spec := dict_set k_name Count [(Some "Inventory_Value", Sum)] in
  spec ← traverse (fun kf => k ← Group.selected d "ABC_Class" kf.1; Ok (k, kf.2)) spec;
  let groups := Group.keys classes in
  traverse (fun kf : string * agg =>
              c ← Df.getitem d (Some kf.1);
              values ←
                match kf.2 with
                | Count =>
                    Ok (List.map
                          (fun key =>
                             Num.of_Z (Z.of_nat
                               (count_if (fun x => negb (isna x))
                                  (Df.pick (Group.members key classes) c))))
                          groups)
                | f =>
                    xs ← Df.as_float c;
                    Ok (List.map
                          (fun key => Group.reduce f (Df.pick (Group.members key classes) xs))
                          groups)
                end;
              Ok (kf.1, zip_with pair groups values))
    spec.

Definition calculate_kpis (self : InventoryCalculations) : outcome Kpis.t :=
  let d := df self in
  let total_products := Df.len d in
  critical_count ← lift (count_where self "Stock_Status" "CRITICAL");
  low_count ← lift (count_where self "Stock_Status" "LOW");
  healthy_count ← lift (count_where self "Stock_Status" "HEALTHY");
  excess_count ← lift (count_where self "Stock_Status" "EXCESS");
  (* financial metrics *)
  inventory_value ← lift (Df.getitem d (Some "Inventory_Value") ≫= Df.as_float);
  let total_inventory_value := Num.nansum inventory_value in
  annual_sales ← lift (Df.getitem d (Some "Annual_Sales") ≫= Df.as_float);
  let total_annual_sales := Num.nansum annual_sales in
  (* turnover *)
  turnover ← lift (Df.getitem d (Some "Final_Turnover") ≫= Df.as_float);
  let avg_turnover := Stats.mean turnover in
  weighted_turnover ←
    (if (total_inventory_value >? lit 0)%num
     then
       turnover ← lift (Df.getitem d (Some "Final_Turnover") ≫= Df.as_float);
       value ← lift (Df.getitem d (Some "Inventory_Value") ≫= Df.as_float);
       Returns (Num.nansum (zip_with Num.mul turnover value) / total_inventory_value)%num
     else Returns (lit 0));
  (* inventory health *)
  normal_count ← lift (count_where self "Stock_Status" "NORMAL");
  healthy_share ←
    PyNum.int_div (Z.of_nat (healthy_count + normal_count)) (Z.of_nat total_products);
  let healthy_percentage := (healthy_share * lit 100)%num in
  days_supply ← lift (Df.getitem d (Some "Days_of_Supply") ≫= Df.as_float);
  let avg_days_supply := Stats.median days_supply in
  abc_breakdown ← lift (abc_breakdown self);
  service_level ←
    (if 0 <? total_products
     then
       share ← PyNum.int_div (Z.of_nat total_products - Z.of_nat critical_count)
                 (Z.of_nat total_products);
       Returns (share * lit 100)%num
     else Returns (lit 0));
  (* obsolete inventory: more than 180 days of supply *)
  days_supply ← lift (Df.getitem d (Some "Days_of_Supply") ≫= Df.as_float);
  let obsolete := List.map (fun x => (x >? lit 180)%num) days_supply in
  let obsolete_inventory := Df.len (Df.where_ obsolete d) in
  days_supply ← lift (Df.getitem d (Some "Days_of_Supply") ≫= Df.as_float);
  obsolete_value ←
    lift (sum_where d (List.map (fun x => (x >? lit 180)%num) days_supply) "Inventory_Value");
  stockout_risk ←
    (if 0 <? total_products
     then
       share ← PyNum.int_div (Z.of_nat critical_count) (Z.of_nat total_products);
       Returns (share * lit 100)%num
     else Returns (lit 0));
  Returns
    {| Kpis.totalProducts := total_products;
       Kpis.criticalAlerts := critical_count;
       Kpis.averageTurnover := Py.round avg_turnover 2;
       Kpis.inventoryHealth := Py.round healthy_percentage 1;
       Kpis.totalInventoryValue := Py.round total_inventory_value 2;
       Kpis.totalAnnualSales := Py.round total_annual_sales 2;
       Kpis.inventoryROI :=
         Py.round (if (total_inventory_value >? lit 0)%num
                   then (total_annual_sales / total_inventory_value * lit 100)%num
                   else lit 0) 1;
       Kpis.weightedTurnover := Py.round weighted_turnover 2;
       Kpis.avgDaysSupply := Py.round avg_days_supply 1;
       Kpis.serviceLevel := Py.round service_level 1;
       Kpis.emergencyStock := critical_count;
       Kpis.lowStock := low_count;
       Kpis.healthyStock := healthy_count;
       Kpis.excessStock := excess_count;
       Kpis.obsoleteItems := obsolete_inventory;
       Kpis.obsoleteValue := Py.round obsolete_value 2;
       Kpis.stockoutRisk := Py.round stockout_risk 1;
       Kpis.abcBreakdown := abc_breakdown |}.

(** [product['Days_of_Supply'] <= n] *)
Definition days_within (product : Row) (n : num) : result bool :=
  days ← RowOps.item product (Some "Days_of_Supply"); PyNum.le days n.

Definition urgency_of (product : Row) : result string :=
  critical ← days_within product (lit 7);
  if critical : bool then Ok "CRITICAL"
  else
    high ← days_within product (lit 15);
    if high : bool then Ok "HIGH"
    else
      medium ← days_within product (lit 30);
      Ok (if medium : bool then "MEDIUM" else "LOW").

(** One round of the loop of [get_priority_reorders]. *)
Definition reorder_of_row (self : InventoryCalculations) (product : Row) :
    outcome Reorder.t :=
  (* the suggested quantity: EOQ, or the gap to the reorder point, or two
     months of sales *)
  eoq ← lift (row_int product "EOQ");
  point ← lift (RowOps.item product (Some "Optimal_Reorder_Point"));
  stock ← lift (row_col self product "stock");
  gap ← lift (PyNum.sub point stock ≫= RowOps.int);
  sales ← lift (row_col self product "sales");
  two_months ← lift (RowOps.int (PyNum.times sales 2));
  let suggested_qty := Z.max (Z.max eoq gap) two_months in
  urgency ← lift (urgency_of product);
  cost_impact ←
    PyNum.quotient (PyNum.times (RowOps.get product "COGS" (CNum (lit 25))) suggested_qty)
      (RowOps.get product "Annual_Sales" (CNum (lit 1)));
  name ← lift (row_col self product "name");
  category ← lift (row_col self product "category");
  currentStock ← lift (row_col self product "stock" ≫= RowOps.int);
  reorderPoint ← lift (row_int product "Optimal_Reorder_Point");
  daysOfSupply ← lift (row_float product "Days_of_Supply");
  priority_score ← lift (row_float product "Priority_Score");
  monthlySales ← lift (row_col self product "sales" ≫= RowOps.int);
  turnoverRate ← lift (row_float product "Final_Turnover");
  let abcClass := str (RowOps.get product "ABC_Class" (CStr "C")) in
  status ← lift (RowOps.item product (Some "Stock_Status"));
  Returns
    {| Reorder.product := str name;
       Reorder.category := str category;
       Reorder.currentStock := currentStock;
       Reorder.reorderPoint := reorderPoint;
       Reorder.suggestedOrder := suggested_qty;
       Reorder.daysOfSupply := Py.round daysOfSupply 1;
       Reorder.urgency := urgency;
       Reorder.priority_score := Py.round priority_score 1;
       Reorder.monthlySales := monthlySales;
       Reorder.turnoverRate := Py.round turnoverRate 2;
       Reorder.abcClass := abcClass;
       Reorder.estimatedCost := Py.round cost_impact 2;
       Reorder.status := str status |}.

(** The rows that need reordering: status CRITICAL or LOW, or at most 30
    days of supply. *)
Definition reorder_candidates (self : InventoryCalculations) : result DataFrame :=
  let d := df self in
  status ← Df.getitem d (Some "Stock_Status");
  days_supply ← Df.floats d (Some "Days_of_Supply");
  let flagged := List.map (fun c => cell_is "CRITICAL" c || cell_is "LOW" c) status in
  let soon := Np.cmp Num.leb (Df.len d) days_supply (Scal (lit 30)) in
  Ok (Df.where_ (zip_with orb flagged soon) d).

Definition get_priority_reorders (self : InventoryCalculations) (limit : nat) :
    outcome (list Reorder.t) :=
  reorder_candidates ← lift (reorder_candidates self);
  if Nat.eqb (Df.len reorder_candidates) 0 then Returns []
  else
    priority_reorders ← lift (nlargest limit "Priority_Score" reorder_candidates);
    traverse_outcome (reorder_of_row self) (RowOps.iterrows priority_reorders).

(** ['{key}_{reduction}'] as the f-strings of [get_category_performance]
    print it. *)
Definition metric_name (key : option string) (reduction : string) : string :=
  default "None" key +:+ "_" +:+ reduction.

(** The frame [category_metrics] of [get_category_performance]: the
    categories, and the columns of reduced values (one value per
    category), rounded to two decimals, under their flattened names. *)
Definition category_metrics (self : InventoryCalculations) :
    result (list cell * list (string * list num)) :=
  let d := df self in
  k_category ← Py.item (cols self) "category";
  by_category ← Group.by_ d k_category;
  k_sales ← Py.item (cols self) "sales";
  k_stock ← Py.item (cols self) "stock";
  let spec :=
    dict_set k_stock (One Sum)
      (dict_set (Some "Days_of_Supply") (One Median)
         (dict_set (Some "Inventory_Value") (One Sum)
            (dict_set (Some "Final_Turnover") (One Mean)
               [(k_sales, Many [Sum; Mean; Count])]))) in
  grouped ← Group.agg_dict d by_category spec;
  let '(groups, columns) := grouped in
  Ok (groups,
      List.map (fun lc : Group.label * list num =>
                  (Group.flatten lc.1, List.map (fun x => Py.round x 2) lc.2))
        columns).

(** One round of the loop of [get_category_performance], for the
    category at position [group]. *)
Definition category_entry (self : InventoryCalculations)
    (category_metrics : list (string * list num)) (group : nat) :
    result CategoryMetrics.t :=
  let metrics := Group.entry category_metrics group in
  k_sales ← Py.item (cols self) "sales";
  totalSales ← metrics (metric_name k_sales "sum");
  k_sales ← Py.item (cols self) "sales";
  avgSales ← metrics (metric_name k_sales "mean");
  k_sales ← Py.item (cols self) "sales";
  productCount ← metrics (metric_name k_sales "count") ≫= Py.int;
  avgTurnover ← metrics "Final_Turnover_mean";
  inventoryValue ← metrics "Inventory_Value_sum";
  avgDaysSupply ← metrics "Days_of_Supply_median";
  k_stock ← Py.item (cols self) "stock";
  totalStock ← metrics (metric_name k_stock "sum") ≫= Py.int;
  Ok {| CategoryMetrics.totalSales := totalSales;
        CategoryMetrics.avgSales := avgSales;
        CategoryMetrics.productCount := productCount;
        CategoryMetrics.avgTurnover := avgTurnover;
        CategoryMetrics.inventoryValue := inventoryValue;
        CategoryMetrics.avgDaysSupply := avgDaysSupply;
        CategoryMetrics.totalStock := totalStock |}.

Definition get_category_performance (self : InventoryCalculations) :
    result (list (cell * CategoryMetrics.t)) :=
  frame ← category_metrics self;
  let '(groups, category_metrics) := frame in
  result ←
    traverse (fun gc : nat * cell =>
                entry ← category_entry self category_metrics gc.1; Ok (gc.2, entry))
      (imap pair groups);
  (* by total sales, highest first *)
  Ok (stable_sort
        (fun a b : cell * CategoryMetrics.t =>
           (CategoryMetrics.totalSales b.2 <? CategoryMetrics.totalSales a.2)%num)
        result).

(** Python's [a < b] on two cells: text and numbers do not compare. *)
Definition py_lt (a b : cell) : result bool :=
  match a, b with
  | CNum x, CNum y => Ok (x <? y)%num
  | CStr s, CStr t => Ok (String.ltb s t)
  | _, _ => Err TypeError
  end.

(** [sorted(l)]: each element goes behind the elements already placed
    that are not greater. *)
Fixpoint py_insert (x : cell) (l : list cell) : result (list cell) :=
  match l with
  | [] => Ok [x]
  | y :: l' =>
      less ← py_lt x y;
      if less : bool then Ok (x :: y :: l')
      else l'' ← py_insert x l'; Ok (y :: l'')
  end.

Definition py_sorted (l : list cell) : result (list cell) :=
  foldl (fun acc x => placed ← acc; py_insert x placed) (Ok []) l.

Definition get_filter_options (self : InventoryCalculations) : result FilterOptions.t :=
  let d := df self in
  k_category ← Py.item (cols self) "category";
  category ← Df.getitem d k_category;
  categories ← py_sorted (Group.unique category);
  status ← Df.getitem d (Some "Stock_Status");
  statuses ← py_sorted (Group.unique status);
  abc ← Df.getitem d (Some "ABC_Class");
  abc_classes ← py_sorted (Group.unique abc);
  Ok {| FilterOptions.categories := "All Categories" :: List.map str categories;
        FilterOptions.statuses := "All" :: List.map str statuses;
        FilterOptions.abcClasses := "All" :: List.map str abc_classes;
        FilterOptions.turnoverRanges :=
          ["All"; "High (>6x)"; "Medium (2-6x)"; "Low (<2x)"];
        FilterOptions.daysSupplyRanges :=
          ["All"; "Critical (<15)"; "Low (15-30)"; "Normal (30-90)"; "Excess (>90)"] |}.

Definition get_inventory_insights (self : InventoryCalculations) : result Insights.t :=
  let d := df self in
  (* critical alerts *)
  critical_items ← count_where self "Stock_Status" "CRITICAL";
  let alerts := if 0 <? critical_items then [CriticallyLow critical_items] else [] in
  (* excess inventory *)
  status ← Df.getitem d (Some "Stock_Status");
  excess_value ← sum_where d (List.map (cell_is "EXCESS") status) "Inventory_Value";
  let alerts :=
    if (excess_value >? lit 10000)%num then alerts ++ [ExcessInventory excess_value]
    else alerts in
  (* slow movers *)
  turnover ← Df.getitem d (Some "Final_Turnover") ≫= Df.as_float;
  let slow_movers := Df.len (Df.where_ (List.map (fun x => (x <? lit 1)%num) turnover) d) in
  let recommendations := if 0 <? slow_movers then [SlowMoving slow_movers] else [] in
  (* A-class items that are understocked *)
  abc ← Df.getitem d (Some "ABC_Class");
  status ← Df.getitem d (Some "Stock_Status");
  let understocked :=
    zip_with andb (List.map (cell_is "A") abc)
      (List.map (fun c => cell_is "CRITICAL" c || cell_is "LOW" c) status) in
  let a_class_low := Df.len (Df.where_ understocked d) in
  let risks := if 0 <? a_class_low then [UnderstockedAClass a_class_low] else [] in
  Ok {| Insights.alerts := alerts;
        Insights.recommendations := recommendations;
        Insights.opportunities := [];
        Insights.risks := risks |}.

End Reports.

(** ** The upload checks: [allowed_file] and [validate_csv_format] *)

Module Api.

Definition ALLOWED_EXTENSIONS : list string := ["csv"].

(** [s.rsplit(sep, 1)] for a one-character separator: the text before and
    after the last separator, or the text alone when it has none. *)
Fixpoint rsplit_once (sep : ascii) (s : string) : list string :=
  match s with
  | EmptyString => [EmptyString]
  | String c s' =>
      match rsplit_once sep s' with
      | [t] => if Ascii.eqb c sep then [EmptyString; t] else [String c t]
      | h :: ts => String c h :: ts
      | [] => [String c EmptyString]
      end
  end.

(** [allowed_file(filename)]; [None] stands for the [IndexError] of
    [rsplit(...)[1]]. *)
Definition allowed_file (filename : string) : option bool :=
  if Str.contains "." filename
  then
    extension ← rsplit_once "." filename !! 1;
    Some (bool_decide (Str.lower extension ∈ ALLOWED_EXTENSIONS))
  else Some false.

End Api.

(** The answer of [validate_csv_format]. *)
Module Verdict.

Inductive message (io_error : Type) : Type :=
| TooFewColumns
| EmptyFile
| MissingRequired (missing_cols : list string)
| FailedToRead (e : io_error).
Arguments TooFewColumns {io_error}.
Arguments EmptyFile {io_error}.
Arguments MissingRequired {io_error}.
Arguments FailedToRead {io_error}.

Record details : Type := mkDetails {
  total_columns : nat;
  detected_columns : gmap string (option string);
  sample_columns : list string;
  estimated_rows : nat
}.

Record t (io_error : Type) : Type := mk {
  valid : bool;
  error : option (message io_error);
  info : option details
}.
Arguments mk {io_error}.
Arguments valid {io_error}.
Arguments error {io_error}.
Arguments info {io_error}.

End Verdict.

Section Upload.
(** Reading a file is the environment's: [read_csv file_path nrows] is the
    table [pd.read_csv(file_path, nrows=nrows)] returns, or the exception
    it raises. *)
Variable io_error : Type.
Variable read_csv : string -> nat -> io_error + DataFrame.

Definition validate_csv_format (file_path : string) : Verdict.t io_error :=
  match read_csv file_path 5 with
  | inr df_sample =>
      if length (Df.names df_sample) <? 3
      then Verdict.mk false (Some Verdict.TooFewColumns) None
      else if Df.len df_sample =? 0
      then Verdict.mk false (Some Verdict.EmptyFile) None
      else
        let columns_map := DataProcessor.detect_columns df_sample in
        let '(is_valid, missing_cols) :=
          DataProcessor.validate_required_columns columns_map in
        Verdict.mk is_valid
          (if negb is_valid then Some (Verdict.MissingRequired missing_cols) else None)
          (Some {| Verdict.total_columns := length (Df.names df_sample);
                   Verdict.detected_columns := columns_map;
                   Verdict.sample_columns := Df.names df_sample;
                   Verdict.estimated_rows := Df.len df_sample |})
  | inl e => Verdict.mk false (Some (Verdict.FailedToRead e)) None
  end.

End Upload.

(** * Properties *)

(** ** Exceptions and association lists *)

Lemma bind_Ok {A B} (m : result A) (f : A -> result B) (b : B) :
  m ≫= f = Ok b -> exists a, m = Ok a /\ f a = Ok b.
Proof. destruct m as [a|e]; simpl; [eauto | discriminate]. Qed.

Lemma bind_Err {A B} (m : result A) (f : A -> result B) :
  (forall a, m = Ok a -> raises (f a)) -> raises (m ≫= f).
Proof.
  destruct m as [a|e]; simpl; intros Hf; [by apply Hf | by exists e].
Qed.

(** Splits a successful chain of binds into its steps. *)
Ltac unbind H :=
  let a := fresh "v" in
  let Ha := fresh "E" in
  apply bind_Ok in H; destruct H as (a & Ha & H).

Lemma string_eqb_refl (k : string) : String.eqb k k = true.
Proof. apply String.eqb_refl. Qed.

Lemma assoc_set_eq {A} (k : string) (v : A) l :
  Df.assoc k (Df.assoc_set k v l) = Some v.
Proof.
  induction l as [|[k' v'] l IH]; simpl.
  - by rewrite String.eqb_refl.
  - destruct (String.eqb k k') eqn:E; simpl.
    + by rewrite String.eqb_refl.
    + by rewrite E.
Qed.

Lemma assoc_set_ne {A} (k k' : string) (v : A) l :
  k <> k' -> Df.assoc k' (Df.assoc_set k v l) = Df.assoc k' l.
Proof.
  intros Hne. induction l as [|[k0 v0] l IH]; simpl.
  - destruct (String.eqb k' k) eqn:E; [|done].
    apply String.eqb_eq in E. congruence.
  - destruct (String.eqb k k0) eqn:E; simpl.
    + apply String.eqb_eq in E. subst k0.
      destruct (String.eqb k' k) eqn:E'; [|done].
      apply String.eqb_eq in E'. congruence.
    + by rewrite IH.
Qed.

Lemma getitem_setitem_eq d k c :
  Df.getitem (Df.setitem d k c) (Some k) = Ok c.
Proof. unfold Df.getitem, Df.setitem; simpl. by rewrite assoc_set_eq. Qed.

Lemma getitem_setitem_ne d k k' c :
  k <> k' -> Df.getitem (Df.setitem d k c) (Some k') = Df.getitem d (Some k').
Proof.
  intros Hne. unfold Df.getitem, Df.setitem; simpl. by rewrite assoc_set_ne.
Qed.

Lemma len_setitem d k c : Df.len (Df.setitem d k c) = Df.len d.
Proof. reflexivity. Qed.

(** ** Stock status *)

Lemma select_lookup {A} n conds (choices : list A) dflt i :
  i < n ->
  Np.select n conds choices dflt !! i = Some (Np.select_at i conds choices dflt).
Proof.
  intros Hi. unfold Np.select.
  change (List.map ?f ?l) with (f <$> l).
  rewrite list_lookup_fmap, lookup_seq_lt by done. done.
Qed.

Lemma select_length {A} n conds (choices : list A) dflt :
  length (Np.select n conds choices dflt) = n.
Proof. unfold Np.select. by rewrite length_map, length_seq. Qed.

Lemma values_lookup_scal n x i : i < n -> Np.values n (Scal x) !! i = Some x.
Proof. intros Hi. simpl. by apply lookup_replicate_2. Qed.

Lemma cmp_lookup f n xs (b : ndarray) i x y :
  xs !! i = Some x -> Np.values n b !! i = Some y ->
  Np.cmp f n (Arr xs) b !! i = Some (f x y).
Proof.
  intros Hx Hy. unfold Np.cmp. simpl.
  rewrite lookup_zip_with, Hx. simpl. by rewrite Hy.
Qed.

Lemma as_float_of_float xs : Df.as_float (Df.of_float xs) = Ok xs.
Proof.
  unfold Df.as_float, Df.of_float. induction xs as [|x xs IH]; [done|].
  rewrite fmap_cons. simpl. by rewrite IH.
Qed.

Lemma floats_Ok d key a :
  Df.floats d key = Ok a ->
  exists c xs, Df.getitem d key = Ok c /\ Df.as_float c = Ok xs /\ a = Arr xs.
Proof.
  unfold Df.floats. intros Hf. unbind Hf. unbind Hf.
  injection Hf as <-. eauto.
Qed.

Lemma status_rule_labels s r d :
  status_rule s r d ∈ ["CRITICAL"; "LOW"; "NORMAL"; "HEALTHY"; "EXCESS"].
Proof.
  unfold status_rule.
  repeat match goal with |- context [if ?b then _ else _] => destruct b end;
    set_solver.
Qed.

Lemma status_rule_critical s r d :
  status_rule s r d = "CRITICAL" <->
  (s <=? r * lit 0.5)%num || (d <=? lit 7)%num = true.
Proof.
  unfold status_rule.
  destruct ((s <=? r * lit 0.5)%num || (d <=? lit 7)%num); [done|].
  split; [|done].
  repeat match goal with |- context [if ?b then _ else _] => destruct b end;
    discriminate.
Qed.

(** The reorder level of the specification: the resolved reorder column
    when there is one, else the computed reorder point. *)
Definition reorder_level (self : InventoryCalculations) : result ndarray :=
  match Py.get (cols self) "reorder" with
  | Some k =>
      if negb (String.eqb k "") && Df.contains (Some k) (df self)
      then Df.floats (df self) (Some k)
      else Df.floats (df self) (Some "Optimal_Reorder_Point")
  | None => Df.floats (df self) (Some "Optimal_Reorder_Point")
  end.

Lemma reorder_level_resolved self has_reorder :
  resolved self "reorder" = Ok has_reorder ->
  (if has_reorder : bool
   then key ← Py.item (cols self) "reorder"; Df.floats (df self) key
   else Df.floats (df self) (Some "Optimal_Reorder_Point"))
  = reorder_level self.
Proof.
  unfold resolved, reorder_level, Py.get, Py.item.
  destruct (cols self !! "reorder") as [[k|]|] eqn:Hk; simpl.
  - destruct (negb (String.eqb k "")); simpl.
    + intros [= <-]. by destruct (bool_decide _).
    + by intros [= <-].
  - by intros [= <-].
  - by intros [= <-].
Qed.



(** ** The column resolver *)

Section Resolver.
Import DataProcessor.
Variable keywords : list string.

Local Abbreviation score := (column_score keywords).

(** The table of scores [find_column] builds from the headers seen so far. *)
Definition score_table (scores : list (string * nat)) (columns : list string) :
    list (string * nat) :=
  foldl (fun scores col =>
           if 0 <? score col then Df.assoc_set col (score col) scores else scores)
    scores columns.

(** The first entry of a score table with the greatest score. *)
Definition best (scores : list (string * nat)) : option (string * nat) :=
  match scores with
  | [] => None
  | first :: rest => Some (max_from first rest)
  end.

(** Keeping the leader while the headers go by: a header takes the lead
    only with a positive score strictly above the leader's. *)
Definition challenge (leader : option (string * nat)) (col : string) :
    option (string * nat) :=
  if 0 <? score col then
    match leader with
    | None => Some (col, score col)
    | Some m => if m.2 <? score col then Some (col, score col) else leader
    end
  else leader.

Lemma find_column_best columns :
  find_column keywords columns = fst <$> best (score_table [] columns).
Proof.
  unfold find_column, best, score_table.
  by destruct (foldl _ _ _).
Qed.

Lemma max_from_snoc b l x :
  max_from b (l ++ [x]) = let m := max_from b l in if m.2 <? x.2 then x else m.
Proof. revert b. induction l as [|y l IH]; intros b; simpl; [done|]. apply IH. Qed.

Lemma best_snoc scores x :
  best (scores ++ [x])
  = Some match best scores with
         | None => x
         | Some m => if m.2 <? x.2 then x else m
         end.
Proof.
  destruct scores as [|f r]; simpl; [done|]. by rewrite max_from_snoc.
Qed.

Lemma max_from_ge b l : b.2 <= (max_from b l).2 /\ Forall (fun x => x.2 <= (max_from b l).2) l.
Proof.
  revert b. induction l as [|y l IH]; intros b; simpl; [by split|].
  destruct (IH (if b.2 <? y.2 then y else b)) as [Hb Hl].
  destruct (Nat.ltb_spec b.2 y.2); (split; [lia | constructor; [lia|done]]).
Qed.

Lemma best_ge scores m x : best scores = Some m -> x ∈ scores -> x.2 <= m.2.
Proof.
  destruct scores as [|f r]; simpl; [done|]. intros [= <-] Hx.
  destruct (max_from_ge f r) as [Hf Hr].
  apply elem_of_cons in Hx as [->|Hx]; [done|].
  by apply (proj1 (Forall_forall _ _) Hr).
Qed.

Lemma assoc_elem {A} k (v : A) l : Df.assoc k l = Some v -> (k, v) ∈ l.
Proof.
  induction l as [|[k' v'] l IH]; simpl; [done|].
  destruct (String.eqb k k') eqn:E.
  - apply String.eqb_eq in E. intros [= ->]. subst. left.
  - intros Hl. right. by apply IH.
Qed.

Lemma assoc_set_same {A} k (v : A) l : Df.assoc k l = Some v -> Df.assoc_set k v l = l.
Proof.
  induction l as [|[k' v'] l IH]; simpl; [done|].
  destruct (String.eqb k k') eqn:E.
  - apply String.eqb_eq in E. intros [= ->]. by subst.
  - intros Hl. by rewrite IH.
Qed.

Lemma assoc_set_fresh {A} k (v : A) l : Df.assoc k l = None -> Df.assoc_set k v l = l ++ [(k, v)].
Proof.
  induction l as [|[k' v'] l IH]; simpl; [done|].
  destruct (String.eqb k k') eqn:E; [done|].
  intros Hl. by rewrite IH.
Qed.

(** The dict and [max] of [find_column] keep the leader of [challenge]. *)
Lemma best_score_table columns scores :
  Forall (fun x => x.2 = score x.1) scores ->
  best (score_table scores columns) = foldl challenge (best scores) columns.
Proof.
  revert scores. induction columns as [|col columns IH]; intros scores Hinv; [done|].
  unfold score_table. simpl. fold (score_table
    (if 0 <? score col then Df.assoc_set col (score col) scores else scores) columns).
  unfold challenge at 2.
  destruct (0 <? score col) eqn:Hpos; [|by apply IH].
  destruct (Df.assoc col scores) as [v|] eqn:Hassoc.
  - pose proof (assoc_elem _ _ _ Hassoc) as Hin.
    assert (v = score col) as ->.
    { by apply (proj1 (Forall_forall _ _) Hinv (col, v)). }
    rewrite (assoc_set_same _ _ _ Hassoc), IH by done.
    f_equal. destruct (best scores) as [m|] eqn:Hbest.
    + pose proof (best_ge _ _ _ Hbest Hin) as Hle. simpl in Hle.
      by destruct (Nat.ltb_spec m.2 (score col)); [lia|].
    + by destruct scores.
  - rewrite (assoc_set_fresh _ _ _ Hassoc), IH.
    + f_equal. rewrite best_snoc. destruct (best scores) as [m|]; simpl; [|done]. by destruct (m.2 <? score col).
    + apply Forall_app. split; [done|]. by constructor.
Qed.

(** What the leader is once all the headers went by. *)
Definition leads (columns : list string) (leader : option (string * nat)) : Prop :=
  match leader with
  | None => forall h, h ∈ columns -> score h = 0
  | Some (h, s) =>
      s = score h /\ 0 < s
      /\ exists i, columns !! i = Some h
           /\ forall j h', columns !! j = Some h' ->
                score h' <= s /\ (j < i -> score h' < s)
  end.

Lemma challenge_leads columns : leads columns (foldl challenge None columns).
Proof.
  induction columns as [|col columns IH] using rev_ind.
  { simpl. intros h Hh. by apply elem_of_nil in Hh. }
  rewrite foldl_app. simpl. unfold challenge at 1.
  destruct (foldl challenge None columns) as [[h s]|] eqn:Hfold; simpl in *.
  - destruct IH as (-> & Hpos & i & Hi & Hmax).
    assert (Hlt : i < length columns) by (by eapply lookup_lt_Some).
    destruct (Nat.ltb_spec 0 (score col)) as [Hc|Hc].
    + destruct (Nat.ltb_spec (score h) (score col)) as [Hb|Hb]; simpl.
      * split; [done|]. split; [done|].
        exists (length columns). split. { by rewrite lookup_app_r, Nat.sub_diag. }
        intros j h' Hj. apply lookup_snoc_Some in Hj as [[Hjl Hj]|[-> ->]].
        -- destruct (Hmax _ _ Hj). split; lia.
        -- split; lia.
      * split; [done|]. split; [done|].
        exists i. split. { by rewrite lookup_app_l. }
        intros j h' Hj. apply lookup_snoc_Some in Hj as [[Hjl Hj]|[-> ->]].
        -- by apply Hmax.
        -- split; lia.
    + split; [done|]. split; [done|].
      exists i. split. { by rewrite lookup_app_l. }
      intros j h' Hj. apply lookup_snoc_Some in Hj as [[Hjl Hj]|[-> ->]].
      * by apply Hmax.
      * split; lia.
  - destruct (Nat.ltb_spec 0 (score col)) as [Hc|Hc]; simpl.
    + split; [done|]. split; [done|].
      exists (length columns). split. { by rewrite lookup_app_r, Nat.sub_diag. }
      intros j h' Hj. apply lookup_snoc_Some in Hj as [[Hjl Hj]|[-> ->]].
      * rewrite (IH h') by (by eapply list_elem_of_lookup_2). split; lia.
      * split; lia.
    + intros h Hh. apply elem_of_app in Hh as [Hh|Hh%list_elem_of_singleton].
      * by apply IH.
      * subst. lia.
Qed.

End Resolver.

Lemma foldl_add_sum {A} (f : A -> nat) (l : list A) (acc : nat) :
  foldl (fun s x => s + f x) acc l = acc + sum_list (f <$> l).
Proof.
  revert acc. induction l as [|x l IH]; intros acc; [simpl; lia|].
  rewrite fmap_cons. simpl. rewrite IH. lia.
Qed.

Lemma keyword_points_cases (h kw : string) :
  let k := Str.lower kw in
  (k = h -> DataProcessor.keyword_points h kw = 100)
  /\ (k <> h -> Str.contains k h = true -> DataProcessor.keyword_points h kw = 50)
  /\ (Str.contains k h = false ->
      (exists t, t ∈ Str.split "_" k /\ Str.contains t h = true) ->
      DataProcessor.keyword_points h kw = 25)
  /\ (Str.contains k h = false ->
      (forall t, t ∈ Str.split "_" k -> Str.contains t h = false) ->
      DataProcessor.keyword_points h kw = 0).
Proof.
  intros k. unfold DataProcessor.keyword_points. fold k.
  assert (Hpre : forall s, String.prefix s s = true).
  { induction s as [|c s IH]; simpl; [done|]. by destruct (ascii_dec c c). }
  assert (Hself : Str.contains h h = true).
  { destruct h as [|c h]; [done|]. unfold Str.contains; fold Str.contains.
    by rewrite Hpre. }
  destruct (String.eqb_spec k h) as [Heq|Hne].
  - subst h. rewrite Hself. repeat split; try done.
  - split; [done|]. split; [by intros _ ->|].
    split.
    + intros -> (t & Ht & Hc).
      assert (existsb (fun t => Str.contains t h) (Str.split "_" k) = true) as ->; [|done].
      apply existsb_exists. exists t. split; [by apply list_elem_of_In|done].
    + intros -> Hall.
      assert (existsb (fun t => Str.contains t h) (Str.split "_" k) = false) as ->; [|done].
      apply not_true_is_false. intros (t & Ht%list_elem_of_In & Hc)%existsb_exists.
      rewrite (Hall t Ht) in Hc. done.
Qed.



Example find_column_tie :
  DataProcessor.find_column ["stock"] ["Stock Qty"; "stock_level"; "Name"]
  = Some "Stock Qty".
Proof. reflexivity. Qed.

Example find_column_bonus_only :
  DataProcessor.find_column ["price"; "cost"] ["Name"; "Stock Level"]
  = Some "Stock Level".
Proof. reflexivity. Qed.

Example find_column_absent :
  DataProcessor.find_column ["price"; "cost"] ["Product"; "Category"; "Stock"; "Sales"]
  = None.
Proof. reflexivity. Qed.

(** ** Filtering *)

Lemma assoc_fmap {A B} (f : A -> B) k (l : list (string * A)) :
  Df.assoc k (prod_map id f <$> l) = f <$> Df.assoc k l.
Proof.
  induction l as [|[k' v] l IH]; [done|].
  rewrite fmap_cons. simpl. by destruct (String.eqb k k').
Qed.

Lemma getitem_take pos d k :
  Df.getitem (Df.take pos d) (Some k) = Df.pick pos <$> Df.getitem d (Some k).
Proof.
  unfold Df.getitem, Df.take. simpl. rewrite assoc_fmap.
  by destruct (Df.assoc k (columns d)).
Qed.

Lemma pick_elem {A} pos (l : list A) x : x ∈ Df.pick pos l -> x ∈ l.
Proof.
  unfold Df.pick. intros (i & _ & Hi)%list_elem_of_omap.
  by eapply list_elem_of_lookup_2.
Qed.

Lemma existsb_pick {A} (p : A -> bool) pos l :
  existsb p l = false -> existsb p (Df.pick pos l) = false.
Proof.
  intros Hl. apply not_true_is_false.
  intros (x & Hx%list_elem_of_In%pick_elem & Hp)%existsb_exists.
  assert (existsb p l = true) as Ht; [|congruence].
  apply existsb_exists. exists x. split; [by apply list_elem_of_In|done].
Qed.

Section FilterStatus.
Context `{Library}.

(** C10: a status that is neither present in the [Stock_Status] column
    nor one of the legacy labels does not filter: [filter_products]
    returns what it returns without a status. *)
Theorem filter_products_unknown_status (self : InventoryCalculations)
    (category search abc_class : option string) (status : string)
    (values : list cell) :
  Df.getitem (df self) (Some "Stock_Status") = Ok values ->
  existsb (cell_is status) values = false ->
  status ∉ ["Critical"; "Low Stock"; "Healthy"; "Excess"] ->
  filter_products self category (Some status) search abc_class
  = filter_products self category None search abc_class.
Proof.
  intros Hcol Habsent Hlegacy.
  assert (Hmap : status_mapping !! status = None).
  { unfold status_mapping.
    repeat (rewrite list_to_map_cons, lookup_insert_ne
              by (intros <-; apply Hlegacy; set_solver)).
    done. }
  assert (Hstep : forall d pos,
    d = df self \/ d = Df.take pos (df self) ->
    by_status (Some status) d = by_status None d).
  { intros d pos Hd. unfold by_status, is_set.
    destruct (negb (String.eqb status "") && _); [|done].
    destruct Hd as [->| ->].
    - rewrite Hcol. simpl. by rewrite Habsent, Hmap.
    - rewrite getitem_take, Hcol. simpl.
      by rewrite (existsb_pick _ _ _ Habsent), Hmap. }
  unfold filter_products, by_category.
  destruct (is_set category _) as [c|].
  - destruct (Py.item (cols self) "category") as [key|e]; [|done].
    cbn [mbind result_bind]. unfold where_eq.
    destruct (Df.getitem (df self) key) as [cc|e]; [|done].
    cbn [mbind result_bind]. unfold Df.where_.
    by rewrite (Hstep _ (Df.mask_positions (List.map (cell_is c) cc))) by (by right).
  - cbn [mbind result_bind]. by rewrite (Hstep _ []) by (by left).
Qed.

End FilterStatus.

Section FilterStatusExample.
#[local] Existing Instance Reference.library.

Lemma filter_products_unknown_status_witness :
  filter_products Examples.augmented None (Some "Discontinued") None None
  = filter_products Examples.augmented None None None None
  /\ length <$> filter_products Examples.augmented None None None None = Ok 3.
Proof.
  split; [|vm_compute; reflexivity].
  eapply filter_products_unknown_status.
  - vm_compute. reflexivity.
  - vm_compute. reflexivity.
  - intros Hin. repeat (apply elem_of_cons in Hin as [Hin|Hin]; [discriminate|]).
    by apply elem_of_nil in Hin.
Defined.

End FilterStatusExample.

(** ** The metric engine without a price column *)

Section NoPrice.
Context `{Library}.

Lemma cols_assign self name a : cols (assign self name a) = cols self.
Proof. reflexivity. Qed.

Lemma get_insert_turnover (m : gmap string (option string)) v k :
  k <> "turnover" -> Py.get (<["turnover" := v]> m) k = Py.get m k.
Proof. intros Hk. unfold Py.get. by rewrite lookup_insert_ne. Qed.

Lemma item_insert_turnover (m : gmap string (option string)) v k :
  k <> "turnover" -> Py.item (<["turnover" := v]> m) k = Py.item m k.
Proof. intros Hk. unfold Py.item. by rewrite lookup_insert_ne. Qed.

Lemma item_unresolved (m : gmap string (option string)) k key :
  Py.get m k = None -> Py.item m k = Ok key -> key = None.
Proof.
  unfold Py.get, Py.item. destruct (m !! k) as [v|]; simpl; [|done].
  by intros -> [= <-].
Qed.

(** Where [_prepare_data] reads the unit cost: both operands of
    [np.where] are evaluated, so the price column is looked up whether or
    not the column map has one. *)
Lemma unit_cost_lookup_raises d (m : gmap string (option string)) {A} (k : ndarray -> result A) :
  Py.get m "price" = None ->
  raises (key ← Py.item m "price"; price ← Df.floats d key; k price).
Proof.
  intros Hnone. destruct (Py.item m "price") as [key|e] eqn:Hitem; simpl.
  - rewrite (item_unresolved _ _ _ Hnone Hitem). by exists (KeyError None).
  - by exists e.
Qed.

(** C1 (what the code does): with no price column resolved,
    [_prepare_data] raises on every table. *)
Theorem prepare_data_without_price_raises (self : InventoryCalculations) :
  Py.get (cols self) "price" = None ->
  raises (_prepare_data self).
Proof.
  intros Hnone. unfold _prepare_data. cbn zeta.
  apply bind_Err; intros sales _.
  apply bind_Err; intros has_price Hres.
  assert (has_price = false) as ->.
  { unfold resolved in Hres. cbn [cols assign] in Hres.
    rewrite Hnone in Hres. by injection Hres. }
  apply bind_Err; intros self' Hcogs.
  unbind Hcogs. injection Hcogs as <-.
  repeat first
    [ apply unit_cost_lookup_raises;
      cbn [cols assign]; by rewrite get_insert_turnover
    | apply bind_Err; intros ? ?
    | progress cbn zeta ].
Qed.

End NoPrice.

Section NoPriceExample.
#[local] Existing Instance Reference.library.

Example unpriced_columns :
  DataProcessor.validate_required_columns Examples.unpriced_map = (true, [])
  /\ Examples.unpriced_map !! "price" = Some None
  /\ Examples.unpriced_map !! "stock" = Some (Some "Stock")
  /\ Examples.unpriced_map !! "sales" = Some (Some "Sales").
Proof. vm_compute. done. Qed.

Lemma prepare_data_without_price_raises_witness :
  Py.get Examples.unpriced_map "price" = None
  /\ raises (_prepare_data (mkCalc Examples.unpriced Examples.unpriced_map)).
Proof.
  assert (Hnone : Py.get Examples.unpriced_map "price" = None)
    by (vm_compute; reflexivity).
  split; [exact Hnone|].
  exact (prepare_data_without_price_raises
           (mkCalc Examples.unpriced Examples.unpriced_map) Hnone).
Defined.

(** On the table above the engine stops with [KeyError: None], raised by
    [self.df[self.cols['price']]]. *)
Example unpriced_upload_fails :
  __init__ Examples.unpriced Examples.unpriced_map = Err (KeyError None).
Proof. vm_compute. reflexivity. Qed.

End NoPriceExample.

(** ** The data cleaner: row pruning *)

Section PruningExample.
#[local] Existing Instance Reference.library.

(** C2 (what the code does): the second row of [Examples.gaps] has no
    name, no stock and no sales in the raw table, and [clean_data] keeps
    it: by the time [dropna] runs the three cells hold the placeholder,
    the median stock and the mean sales. *)
Theorem clean_data_keeps_empty_row :
  (forall c, c ∈ ["Product"; "Stock"; "Sales"] ->
     (fun col => isna <$> col !! 1) <$> Df.getitem Examples.gaps (Some c)
     = Ok (Some true))
  /\ clean_data Examples.gaps Examples.gaps_map
     = Ok (mkDF [0%Z; 1%Z; 2%Z]
             [("Product", Examples.strings ["Widget A"; "Unknown Product"; "Gadget"]);
              ("Category", Examples.strings ["Tools"; "Tools"; "Toys"]);
              ("Stock", Examples.floats [5; 6; 7]%Q);
              ("Sales", Examples.floats [2; 3; 4]%Q);
              ("Price", Examples.floats [10; 3; 4]%Q)],
           [LogFilled 1 "Stock" (lit 6); LogFilled 1 "Sales" (lit 3);
            LogText 1 "Product"]).
Proof.
  split; [|vm_compute; reflexivity].
  intros c Hc. repeat (apply elem_of_cons in Hc as [->|Hc]; [vm_compute; reflexivity|]).
  by apply elem_of_nil in Hc.
Qed.

End PruningExample.

(** ** Turnover *)

Section TurnoverExample.
#[local] Existing Instance Reference.library.

(** C3 (what the code does): for a product with stock 5 and no sales the
    COGS-based estimate divides zero by zero, so [Inventory_Turnover] and
    with it [Final_Turnover] are [nan], which is not at least 0 and is not
    the simple estimate 0. *)
Theorem turnover_of_dead_stock_is_nan :
  let self := Examples.run Examples.dead_stock Examples.full_map in
  is_ok (__init__ Examples.dead_stock Examples.full_map) = true
  /\ field self "Simple_Turnover" = Ok (Arr [lit 0; lit 0.12])
  /\ field self "Inventory_Turnover" = Ok (Arr [NaN; lit 0.12])
  /\ field self "Final_Turnover" = Ok (Arr [NaN; lit 0.12])
  /\ (NaN >=? lit 0)%num = false
  /\ cols self !! "turnover" = Some (Some "Final_Turnover").
Proof. vm_compute. done. Qed.

End TurnoverExample.

(** ** Running the engine again *)

Section Rerun.
Context `{Library}.

Lemma classify_cols self self' :
  _classify_stock_status self = Ok self' -> cols self' = cols self.
Proof.
  unfold _classify_stock_status. intros Hrun.
  repeat unbind Hrun. by injection Hrun as <-.
Qed.

(** [_prepare_data] leaves the column map it was given with one more
    entry, [turnover]. *)
Lemma prepare_data_cols self self' :
  _prepare_data self = Ok self' ->
  cols self' = <["turnover" := Some "Final_Turnover"]> (cols self).
Proof.
  unfold _prepare_data. cbn zeta. intros Hrun.
  unbind Hrun. unbind Hrun. unbind Hrun.
  assert (cols v1 = cols self) as Hv1.
  { destruct v0; repeat unbind E1; by injection E1 as <-. }
  do 21 unbind Hrun.
  apply classify_cols in Hrun. cbn [cols assign] in Hrun. by rewrite Hrun, Hv1.
Qed.

Lemma coerce_numeric_cols self c self' :
  coerce_numeric self c = Ok self' -> cols self' = cols self.
Proof.
  unfold coerce_numeric. intros Hrun. unbind Hrun. destruct v.
  - repeat unbind Hrun. by injection Hrun as <-.
  - by injection Hrun as <-.
Qed.

Lemma validate_data_cols self self' :
  _validate_data self = Ok self' -> cols self' = cols self.
Proof.
  unfold _validate_data. destruct (List.filter _ _); [|done].
  cbn zeta. intros Hrun. unbind Hrun. injection Hrun as <-. cbn [cols].
  cbn [foldl] in E. unbind E. unbind E0. cbn [mbind result_bind] in E1.
  apply coerce_numeric_cols in E, E0, E1. congruence.
Qed.

Lemma bind_assoc {A B C} (m : result A) (f : A -> result B) (g : B -> result C) :
  (m ≫= f) ≫= g = m ≫= (fun a => f a ≫= g).
Proof. by destruct m. Qed.

(** [_prepare_data] does not read the [turnover] entry of the column map. *)
Lemma prepare_data_ignores_turnover d (m : gmap string (option string)) :
  _prepare_data (mkCalc d (<["turnover" := Some "Final_Turnover"]> m))
  = _prepare_data (mkCalc d m).
Proof.
  unfold _prepare_data, col, field, resolved, assign. cbn [cols df].
  repeat first
    [ reflexivity
    | progress rewrite ?item_insert_turnover, ?get_insert_turnover,
        ?insert_insert_eq by done
    | progress cbn [mbind result_bind cols df]
    | match goal with
      | |- (?m ≫= _) = (?m ≫= _) => destruct m; [|reflexivity]
      | |- ((if ?b then _ else _) ≫= _) = ((if ?b then _ else _) ≫= _) =>
          destruct b
      | |- ((_ ≫= _) ≫= _) = _ => rewrite (bind_assoc _ _ _)
      | |- _ = ((_ ≫= _) ≫= _) => rewrite (bind_assoc _ _ _)
      end ].
Qed.

(** C6, amended: running the engine again on the cleaned table it was
    built from, with the column map as the first run left it (the
    [turnover] entry now names [Final_Turnover]), succeeds and gives the
    same augmented table and column map. *)
Theorem rerun_on_cleaned_table (table : DataFrame)
    (columns_map : gmap string (option string)) (self : InventoryCalculations) :
  __init__ table columns_map = Ok self ->
  cols self = <["turnover" := Some "Final_Turnover"]> columns_map
  /\ __init__ table (cols self) = Ok self.
Proof.
  unfold __init__. intros Hrun. unbind Hrun.
  pose proof (prepare_data_cols _ _ E) as Hcols.
  pose proof (validate_data_cols _ _ Hrun) as Hcols'.
  cbn [cols] in Hcols. rewrite Hcols in Hcols'.
  split; [done|].
  rewrite Hcols', prepare_data_ignores_turnover, E. exact Hrun.
Qed.

End Rerun.

Section RerunExample.
#[local] Existing Instance Reference.library.

(** C6 as stated fails: the engine's own output makes the second run
    raise.  The output already has an [ABC_Class] column, the merge in
    [_calculate_abc_analysis] renames the old and the new one
    [ABC_Class_x] and [ABC_Class_y], and [_classify_stock_status] finds no
    [ABC_Class]. *)
Lemma rerun_on_augmented_output_raises :
  __init__ Examples.inventory Examples.full_map = Ok Examples.augmented
  /\ __init__ (df Examples.augmented) (cols Examples.augmented)
     = Err (KeyError (Some "ABC_Class"))
  /\ (fun d => filter (fun k => String.prefix "ABC_Class" k) (Df.names d))
     <$> _calculate_abc_analysis Examples.augmented
     = Ok ["ABC_Class_x"; "ABC_Class_y"].
Proof. vm_compute. done. Qed.

Lemma rerun_on_cleaned_table_witness :
  __init__ Examples.inventory Examples.full_map = Ok Examples.augmented
  /\ __init__ Examples.inventory (cols Examples.augmented) = Ok Examples.augmented.
Proof.
  assert (Hrun : __init__ Examples.inventory Examples.full_map = Ok Examples.augmented)
    by (vm_compute; reflexivity).
  split; [exact Hrun|].
  exact (proj2 (rerun_on_cleaned_table _ _ _ Hrun)).
Defined.

End RerunExample.

(** ** The data cleaner: the fill value of the reorder column *)

Lemma assoc_is_Some {A} k (l : list (string * A)) :
  is_Some (Df.assoc k l) <-> k ∈ l.*1.
Proof.
  induction l as [|[k' v] l IH]; simpl.
  - split; [by intros [? ?]|by intros ?%elem_of_nil].
  - destruct (String.eqb_spec k k') as [->|Hne].
    + split; [intros _; left|eauto].
    + rewrite IH. split; [by right|].
      intros [?|?]%elem_of_cons; [done|done].
Qed.

Lemma contains_getitem d k :
  Df.contains (Some k) d = true -> exists c, Df.getitem d (Some k) = Ok c.
Proof.
  unfold Df.contains, Df.getitem, Df.names.
  intros Hin%bool_decide_eq_true. apply assoc_is_Some in Hin as [c ->]. eauto.
Qed.

Lemma getitem_contains d k c :
  Df.getitem d (Some k) = Ok c -> Df.contains (Some k) d = true.
Proof.
  unfold Df.contains, Df.getitem, Df.names. intros Hget.
  apply bool_decide_eq_true, assoc_is_Some.
  destruct (Df.assoc k (columns d)); [eauto|done].
Qed.

Lemma assoc_set_twice {A} k (v w : A) l :
  Df.assoc_set k w (Df.assoc_set k v l) = Df.assoc_set k w l.
Proof.
  induction l as [|[k' v'] l IH]; simpl.
  - by rewrite String.eqb_refl.
  - destruct (String.eqb k k') eqn:E; simpl.
    + by rewrite String.eqb_refl.
    + by rewrite E, IH.
Qed.

Lemma setitem_twice d k c c' :
  Df.setitem (Df.setitem d k c) k c' = Df.setitem d k c'.
Proof. unfold Df.setitem. simpl. by rewrite assoc_set_twice. Qed.

Lemma contains_setitem d k c key :
  Df.contains key d = true -> Df.contains key (Df.setitem d k c) = true.
Proof.
  destruct key as [k'|]; [|done]. intros [c' Hc']%contains_getitem.
  destruct (decide (k = k')) as [->|Hne].
  - eapply getitem_contains, getitem_setitem_eq.
  - eapply getitem_contains. rewrite getitem_setitem_ne by done. exact Hc'.
Qed.

Lemma to_numeric_of_float `{Library} xs : to_numeric (Df.of_float xs) = xs.
Proof.
  unfold to_numeric, Df.of_float. induction xs as [|x xs IH]; [done|].
  rewrite fmap_cons. simpl. by rewrite IH.
Qed.

Lemma fillna_id v xs : existsb Num.is_nan xs = false -> fillna v xs = xs.
Proof.
  unfold fillna. induction xs as [|x xs IH]; simpl; [done|].
  intros [Hx Hxs]%orb_false_elim. by rewrite Hx, IH.
Qed.

Lemma count_if_pos {A} (p : A -> bool) l : (0 <? count_if p l) = existsb p l.
Proof.
  unfold count_if. induction l as [|x l IH]; simpl; [done|].
  destruct (p x); simpl; [done|exact IH].
Qed.

Lemma Qle_bool_Qred q : Qle_bool 0 (Qred q) = Qle_bool 0 q.
Proof.
  apply eq_true_iff_eq. rewrite !Qle_bool_iff. by rewrite Qred_correct.
Qed.

Lemma nonneg_spec x :
  nonneg x = true <-> Num.is_nan x = false /\ (x <? lit 0)%num = false.
Proof.
  destruct x as [q| | |]; simpl; try (split; [intros ?|intros [? ?]]; done).
  change (Qred 0) with 0%Q.
  destruct (Qle_bool 0 q); simpl; split; try done. by intros [_ ?].
Qed.

Lemma abs_nonneg x : Num.is_nan x = false -> nonneg (Num.abs x) = true.
Proof.
  destruct x as [q| | |]; simpl; try done. intros _.
  rewrite Qle_bool_Qred. apply Qle_bool_iff, Qabs_nonneg.
Qed.

Lemma add_nonneg a b : nonneg a = true -> nonneg b = true -> nonneg (a + b)%num = true.
Proof.
  destruct a as [p| | |], b as [q| | |]; simpl; try done.
  rewrite Qle_bool_Qred, !Qle_bool_iff. intros Hp Hq.
  apply Qle_trans with (0 + 0)%Q; [done|]. by apply Qplus_le_compat.
Qed.

Lemma half_nonneg a : nonneg a = true -> nonneg (a / Num.of_Z 2)%num = true.
Proof.
  destruct a as [p| | |]; simpl; try done.
  rewrite Qle_bool_Qred, !Qle_bool_iff. intros Hp.
  apply Qle_shift_div_l; [done|]. by rewrite Qmult_0_l.
Qed.

Lemma insert_by_perm {A} (before : A -> A -> bool) x l :
  insert_by before x l ≡ₚ x :: l.
Proof.
  induction l as [|y l IH]; simpl; [done|].
  destruct (before y x); [|done]. rewrite IH. apply Permutation_swap.
Qed.

Lemma stable_sort_perm {A} (before : A -> A -> bool) l :
  stable_sort before l ≡ₚ l.
Proof.
  induction l as [|x l IH]; simpl; [done|].
  rewrite insert_by_perm. by rewrite IH.
Qed.

Lemma nth_num_Forall (P : num -> Prop) v i :
  Forall P v -> i < length v -> P (Stats.nth_num v i).
Proof.
  intros Hv Hi. unfold Stats.nth_num.
  destruct (lookup_lt_is_Some_2 v i Hi) as [x Hx]. rewrite Hx. simpl.
  by eapply Forall_lookup_1.
Qed.

Lemma median_nonneg xs :
  Forall (fun x => Num.is_nan x = true \/ nonneg x = true) xs ->
  forallb Num.is_nan xs = false ->
  nonneg (Stats.median xs) = true.
Proof.
  intros Hxs Hsome. unfold Stats.median.
  set (v := stable_sort Order.asc (Stats.dropna xs)).
  assert (Hv : Forall (fun x => nonneg x = true) v).
  { unfold v. rewrite stable_sort_perm. unfold Stats.dropna.
    apply Forall_forall. intros x [Hx Hna]%list_elem_of_In%filter_In.
    apply list_elem_of_In in Hx.
    destruct (proj1 (Forall_forall _ _) Hxs x Hx) as [Hn|Hn]; [|done].
    unfold Num.notna in Hna. by rewrite Hn in Hna. }
  assert (Hlen : 0 < length v).
  { unfold v. rewrite stable_sort_perm. unfold Stats.dropna.
    clear -Hsome. induction xs as [|x xs IH]; simpl in *; [done|].
    unfold Num.notna. destruct (Num.is_nan x); simpl in *; [by apply IH|lia]. }
  destruct (length v) as [|n] eqn:Hn; [lia|].
  assert (Hhalf : S n / 2 < S n) by (apply Nat.div_lt; lia).
  destruct (Nat.even (S n)).
  - apply half_nonneg, add_nonneg; apply nth_num_Forall; try done; lia.
  - apply nth_num_Forall; [done|lia].
Qed.

Section ReorderFill.
Context `{Library}.
Variable columns_map : gmap string (option string).

Lemma cleaned_stock_nonneg raw :
  Forall (fun x => nonneg x = true) (cleaned_stock raw).
Proof.
  unfold cleaned_stock. set (xs := to_numeric raw).
  set (ys := if existsb _ xs then _ else _).
  assert (Hys : Forall (fun x => Num.is_nan x = true \/ nonneg x = true) ys).
  { unfold ys. destruct (existsb _ xs) eqn:Hneg.
    - apply Forall_forall. intros y Hy%list_elem_of_In%in_map_iff.
      destruct Hy as (x & <- & _). destruct (Num.is_nan x) eqn:Hx.
      + left. by destruct x.
      + right. by apply abs_nonneg.
    - apply Forall_forall. intros x Hx%list_elem_of_In.
      destruct (Num.is_nan x) eqn:Hn; [by left|right].
      apply nonneg_spec. split; [done|]. apply not_true_is_false. intros Hlt.
      assert (existsb (fun x => (x <? lit 0)%num) xs = true); [|congruence].
      apply existsb_exists. eauto. }
  assert (Hfill : nonneg (if forallb Num.is_nan ys then lit 0 else Stats.median ys) = true).
  { destruct (forallb Num.is_nan ys) eqn:Hall; [done|]. by apply median_nonneg. }
  unfold fillna. apply Forall_forall. intros y Hy%list_elem_of_In%in_map_iff.
  destruct Hy as (x & <- & Hx%list_elem_of_In).
  destruct (proj1 (Forall_forall _ _) Hys x Hx) as [Hn|Hn].
  - by rewrite Hn.
  - destruct (proj1 (nonneg_spec x) Hn) as [-> _]. done.
Qed.

Lemma nonneg_no_gap xs :
  Forall (fun x => nonneg x = true) xs ->
  existsb Num.is_nan xs = false /\ existsb (fun x => Num.ltb x (lit 0)) xs = false.
Proof.
  induction 1 as [|x xs Hx _ [IH1 IH2]]; simpl; [done|].
  apply nonneg_spec in Hx as [-> ->]. by rewrite IH1, IH2.
Qed.

Lemma mapped_Some col_type d k :
  columns_map !! col_type = Some (Some k) -> Df.contains (Some k) d = true ->
  mapped columns_map col_type d = Some k.
Proof. unfold mapped. by intros -> ->. Qed.

Lemma mapped_inv col_type d k :
  mapped columns_map col_type d = Some k ->
  columns_map !! col_type = Some (Some k) /\ Df.contains (Some k) d = true.
Proof.
  unfold mapped. destruct (columns_map !! col_type) as [[k'|]|]; try done.
  destruct (Df.contains (Some k') d) eqn:Hc; [|done]. by intros [= ->].
Qed.

(** The round for the stock column. *)
Lemma clean_stock_step table log stock_col raw :
  columns_map !! "stock" = Some (Some stock_col) ->
  Df.getitem table (Some stock_col) = Ok raw ->
  exists log',
    clean_numeric columns_map "stock" (table, log)
    = Ok (Df.setitem table stock_col (Df.of_float (cleaned_stock raw)), log')
    /\ forall e, e ∈ log -> e ∈ log'.
Proof.
  intros Hmap Hraw. unfold clean_numeric.
  rewrite (mapped_Some _ _ _ Hmap (getitem_contains _ _ _ Hraw)), Hraw.
  cbn [mbind result_bind]. cbn zeta. rewrite count_if_pos.
  change (String.eqb "stock" "stock") with true. cbn [orb andb].
  unfold cleaned_stock. cbn zeta.
  set (xs := to_numeric raw).
  set (ys := if existsb _ xs then _ else _).
  assert (Hsame : (if existsb (fun x => (x <? lit 0)%num) xs
                   then Df.setitem (Df.setitem table stock_col (Df.of_float xs))
                          stock_col (Df.of_float ys)
                   else Df.setitem table stock_col (Df.of_float xs))
                  = Df.setitem table stock_col (Df.of_float ys)).
  { unfold ys. destruct (existsb _ xs); [apply setitem_twice|done]. }
  rewrite Hsame.
  destruct (existsb Num.is_nan ys) eqn:Hgap.
  - unfold fill_value_for. change (String.eqb "stock" "stock") with true.
    cbn [mbind result_bind]. rewrite setitem_twice.
    destruct (forallb Num.is_nan ys); simpl;
      (eexists; split; [reflexivity|]);
      intros e He; destruct (existsb _ xs); set_solver.
  - rewrite (fillna_id _ _ Hgap).
    eexists; split; [reflexivity|].
    intros e He; destruct (existsb _ xs); set_solver.
Qed.

Lemma fill_value_ok col_type d xs :
  col_type <> "reorder" -> exists v, fill_value_for columns_map col_type d xs = Ok v.
Proof.
  intros Hne. unfold fill_value_for.
  destruct (String.eqb col_type "stock"); [eauto|].
  destruct (String.eqb col_type "sales"); [eauto|].
  destruct (String.eqb_spec col_type "reorder"); [done|eauto].
Qed.

(** A round for another numeric field leaves the cleaned stock column as
    it is, also when the field is mapped to the same header. *)
Lemma clean_numeric_frame col_type d log stock_col cleaned :
  col_type <> "reorder" ->
  Df.getitem d (Some stock_col) = Ok (Df.of_float cleaned) ->
  Forall (fun x => nonneg x = true) cleaned ->
  exists d' log',
    clean_numeric columns_map col_type (d, log) = Ok (d', log')
    /\ Df.getitem d' (Some stock_col) = Ok (Df.of_float cleaned)
    /\ (forall key, Df.contains key d = true -> Df.contains key d' = true)
    /\ (forall e, e ∈ log -> e ∈ log').
Proof.
  intros Hne Hstock Hclean. unfold clean_numeric.
  destruct (mapped columns_map col_type d) as [k|] eqn:Hm; [|by eauto 10].
  apply mapped_inv in Hm as [_ [raw Hraw]%contains_getitem].
  rewrite Hraw. cbn [mbind result_bind]. cbn zeta. rewrite count_if_pos.
  destruct (decide (k = stock_col)) as [->|Hk].
  - rewrite Hstock in Hraw. injection Hraw as <-.
    rewrite to_numeric_of_float.
    destruct (nonneg_no_gap _ Hclean) as [Hnan Hneg].
    rewrite Hneg, andb_false_r, Hnan.
    eexists _, _. split; [reflexivity|].
    split; [apply getitem_setitem_eq|].
    split; [intros key; apply contains_setitem|done].
  - set (xs := to_numeric raw).
    set (fix_negative := _ && existsb _ xs).
    set (ys := if fix_negative then List.map Num.abs xs else xs).
    set (d1 := if fix_negative then _ else _).
    assert (Hd1 : Df.getitem d1 (Some stock_col) = Ok (Df.of_float cleaned)
                  /\ forall key, Df.contains key d = true -> Df.contains key d1 = true).
    { unfold d1. destruct fix_negative.
      - rewrite !getitem_setitem_ne by done. split; [done|].
        intros key Hkey. by do 2 apply contains_setitem.
      - rewrite getitem_setitem_ne by done. split; [done|].
        intros key Hkey. by apply contains_setitem. }
    destruct Hd1 as [Hd1 Hd1'].
    destruct (existsb Num.is_nan ys).
    + destruct (fill_value_ok col_type d1 ys Hne) as [v ->].
      cbn [mbind result_bind].
      eexists _, _. split; [reflexivity|].
      split; [by rewrite getitem_setitem_ne|].
      split; [intros key Hkey; by apply contains_setitem, Hd1'|].
      intros e He. destruct fix_negative; set_solver.
    + eexists _, _. split; [reflexivity|].
      split; [done|]. split; [done|].
      intros e He. destruct fix_negative; set_solver.
Qed.

(** The round for the reorder column, when the column has gaps. *)
Lemma clean_reorder_step d log stock_col reorder_col cleaned raw_reorder :
  columns_map !! "stock" = Some (Some stock_col) -> stock_col <> "" ->
  Df.getitem d (Some stock_col) = Ok (Df.of_float cleaned) ->
  Forall (fun x => nonneg x = true) cleaned ->
  columns_map !! "reorder" = Some (Some reorder_col) ->
  Df.getitem d (Some reorder_col) = Ok raw_reorder ->
  existsb Num.is_nan (to_numeric raw_reorder) = true ->
  let fill_value := (Stats.mean cleaned * lit 0.2)%num in
  reorder_col <> stock_col
  /\ clean_numeric columns_map "reorder" (d, log)
     = Ok (Df.setitem d reorder_col
             (Df.of_float (fillna fill_value (to_numeric raw_reorder))),
           log ++ [LogFilled (count_if Num.is_nan (to_numeric raw_reorder))
                     reorder_col fill_value]).
Proof.
  intros Hs Hsne Hstock Hclean Hr Hraw Hgap fill_value.
  assert (Hne : reorder_col <> stock_col).
  { intros ->. rewrite Hstock in Hraw. injection Hraw as <-.
    rewrite to_numeric_of_float in Hgap.
    destruct (nonneg_no_gap _ Hclean) as [Hno _]. congruence. }
  split; [done|]. unfold clean_numeric.
  rewrite (mapped_Some _ _ _ Hr (getitem_contains _ _ _ Hraw)), Hraw.
  cbn [mbind result_bind]. cbn zeta.
  change (String.eqb "reorder" "stock" || String.eqb "reorder" "sales") with false.
  cbn [andb]. rewrite Hgap.
  unfold fill_value_for.
  change (String.eqb "reorder" "stock") with false.
  change (String.eqb "reorder" "sales") with false.
  change (String.eqb "reorder" "reorder") with true. cbn match.
  unfold Py.get. rewrite Hs. cbn [mbind option_bind id Py.truthy].
  destruct (String.eqb_spec stock_col ""); [done|]. cbn [negb andb].
  rewrite (contains_setitem _ _ _ _ (getitem_contains _ _ _ Hstock)).
  rewrite getitem_setitem_ne by done. rewrite Hstock.
  cbn [mbind result_bind]. rewrite as_float_of_float.
  cbn [mbind result_bind]. by rewrite setitem_twice.
Qed.

Lemma clean_text_ok col_type d log :
  exists d' log',
    clean_text columns_map col_type (d, log) = Ok (d', log')
    /\ (forall key, Df.contains key d = true -> Df.contains key d' = true)
    /\ (forall e, e ∈ log -> e ∈ log').
Proof.
  unfold clean_text.
  destruct (mapped columns_map col_type d) as [k|] eqn:Hm; [|by eauto 10].
  apply mapped_inv in Hm as [_ [raw Hraw]%contains_getitem].
  rewrite Hraw. cbn [mbind result_bind]. cbn zeta.
  destruct (existsb id _).
  - eexists _, _. split; [reflexivity|].
    split; [intros key Hkey; by do 2 apply contains_setitem|set_solver].
  - eexists _, _. split; [reflexivity|].
    split; [intros key Hkey; by apply contains_setitem|done].
Qed.

Lemma dropna_all_ok subset d :
  Forall (fun k => Df.contains (Some k) d = true) subset ->
  exists d', dropna_all subset d = Ok d'.
Proof.
  intros Hsub. unfold dropna_all.
  assert (exists cs, traverse (fun k => Df.getitem d (Some k)) subset = Ok cs) as [cs ->].
  { induction Hsub as [|k subset [c Hc]%contains_getitem _ [cs IH]]; [by eexists|].
    cbn [traverse]. rewrite Hc. cbn [mbind result_bind]. rewrite IH. by eexists. }
  cbn [mbind result_bind]. eauto.
Qed.

(** C9: the numeric fields are cleaned in the order stock, sales, reorder,
    price, turnover, so when the reorder column still has gaps at its turn
    and a stock column is mapped, the value that fills them (the one the
    cleaning log records) is 0.2 times the mean of the stock column as the
    earlier rounds left it: coerced to numbers, negative entries made
    positive, gaps filled with the median. *)
Theorem reorder_fill_from_cleaned_stock (table : DataFrame)
    (stock_col reorder_col : string) (raw_stock : list cell) :
  columns_map !! "stock" = Some (Some stock_col) -> stock_col <> "" ->
  Df.getitem table (Some stock_col) = Ok raw_stock ->
  columns_map !! "reorder" = Some (Some reorder_col) ->
  exists d2 log2,
    clean_numeric columns_map "stock" (table, [])
      ≫= clean_numeric columns_map "sales" = Ok (d2, log2)
    /\ Df.getitem d2 (Some stock_col) = Ok (Df.of_float (cleaned_stock raw_stock))
    /\ forall raw_reorder,
         Df.getitem d2 (Some reorder_col) = Ok raw_reorder ->
         existsb Num.is_nan (to_numeric raw_reorder) = true ->
         let fill_value := (Stats.mean (cleaned_stock raw_stock) * lit 0.2)%num in
         let entry :=
           LogFilled (count_if Num.is_nan (to_numeric raw_reorder)) reorder_col
             fill_value in
         clean_numeric columns_map "reorder" (d2, log2)
         = Ok (Df.setitem d2 reorder_col
                 (Df.of_float (fillna fill_value (to_numeric raw_reorder))),
               log2 ++ [entry])
         /\ exists df_clean cleaning_log,
              clean_data table columns_map = Ok (df_clean, cleaning_log)
              /\ entry ∈ cleaning_log.
Proof.
  intros Hs Hsne Hraw Hr.
  pose proof (cleaned_stock_nonneg raw_stock) as Hclean.
  destruct (clean_stock_step table [] _ _ Hs Hraw) as (log1 & Hstep1 & _).
  destruct (clean_numeric_frame "sales" _ log1 stock_col _ ltac:(done)
              (getitem_setitem_eq table stock_col _) Hclean)
    as (d2 & log2 & Hstep2 & Hstock2 & _ & _).
  exists d2, log2. rewrite Hstep1. cbn [mbind result_bind].
  split; [done|]. split; [done|].
  intros raw_reorder Hreorder Hgap.
  set (fill_value := (Stats.mean (cleaned_stock raw_stock) * lit 0.2)%num).
  set (entry := LogFilled _ reorder_col fill_value).
  destruct (clean_reorder_step d2 log2 _ _ _ _ Hs Hsne Hstock2 Hclean Hr Hreorder Hgap)
    as (Hne & Hstep3).
  split; [exact Hstep3|].
  set (d3 := Df.setitem d2 reorder_col _) in Hstep3.
  assert (Hstock3 : Df.getitem d3 (Some stock_col)
                    = Ok (Df.of_float (cleaned_stock raw_stock))).
  { unfold d3. by rewrite getitem_setitem_ne. }
  destruct (clean_numeric_frame "price" d3 (log2 ++ [entry]) stock_col _
              ltac:(done) Hstock3 Hclean)
    as (d4 & log4 & Hstep4 & Hstock4 & _ & Hlog4).
  destruct (clean_numeric_frame "turnover" d4 log4 stock_col _
              ltac:(done) Hstock4 Hclean)
    as (d5 & log5 & Hstep5 & _ & _ & Hlog5).
  destruct (clean_text_ok "name" d5 log5) as (d6 & log6 & Hstep6 & _ & Hlog6).
  destruct (clean_text_ok "category" d6 log6) as (d7 & log7 & Hstep7 & _ & Hlog7).
  destruct (clean_text_ok "supplier" d7 log7) as (d8 & log8 & Hstep8 & _ & Hlog8).
  assert (Hentry : entry ∈ log8).
  { apply Hlog8, Hlog7, Hlog6, Hlog5, Hlog4. set_solver. }
  subst d3 entry fill_value. unfold clean_data. cbn [foldl]. cbn zeta. cbn [mbind result_bind].
  rewrite Hstep1. cbn [mbind result_bind].
  rewrite Hstep2. cbn [mbind result_bind].
  rewrite Hstep3. cbn [mbind result_bind].
  rewrite Hstep4. cbn [mbind result_bind].
  rewrite Hstep5. cbn [mbind result_bind].
  rewrite Hstep6. cbn [mbind result_bind].
  rewrite Hstep7. cbn [mbind result_bind].
  rewrite Hstep8. cbn [mbind result_bind].
  set (critical := List.filter _ _).
  assert (Hcrit : Forall (fun k => Df.contains (Some k) d8 = true) critical).
  { apply Forall_forall. intros k [_ Hk]%list_elem_of_In%filter_In.
    by apply andb_true_iff in Hk as [_ Hk]. }
  destruct critical as [|k ks]; [by eauto|].
  destruct (dropna_all_ok _ _ Hcrit) as [d9 ->]. cbn [mbind result_bind].
  eexists _, _. split; [reflexivity|].
  destruct (0 <? _); set_solver.
Qed.

End ReorderFill.

Section ReorderFillExample.
#[local] Existing Instance Reference.library.

Lemma reorder_fill_from_cleaned_stock_witness :
  exists df_clean cleaning_log,
    clean_data Examples.restock Examples.full_map = Ok (df_clean, cleaning_log)
    /\ LogFilled 1 "Reorder" (lit 3) ∈ cleaning_log.
Proof.
  destruct (reorder_fill_from_cleaned_stock Examples.full_map Examples.restock
              "Stock" "Reorder"
              [CNum (lit (-10)); CNum (lit 20); Examples.missing])
    as (d2 & log2 & Hsteps & _ & Hfill);
    [vm_compute; reflexivity | discriminate | vm_compute; reflexivity
    | vm_compute; reflexivity | ].
  vm_compute in Hsteps. injection Hsteps as <- <-.
  destruct (Hfill [CNum (lit 5); Examples.missing; CNum (lit 3)])
    as (_ & df_clean & cleaning_log & Hclean & Hentry);
    [vm_compute; reflexivity | vm_compute; reflexivity | ].
  exists df_clean, cleaning_log. split; [exact Hclean|exact Hentry].
Defined.

(** The mean of the raw stock column would have given another value. *)
Example reorder_fill_not_from_raw_stock :
  (fun st => st.2) <$> clean_data Examples.restock Examples.full_map
  = Ok [LogNegative 1 "Stock"; LogFilled 1 "Stock" (lit 15);
        LogFilled 1 "Reorder" (lit 3)]
  /\ (Stats.mean [lit (-10); lit 20; NaN] * lit 0.2)%num = lit 1.
Proof. vm_compute. done. Qed.

End ReorderFillExample.

(** ** Sorting *)

Section SortFacts.
Context {A : Type} (before : A -> A -> bool).
Hypothesis before_asym : forall a b, before a b = true -> before b a = false.
Hypothesis before_negtrans :
  forall a b c, before b a = false -> before c b = false -> before c a = false.

Lemma insert_by_sorted x l :
  StronglySorted (fun a b => before b a = false) l ->
  StronglySorted (fun a b => before b a = false) (insert_by before x l).
Proof.
  induction 1 as [|y l Hl IH Hy]; simpl; [repeat constructor|].
  destruct (before y x) eqn:Hyx.
  - constructor; [done|]. rewrite insert_by_perm. constructor; [|done].
    by apply before_asym.
  - constructor; [by constructor|]. constructor; [done|].
    eapply Forall_impl; [exact Hy|]. intros z Hz. simpl in Hz.
    by eapply before_negtrans.
Qed.

Lemma stable_sort_sorted l :
  StronglySorted (fun a b => before b a = false) (stable_sort before l).
Proof.
  induction l as [|x l IH]; simpl; [constructor|]. by apply insert_by_sorted.
Qed.

End SortFacts.

Lemma ltb_asym a b : Num.ltb a b = true -> Num.ltb b a = false.
Proof.
  destruct a as [p| | |], b as [q| | |]; simpl; try done.
  destruct (Qle_bool q p) eqn:E1, (Qle_bool p q) eqn:E2; try done.
  intros _. apply not_true_iff_false in E1, E2.
  rewrite Qle_bool_iff in E1, E2. lra.
Qed.

Lemma ltb_negtrans a b c :
  Num.is_nan a = false -> Num.is_nan b = false -> Num.is_nan c = false ->
  Num.ltb a b = false -> Num.ltb b c = false -> Num.ltb a c = false.
Proof.
  destruct a as [p| | |], b as [q| | |], c as [r| | |]; simpl; try done.
  intros _ _ _.
  destruct (Qle_bool q p) eqn:E1, (Qle_bool r q) eqn:E2, (Qle_bool r p) eqn:E3;
    try done.
  apply not_true_iff_false in E3. rewrite Qle_bool_iff in E1, E2, E3. lra.
Qed.

Lemma desc_asym a b : Order.desc a b = true -> Order.desc b a = false.
Proof.
  unfold Order.desc, Num.notna.
  destruct (Num.is_nan a) eqn:Ha, (Num.is_nan b) eqn:Hb; simpl; try done.
  intros Hlt. by apply ltb_asym.
Qed.

Lemma desc_negtrans a b c :
  Order.desc b a = false -> Order.desc c b = false -> Order.desc c a = false.
Proof.
  unfold Order.desc, Num.notna.
  destruct (Num.is_nan a) eqn:Ha, (Num.is_nan b) eqn:Hb, (Num.is_nan c) eqn:Hc;
    simpl; try done.
  intros H1 H2. by apply (ltb_negtrans a b c).
Qed.

Lemma asc_asym a b : Order.asc a b = true -> Order.asc b a = false.
Proof.
  unfold Order.asc, Num.notna.
  destruct (Num.is_nan a) eqn:Ha, (Num.is_nan b) eqn:Hb; simpl; try done.
  intros Hlt. by apply ltb_asym.
Qed.

Lemma asc_negtrans a b c :
  Order.asc b a = false -> Order.asc c b = false -> Order.asc c a = false.
Proof.
  unfold Order.asc, Num.notna.
  destruct (Num.is_nan a) eqn:Ha, (Num.is_nan b) eqn:Hb, (Num.is_nan c) eqn:Hc;
    simpl; try done.
  intros H1 H2. by apply (ltb_negtrans c b a).
Qed.

(** Sorting positions by their keys. *)
Lemma imap_pair_fst {A} (l : list A) : (imap pair l).*1 = seq 0 (length l).
Proof.
  rewrite fmap_imap.
  rewrite (imap_ext _ (fun i _ => i)) by done.
  by rewrite (imap_seq_0 l (fun i => i)), list_fmap_id.
Qed.

Lemma imap_pair_snd {A} (l : list A) : (imap pair l).*2 = l.
Proof.
  rewrite fmap_imap. rewrite (imap_ext _ (const id)) by done.
  by rewrite imap_const, list_fmap_id.
Qed.

Lemma argsort_perm before keys :
  Order.argsort before keys ≡ₚ seq 0 (length keys).
Proof.
  unfold Order.argsort. by rewrite stable_sort_perm, imap_pair_fst.
Qed.

Lemma pick_pairs {A} (l : list A) (ps : list (nat * A)) :
  Forall (fun p => l !! p.1 = Some p.2) ps -> Df.pick ps.*1 l = ps.*2.
Proof.
  unfold Df.pick. induction 1 as [|[i x] ps Hp _ IH]; [done|].
  rewrite !fmap_cons. simpl in Hp. change (omap ?f (?a :: ?l)) with
    (match f a with Some y => y :: omap f l | None => omap f l end).
  cbn beta. cbn [fst snd]. by rewrite Hp, IH.
Qed.

Lemma argsort_pick before keys :
  Df.pick (Order.argsort before keys) keys
  = (stable_sort (fun p q => before p.2 q.2) (imap pair keys)).*2.
Proof.
  unfold Order.argsort. apply pick_pairs.
  rewrite stable_sort_perm. apply Forall_forall.
  intros [i x] (j & y & [= -> ->] & Hj)%elem_of_lookup_imap. done.
Qed.

Lemma StronglySorted_fmap_2 {A B} (R : B -> B -> Prop) (f : A -> B) l :
  StronglySorted (fun a b => R (f a) (f b)) l -> StronglySorted R (f <$> l).
Proof.
  induction 1 as [|x l _ IH Hx]; [constructor|].
  rewrite fmap_cons. constructor; [done|]. by apply Forall_fmap.
Qed.

(** The keys taken in the order [argsort] gives are sorted: no key
    strictly precedes one that stands before it. *)
Lemma argsort_sorted before keys :
  (forall a b, before a b = true -> before b a = false) ->
  (forall a b c, before b a = false -> before c b = false -> before c a = false) ->
  StronglySorted (fun x y => before y x = false)
    (Df.pick (Order.argsort before keys) keys).
Proof.
  intros Hasym Htrans. rewrite argsort_pick.
  apply StronglySorted_fmap_2.
  apply (stable_sort_sorted (fun p q : nat * num => before p.2 q.2)).
  - intros a b. apply Hasym.
  - intros a b c. apply Htrans.
Qed.

(** ** ABC classification *)

Lemma pick_seq_app {A} (pre l : list A) :
  Df.pick (seq (length pre) (length l)) (pre ++ l) = l.
Proof.
  unfold Df.pick. revert pre. induction l as [|x l IH]; intros pre; [done|].
  cbn [length seq]. change (omap ?f (?a :: ?l)) with
    (match f a with Some y => y :: omap f l | None => omap f l end).
  cbn beta. rewrite lookup_app_r, Nat.sub_diag by done. cbn [lookup list_lookup].
  f_equal. specialize (IH (pre ++ [x])).
  rewrite length_app, Nat.add_1_r, <- app_assoc in IH. exact IH.
Qed.

Lemma pick_seq {A} (l : list A) : Df.pick (seq 0 (length l)) l = l.
Proof. exact (pick_seq_app [] l). Qed.

Lemma pick_fmap {A B} (f : A -> B) pos (l : list A) :
  Df.pick pos (f <$> l) = f <$> Df.pick pos l.
Proof.
  unfold Df.pick. induction pos as [|i pos IH]; [done|].
  change (omap ?f (?a :: ?l)) with
    (match f a with Some y => y :: omap f l | None => omap f l end).
  cbn beta. rewrite list_lookup_fmap, IH. by destruct (l !! i).
Qed.

Lemma pick_perm {A} pos (l : list A) :
  pos ≡ₚ seq 0 (length l) -> Df.pick pos l ≡ₚ l.
Proof.
  intros Hpos. unfold Df.pick. rewrite Hpos.
  change (Df.pick (seq 0 (length l)) l ≡ₚ l). by rewrite pick_seq.
Qed.

Lemma pick_lookup {A} pos (l : list A) r :
  Forall (fun i => i < length l) pos ->
  Df.pick pos l !! r = pos !! r ≫= fun i => l !! i.
Proof.
  unfold Df.pick. intros Hpos. revert r.
  induction Hpos as [|i pos Hi _ IH]; intros r; [done|].
  change (omap ?f (?a :: ?l)) with
    (match f a with Some y => y :: omap f l | None => omap f l end).
  cbn beta. destruct (lookup_lt_is_Some_2 l i Hi) as [x Hx]. rewrite Hx.
  destruct r as [|r]; simpl; [done|]. apply IH.
Qed.

Lemma perm_seq_bound pos n : pos ≡ₚ seq 0 n -> Forall (fun i => i < n) pos.
Proof.
  intros Hpos. rewrite Hpos. apply Forall_forall. intros i Hi%elem_of_seq. lia.
Qed.

Lemma cumsum_from_length acc xs : length (Num.cumsum_from acc xs) = length xs.
Proof.
  revert acc. induction xs as [|x xs IH]; intros acc; simpl; [done|].
  destruct (Num.is_nan x); simpl; by rewrite IH.
Qed.

Lemma index_of_Some row ranking r :
  index_of row ranking = Some r -> ranking !! r = Some row.
Proof.
  revert r. induction ranking as [|j ranking IH]; intros r; simpl; [done|].
  destruct (Nat.eqb_spec j row) as [->|Hne].
  - by intros [= <-].
  - destruct (index_of row ranking) as [r'|]; simpl; [|done].
    intros [= <-]. by apply IH.
Qed.

Lemma index_of_elem row ranking :
  row ∈ ranking -> exists r, index_of row ranking = Some r.
Proof.
  induction ranking as [|j ranking IH]; simpl; [by intros ?%elem_of_nil|].
  destruct (Nat.eqb_spec j row) as [->|Hne]; [eauto|].
  intros [?|Hin]%elem_of_cons; [congruence|].
  destruct (IH Hin) as [r ->]. simpl. eauto.
Qed.

Lemma matches_absent a l k :
  a ∉ l ->
  List.filter (fun p : nat * Z => Z.eqb p.2 a) (imap (fun i x => (k + i, x)) l) = [].
Proof.
  revert k. induction l as [|x l IH]; intros k Ha; [done|].
  rewrite imap_cons. simpl.
  destruct (Z.eqb_spec x a) as [->|Hne]; [by destruct Ha; left|].
  rewrite (imap_ext _ (fun i x => (S k + i, x))).
  - apply IH. intros Hin. apply Ha. by right.
  - intros i y _. simpl. f_equal. lia.
Qed.

Lemma matches_offset a l k r :
  NoDup l -> l !! r = Some a ->
  List.map fst (List.filter (fun p : nat * Z => Z.eqb p.2 a)
                  (imap (fun i x => (k + i, x)) l)) = [k + r].
Proof.
  revert k r. induction l as [|x l IH]; intros k r Hnd Hr; [done|].
  apply NoDup_cons in Hnd as [Hx Hnd]. rewrite imap_cons. simpl.
  rewrite (imap_ext _ (fun i x => (S k + i, x))) by (intros; simpl; f_equal; lia).
  destruct r as [|r]; simpl in Hr.
  - injection Hr as ->. rewrite Z.eqb_refl.
    rewrite (matches_absent a l (S k) Hx). simpl. by rewrite Nat.add_0_r.
  - destruct (Z.eqb_spec x a) as [->|Hne].
    + destruct Hx. by eapply list_elem_of_lookup_2.
    + rewrite (IH (S k) r) by done. f_equal. lia.
Qed.

Lemma matches_unique a l r :
  NoDup l -> l !! r = Some a -> Merge.matches a l = [r].
Proof. intros Hnd Hr. unfold Merge.matches. by apply (matches_offset a l 0 r). Qed.

Lemma mjoin_imap_singleton {A B} (g : nat -> A -> B) (l : list A) :
  mjoin (imap (fun i x => [g i x]) l) = imap g l.
Proof.
  revert g. induction l as [|x l IH]; intros g; [done|].
  rewrite !imap_cons. simpl. f_equal. apply (IH (g ∘ S)).
Qed.

(** Joining a frame with its own rows in another order finds, for every
    row, the one partner with the same label. *)
Lemma rows_of_ranking (labels : list Z) ranking :
  NoDup labels -> ranking ≡ₚ seq 0 (length labels) ->
  Merge.rows labels (Df.pick ranking labels)
  = imap (fun i _ => (i, index_of i ranking)) labels.
Proof.
  intros Hnd Hperm. unfold Merge.rows.
  rewrite <- (mjoin_imap_singleton (fun i _ => (i, index_of i ranking))).
  f_equal. apply imap_ext. intros i a Hi. simpl.
  assert (Hin : i ∈ ranking).
  { rewrite Hperm. apply elem_of_seq. split; [lia|]. simpl.
    by eapply lookup_lt_Some. }
  destruct (index_of_elem _ _ Hin) as [r Hr]. rewrite Hr.
  apply index_of_Some in Hr.
  rewrite (matches_unique a _ r); [done| |].
  - by rewrite (pick_perm _ _ Hperm).
  - rewrite pick_lookup by (by apply perm_seq_bound). by rewrite Hr.
Qed.

Lemma get_of_floats d k a dflt :
  Df.floats d (Some k) = Ok a -> Df.get d k dflt = Ok a.
Proof.
  unfold Df.floats, Df.get, Df.getitem.
  destruct (Df.assoc k (columns d)); [|done]. simpl.
  destruct (Df.as_float l); simpl; [|done]. done.
Qed.

Lemma floats_length d k xs :
  well_formed d -> Df.floats d (Some k) = Ok (Arr xs) -> length xs = Df.len d.
Proof.
  intros Hwf (c & ys & Hget & Hys & [= ->])%floats_Ok.
  assert (length c = Df.len d) as <-.
  { unfold Df.getitem in Hget.
    destruct (Df.assoc k (columns d)) as [c'|] eqn:Hc; [|done].
    injection Hget as ->. apply assoc_elem in Hc.
    by apply (proj1 (Forall_forall _ _) Hwf (k, c)). }
  clear Hget. revert ys Hys. unfold Df.as_float.
  induction c as [|x c IH]; intros ys; simpl; [by intros [= <-]|].
  destruct x; [|done]. simpl.
  destruct (traverse _ c) eqn:Hc; [|done]. simpl. intros [= <-]. simpl.
  f_equal. by apply IH.
Qed.

Lemma zip_with_nested {A B C} (f : C -> A -> A) (g : A -> B -> C) (a : list A) (b : list B) :
  zip_with f (zip_with g a b) a = zip_with (fun x y => f (g x y) x) a b.
Proof.
  revert b. induction a as [|x a IH]; intros [|y b]; simpl; [done..|].
  by rewrite IH.
Qed.

Lemma select_abc_classes n (pct : list num) :
  length pct = n ->
  Np.select n
    [ Np.cmp Num.leb n (Arr pct) (Scal (lit 70));
      Np.cmp Num.leb n (Arr pct) (Scal (lit 90));
      Np.cmp Num.leb n (Arr pct) (Scal (lit 100)) ] ["A"; "B"; "C"] "C"
  = abc_class_of <$> pct.
Proof.
  intros Hlen. apply list_eq. intros i.
  destruct (decide (i < n)) as [Hi|Hi].
  - rewrite select_lookup by done.
    destruct (lookup_lt_is_Some_2 pct i ltac:(lia)) as [x Hx].
    rewrite list_lookup_fmap, Hx. simpl. f_equal.
    rewrite !(cmp_lookup _ _ _ _ _ _ _ Hx (values_lookup_scal _ _ _ Hi)).
    unfold abc_class_of.
    destruct (x <=? lit 70)%num; [done|].
    destruct (x <=? lit 90)%num; [done|].
    by destruct (x <=? lit 100)%num.
  - rewrite !lookup_ge_None_2; [done| |].
    + rewrite length_fmap. lia.
    + rewrite select_length. lia.
Qed.

Lemma impact_is_cogs p q : ~ (p == 0)%Q -> (Fin p * Fin q / Fin p)%num = lit q.
Proof.
  intros Hp. simpl. destruct (Qeq_bool p 0) eqn:E.
  - by apply Qeq_bool_iff in E.
  - unfold lit. f_equal. apply Qred_complete.
    rewrite Qred_correct. field. done.
Qed.

Lemma impact_of_no_sales c : (lit 0 * c / lit 0)%num = NaN.
Proof. by destruct c. Qed.

Lemma impact_of_no_sales_eq p q : (p == 0)%Q -> (Fin p * Fin q / Fin p)%num = NaN.
Proof.
  intros Hp. simpl. destruct (Qeq_bool p 0) eqn:E.
  - assert (Hz : (Qred (p * q) == 0)%Q).
    { rewrite Qred_correct, Hp. ring. }
    unfold Qeq in Hz. simpl in Hz. rewrite Z.mul_1_r in Hz. by rewrite Hz.
  - apply Qeq_bool_neq in E. done.
Qed.

Lemma merge_classes (d : DataFrame) ranking (classes : list string) :
  well_formed d -> NoDup (index d) -> "ABC_Class" ∉ Df.names d ->
  ranking ≡ₚ seq 0 (Df.len d) -> length classes = Df.len d ->
  Merge.left_index d
    (mkDF (Df.pick ranking (index d)) [("ABC_Class", Df.of_str classes)])
  = mkDF (index d)
      (columns d
       ++ [("ABC_Class",
            Df.of_str
              ((fun row => default "C" (index_of row ranking ≫= fun r => classes !! r))
                 <$> seq 0 (Df.len d)))]).
Proof.
  intros Hwf Hnd Hfresh Hperm Hlen. unfold Merge.left_index. cbn [index columns].
  rewrite (rows_of_ranking _ _ Hnd Hperm).
  assert (Hfst : (imap (fun i (_ : Z) => (i, index_of i ranking)) (index d)).*1
                 = seq 0 (Df.len d)).
  { rewrite fmap_imap. rewrite (imap_ext _ (fun i _ => i)) by done.
    by rewrite (imap_seq_0 (index d) (fun i => i)), list_fmap_id. }
  assert (Hsnd : (imap (fun i (_ : Z) => (i, index_of i ranking)) (index d)).*2
                 = (fun i => index_of i ranking) <$> seq 0 (Df.len d)).
  { rewrite fmap_imap. rewrite (imap_ext _ (fun i _ => index_of i ranking)) by done.
    by rewrite (imap_seq_0 (index d) (fun i => index_of i ranking)). }
  rewrite Hfst, Hsnd. unfold Df.len at 1. rewrite pick_seq. f_equal. f_equal.
  - transitivity (List.map id (columns d)); [|apply List.map_id].
    apply List.map_ext_in. intros [k c] Hkc%list_elem_of_In.
    pose proof (proj1 (Forall_forall _ _) Hwf _ Hkc) as Hc. simpl in Hc.
    simpl. rewrite <- Hc, pick_seq. f_equal.
    unfold Merge.suffix, Df.names. simpl. rewrite bool_decide_eq_false_2; [done|].
    intros ->%list_elem_of_singleton. apply Hfresh.
    apply list_elem_of_fmap. by exists ("ABC_Class", c).
  - simpl. unfold Merge.suffix. rewrite bool_decide_eq_false_2 by done.
    f_equal. f_equal. unfold Merge.pick_right, Df.of_str.
    change (List.map ?f ?l) with (f <$> l). rewrite <- !list_fmap_compose.
    apply list_fmap_ext. intros i x [-> Hi]%lookup_seq. simpl.
    assert (Hin : i ∈ ranking).
    { rewrite Hperm. apply elem_of_seq. lia. }
    destruct (index_of_elem _ _ Hin) as [r Hr]. rewrite Hr. simpl.
    apply index_of_Some, lookup_lt_Some in Hr.
    assert (length ranking = Df.len d) as Hrl.
    { by rewrite Hperm, length_seq. }
    destruct (lookup_lt_is_Some_2 classes r ltac:(lia)) as [x Hx].
    by rewrite list_lookup_fmap, Hx.
Qed.


Section AbcExample.
#[local] Existing Instance Reference.library.



End AbcExample.

(** ** Fast and slow movers *)

Lemma stable_sort_fmap {A B} (f : A -> B) (R : A -> A -> bool) (R' : B -> B -> bool) l :
  (forall a b, R' (f a) (f b) = R a b) ->
  stable_sort R' (f <$> l) = f <$> stable_sort R l.
Proof.
  intros HR. induction l as [|x l IH]; [done|].
  rewrite fmap_cons. simpl. rewrite IH. generalize (stable_sort R l). clear IH.
  intros s. induction s as [|y s IH]; [done|].
  rewrite fmap_cons. simpl. rewrite HR. destruct (R y x); [|done].
  rewrite fmap_cons. by rewrite IH.
Qed.

Lemma first_by_selects before keys n rows :
  (forall a b, before a b = true -> before b a = false) ->
  (forall a b c, before b a = false -> before c b = false -> before c a = false) ->
  selects before keys n rows (first_by before keys n rows).
Proof.
  intros Hasym Htrans. unfold selects, first_by.
  set (R := fun i j => before (key_at keys i) (key_at keys j)).
  pose proof (stable_sort_sorted R ltac:(intros a b; apply Hasym)
                ltac:(intros a b c; apply Htrans) rows) as Hsorted.
  rewrite <- (take_drop n (stable_sort R rows)) in Hsorted.
  split; [by rewrite length_take, (Permutation_length (stable_sort_perm R rows)); lia|].
  split; [by apply StronglySorted_app_1_l in Hsorted|].
  exists (drop n (stable_sort R rows)). split.
  - by rewrite take_drop, stable_sort_perm.
  - intros i j Hi Hj. by apply (StronglySorted_app_1_elem_of _ _ _ _ _ Hsorted).
Qed.

Lemma first_by_all before keys n rows :
  length rows <= n -> first_by before keys n rows ≡ₚ rows.
Proof.
  intros Hn. unfold first_by. rewrite firstn_all2.
  - apply stable_sort_perm.
  - by rewrite (Permutation_length (stable_sort_perm _ rows)).
Qed.

Lemma first_by_bound before keys n rows m :
  Forall (fun i => i < m) rows -> Forall (fun i => i < m) (first_by before keys n rows).
Proof.
  intros Hrows. unfold first_by. apply Forall_take. by rewrite stable_sort_perm.
Qed.

Lemma first_by_length before keys n rows : length (first_by before keys n rows) <= n.
Proof. unfold first_by. rewrite length_take. lia. Qed.

Lemma mask_positions_bound mask :
  Forall (fun i => i < length mask) (Df.mask_positions mask).
Proof.
  unfold Df.mask_positions. apply Forall_forall.
  intros i Hi%list_elem_of_In%in_map_iff.
  destruct Hi as ([j b] & Hj & [Hin _]%filter_In). simpl in Hj. subst j.
  apply list_elem_of_In, elem_of_lookup_imap in Hin as (k & y & [= -> ->] & Hk).
  by eapply lookup_lt_Some.
Qed.

Lemma pick_map {A} pos (l : list A) (dflt : A) :
  Forall (fun i => i < length l) pos ->
  Df.pick pos l = (fun i => default dflt (l !! i)) <$> pos.
Proof.
  unfold Df.pick. induction 1 as [|i pos Hi _ IH]; [done|].
  rewrite fmap_cons.
  change (omap ?f (?a :: ?l)) with
    (match f a with Some y => y :: omap f l | None => omap f l end).
  cbn beta. destruct (lookup_lt_is_Some_2 l i Hi) as [x ->]. simpl. by rewrite IH.
Qed.

Lemma pick_length {A} pos (l : list A) :
  Forall (fun i => i < length l) pos -> length (Df.pick pos l) = length pos.
Proof.
  intros Hpos. destruct l as [|x l].
  - destruct Hpos as [|i pos Hi _]; [done|simpl in Hi; lia].
  - by rewrite (pick_map _ _ x Hpos), length_fmap.
Qed.

Lemma pick_cons {A} i pos (l : list A) :
  Df.pick (i :: pos) l
  = match l !! i with Some y => y :: Df.pick pos l | None => Df.pick pos l end.
Proof. reflexivity. Qed.

Lemma pick_pick {A} p2 p1 (l : list A) :
  Forall (fun i => i < length l) p1 ->
  Df.pick p2 (Df.pick p1 l) = Df.pick (Df.pick p2 p1) l.
Proof.
  intros Hp1. induction p2 as [|j p2 IH]; [done|].
  rewrite !pick_cons, pick_lookup by done.
  destruct (p1 !! j) as [i|] eqn:Hj; cbn [mbind option_bind]; [|exact IH].
  assert (i < length l) as Hi.
  { apply (proj1 (Forall_forall _ _) Hp1). by eapply list_elem_of_lookup_2. }
  rewrite pick_cons.
  destruct (lookup_lt_is_Some_2 l i Hi) as [x ->]. by rewrite IH.
Qed.

Lemma pick_take {A} n pos (l : list A) :
  Forall (fun i => i < length l) pos ->
  Df.pick (firstn n pos) l = firstn n (Df.pick pos l).
Proof.
  intros Hpos. destruct l as [|x l].
  - destruct Hpos as [|i pos Hi _]; [by destruct n|simpl in Hi; lia].
  - rewrite (pick_map _ _ x Hpos), (pick_map (take n pos) _ x) by (by apply Forall_take).
    by rewrite fmap_take.
Qed.

(** Sorting rows by their keys, through [argsort] on the keys taken out. *)
Lemma argsort_rows before keys rows :
  Forall (fun i => i < length keys) rows ->
  Df.pick (Order.argsort before (Df.pick rows keys)) rows
  = stable_sort (fun i j => before (key_at keys i) (key_at keys j)) rows.
Proof.
  intros Hrows. unfold Order.argsort.
  rewrite (pick_map _ _ NaN Hrows). fold (key_at keys).
  rewrite imap_fmap.
  set (R := fun p q : nat * nat => before (key_at keys p.2) (key_at keys q.2)).
  assert (Hpairs : imap (fun n => pair n ∘ key_at keys) rows
                   = prod_map id (key_at keys) <$> imap pair rows).
  { rewrite fmap_imap. by apply imap_ext. }
  rewrite Hpairs, (stable_sort_fmap _ R) by done.
  rewrite <- list_fmap_compose.
  change (fst ∘ prod_map id (key_at keys)) with (@fst nat nat).
  rewrite pick_pairs.
  - rewrite <- (stable_sort_fmap snd R
                 (fun i j => before (key_at keys i) (key_at keys j))) by done.
    by rewrite imap_pair_snd.
  - rewrite stable_sort_perm. apply Forall_forall.
    intros [i x] (j & y & [= -> ->] & Hj)%elem_of_lookup_imap. done.
Qed.

Lemma take_take p2 p1 d :
  well_formed d -> Forall (fun i => i < Df.len d) p1 ->
  Df.take p2 (Df.take p1 d) = Df.take (Df.pick p2 p1) d.
Proof.
  intros Hwf Hp1. unfold Df.take. cbn [index columns]. f_equal.
  - by apply pick_pick.
  - rewrite <- list_fmap_compose. apply list_fmap_ext.
    intros i [k c] Hkc%list_elem_of_lookup_2. simpl. f_equal.
    apply pick_pick.
    pose proof (proj1 (Forall_forall _ _) Hwf _ Hkc) as Hc. simpl in Hc.
    by rewrite Hc.
Qed.

Lemma at_take pos d i p :
  well_formed d -> Forall (fun i => i < Df.len d) pos -> pos !! i = Some p ->
  RowOps.at_ (Df.take pos d) i = RowOps.at_ d p.
Proof.
  intros Hwf Hpos Hp. unfold RowOps.at_, Df.take. cbn [columns].
  induction Hwf as [|[k c] cs Hc _ IH]; [done|].
  rewrite fmap_cons.
  change (omap ?f (?a :: ?l)) with
    (match f a with Some y => y :: omap f l | None => omap f l end).
  cbn beta. cbn [prod_map fst snd id].
  simpl in Hc. rewrite pick_lookup by (by rewrite Hc). rewrite Hp.
  cbn [mbind option_bind]. by rewrite IH.
Qed.

Lemma iterrows_take pos d :
  well_formed d -> Forall (fun i => i < Df.len d) pos ->
  RowOps.iterrows (Df.take pos d) = RowOps.at_ d <$> pos.
Proof.
  intros Hwf Hpos. unfold RowOps.iterrows.
  assert (Df.len (Df.take pos d) = length pos) as ->.
  { unfold Df.len, Df.take. cbn [index]. by apply pick_length. }
  apply list_eq. intros i. change (List.map ?f ?l) with (f <$> l).
  rewrite !list_lookup_fmap.
  destruct (pos !! i) as [p|] eqn:Hp.
  - rewrite lookup_seq_lt by (by eapply lookup_lt_Some). simpl.
    f_equal. by apply at_take.
  - rewrite lookup_seq_ge by (by apply lookup_ge_None). done.
Qed.

Lemma as_float_inv c xs : Df.as_float c = Ok xs -> c = Df.of_float xs.
Proof.
  unfold Df.as_float, Df.of_float. revert xs.
  induction c as [|x c IH]; intros xs; simpl; [by intros [= <-]|].
  destruct x as [v|]; [|done]. simpl.
  destruct (traverse _ c) as [ys|]; [|done]. simpl.
  intros [= <-]. rewrite fmap_cons. f_equal. by apply IH.
Qed.

Lemma nselect_take before n col rows d keys :
  well_formed d -> Forall (fun i => i < Df.len d) rows ->
  Df.floats d (Some col) = Ok (Arr keys) ->
  nselect before n col (Df.take rows d)
  = Ok (Df.take (first_by before keys n rows) d).
Proof.
  intros Hwf Hrows Hkeys.
  pose proof (floats_length _ _ _ Hwf Hkeys) as Hlen.
  apply floats_Ok in Hkeys as (c & ks & Hget & Hks & [= ->]).
  apply as_float_inv in Hks. subst c.
  unfold nselect. rewrite getitem_take, Hget.
  cbn [fmap result_fmap mbind result_bind].
  replace (Df.pick rows (Df.of_float ks)) with (Df.of_float (Df.pick rows ks))
    by (symmetry; apply pick_fmap).
  rewrite as_float_of_float. cbn [mbind result_bind].
  rewrite take_take by done. do 2 f_equal.
  assert (Hrange : Forall (fun i => i < length rows)
                     (Order.argsort before (Df.pick rows ks))).
  { apply perm_seq_bound. rewrite argsort_perm.
    by rewrite pick_length by (by rewrite Hlen). }
  rewrite pick_take by done. unfold first_by. f_equal.
  apply argsort_rows. by rewrite Hlen.
Qed.

Section MoversFacts.
Context `{Library}.

Lemma format_movers_take self rows priority :
  well_formed (df self) -> Forall (fun i => i < Df.len (df self)) rows ->
  field self "Priority_Score" = Ok (Arr priority) ->
  format_movers self (Df.take rows (df self)) 10
  = traverse (mover_of_row self)
      (RowOps.at_ (df self) <$> first_by Order.desc priority 10 rows).
Proof.
  intros Hwf Hrows Hprio. unfold format_movers.
  assert (Df.len (Df.take rows (df self)) = length rows) as ->.
  { unfold Df.len, Df.take. cbn [index]. by apply pick_length. }
  destruct rows as [|i rows]; [done|]. cbn [length Nat.eqb].
  unfold nlargest. rewrite (nselect_take _ _ _ _ _ priority) by done.
  cbn [mbind result_bind]. rewrite iterrows_take; [done|done|].
  by apply first_by_bound.
Qed.

End MoversFacts.

Section Movers.
Context `{Library}.


End Movers.

Section MoversExample.
#[local] Existing Instance Reference.library.



End MoversExample.

(** * Further properties *)

(** ** The column resolver on a whole table *)

Section ResolverFacts.
Import DataProcessor.

Lemma find_column_Some keywords columns h :
  find_column keywords columns = Some h ->
  h ∈ columns /\ 0 < column_score keywords h.
Proof.
  rewrite find_column_best, best_score_table by constructor.
  pose proof (challenge_leads keywords columns) as Hlead.
  simpl. destruct (foldl _ _ _) as [[h' s]|]; simpl in *; [|done].
  intros [= ->]. destruct Hlead as (-> & Hpos & i & Hi & _).
  split; [by eapply list_elem_of_lookup_2|done].
Qed.

Lemma find_column_None keywords columns h :
  find_column keywords columns = None -> h ∈ columns -> column_score keywords h = 0.
Proof.
  rewrite find_column_best, best_score_table by constructor.
  pose proof (challenge_leads keywords columns) as Hlead.
  simpl. destruct (foldl _ _ _) as [[h' s]|]; simpl in *; [done|].
  intros _. apply Hlead.
Qed.

Definition fields : list (string * list string) :=
  column_keywords ++ [("turnover", turnover_keywords)].

Lemma detect_columns_lookup d field keywords :
  (field, keywords) ∈ fields ->
  detect_columns d !! field = Some (find_column keywords (Df.names d)).
Proof.
  unfold fields, column_keywords, detect_columns. cbn [foldl app fst snd].
  intros Hf.
  repeat (apply elem_of_cons in Hf as [[= -> ->]|Hf]; [by simplify_map_eq|]).
  by apply elem_of_nil in Hf.
Qed.

Lemma detect_columns_lookup_inv d field o :
  detect_columns d !! field = Some o ->
  exists keywords, (field, keywords) ∈ fields /\ o = find_column keywords (Df.names d).
Proof.
  intros Hl. unfold detect_columns, column_keywords in Hl. cbn [foldl fst snd] in Hl.
  unfold fields, column_keywords. cbn [app].
  repeat (apply lookup_insert_Some in Hl as [[<- <-]|[_ Hl]];
          [eexists; split; [|reflexivity]; repeat constructor|]).
  by rewrite lookup_empty in Hl.
Qed.

End ResolverFacts.

Section ResolverProperties.
Import DataProcessor.

Lemma blank_header_scores_nothing :
  Forall (fun kv => column_score kv.2 "" = 0) fields.
Proof. repeat constructor. Qed.

Lemma detect_columns_header d field header :
  detect_columns d !! field = Some (Some header) ->
  header ∈ Df.names d /\ header <> "".
Proof.
  intros (keywords & Hf & Hfind)%detect_columns_lookup_inv.
  symmetry in Hfind. apply find_column_Some in Hfind as [Hin Hpos].
  split; [done|]. intros ->.
  pose proof (proj1 (Forall_forall _ _) blank_header_scores_nothing _ Hf) as Hz.
  simpl in Hz. lia.
Qed.

(** X4: [detect_columns] always returns a map with exactly the ten field
    names as keys, and a field is only ever resolved to a header of the
    table, never to the empty string. *)
Theorem detect_columns_resolves_to_headers (d : DataFrame) :
  (forall field,
     is_Some (detect_columns d !! field)
     <-> field ∈ ["name"; "category"; "stock"; "sales"; "reorder"; "price";
                  "supplier"; "lead_time"; "max_stock"; "turnover"])
  /\ (forall field header,
        detect_columns d !! field = Some (Some header) ->
        header ∈ Df.names d /\ header <> "").
Proof.
  split; [|apply detect_columns_header].
  intros field. split.
  - intros [o (keywords & Hf & _)%detect_columns_lookup_inv].
    apply (list_elem_of_fmap_2 fst) in Hf. exact Hf.
  - intros Hf.
    assert (exists keywords, (field, keywords) ∈ fields) as [keywords Hk].
    { repeat (apply elem_of_cons in Hf as [->|Hf];
              [eexists; unfold fields, column_keywords; cbn [app];
               repeat constructor|]).
      by apply elem_of_nil in Hf. }
    rewrite (detect_columns_lookup _ _ _ Hk). by eexists.
Qed.

Lemma generic_term_scores keywords header :
  existsb (fun term => Str.contains term (Str.strip (Str.lower header)))
    inventory_terms = true ->
  0 < column_score keywords header.
Proof. unfold column_score. intros ->. lia. Qed.

(** X5: a header that contains one of the generic terms (qty, amount,
    level, count, volume, units) scores for every keyword list, so with
    such a header in the table [find_column] resolves every field and the
    table passes [validate_required_columns], whatever its other headers
    are. *)
Theorem generic_term_header_passes_validation (d : DataFrame) (header : string) :
  header ∈ Df.names d ->
  existsb (fun term => Str.contains term (Str.strip (Str.lower header)))
    inventory_terms = true ->
  (forall keywords, is_Some (find_column keywords (Df.names d)))
  /\ validate_required_columns (detect_columns d) = (true, []).
Proof.
  intros Hin Hterm.
  assert (Hsome : forall keywords, is_Some (find_column keywords (Df.names d))).
  { intros keywords. destruct (find_column keywords (Df.names d)) eqn:Hfind; [done|].
    pose proof (find_column_None _ _ _ Hfind Hin) as Hz.
    pose proof (generic_term_scores keywords header Hterm). lia. }
  split; [done|].
  assert (Htruthy : forall field keywords, (field, keywords) ∈ fields ->
            Py.truthy (Py.get (detect_columns d) field) = true).
  { intros field keywords Hf. unfold Py.get.
    pose proof (detect_columns_lookup d _ _ Hf) as Hl.
    destruct (Hsome keywords) as [h Hh]. rewrite Hh in Hl.
    destruct (detect_columns_header _ _ _ Hl) as [_ Hne].
    rewrite Hl. simpl. by destruct (String.eqb_spec h ""). }
  unfold validate_required_columns. cbn [List.filter].
  rewrite (Htruthy "name" _ ltac:(unfold fields, column_keywords; repeat constructor)).
  rewrite (Htruthy "category" _ ltac:(unfold fields, column_keywords; repeat constructor)).
  rewrite (Htruthy "stock" _ ltac:(unfold fields, column_keywords; repeat constructor)).
  rewrite (Htruthy "sales" _ ltac:(unfold fields, column_keywords; repeat constructor)).
  done.
Qed.

Lemma generic_term_header_passes_validation_witness :
  (forall keywords, is_Some (find_column keywords (Df.names Samples.counted)))
  /\ validate_required_columns (detect_columns Samples.counted) = (true, []).
Proof.
  apply (generic_term_header_passes_validation Samples.counted "Units").
  - repeat constructor.
  - reflexivity.
Defined.

(** Every field of [Samples.counted] resolves to the header [Units]. *)
Example counted_columns :
  (fun kv => detect_columns Samples.counted !! kv.1) <$> fields
  = replicate 10 (Some (Some "Units")).
Proof. vm_compute. reflexivity. Qed.

End ResolverProperties.

(** ** The data cleaner on every table *)

Section CleanerFacts.
Context `{Library}.
Variable columns_map : gmap string (option string).

Lemma assoc_set_names {A} k (v : A) (l : list (string * A)) :
  k ∈ l.*1 -> (Df.assoc_set k v l).*1 = l.*1.
Proof.
  induction l as [|[k' v'] l IH]; simpl; [by intros ?%elem_of_nil|].
  intros Hk. destruct (String.eqb_spec k k') as [->|Hne]; [done|].
  simpl. f_equal. apply IH. by apply elem_of_cons in Hk as [?|?].
Qed.

Lemma names_setitem d k c :
  Df.contains (Some k) d = true -> Df.names (Df.setitem d k c) = Df.names d.
Proof.
  unfold Df.contains, Df.names, Df.setitem. simpl. intros Hk%bool_decide_eq_true.
  by apply assoc_set_names.
Qed.

Lemma contains_names d d' key :
  Df.names d' = Df.names d -> Df.contains key d' = Df.contains key d.
Proof. unfold Df.contains. by intros ->. Qed.

Lemma mapped_names col_type d d' :
  Df.names d' = Df.names d -> mapped columns_map col_type d' = mapped columns_map col_type d.
Proof.
  intros Hn. unfold mapped. destruct (columns_map !! col_type); [|done].
  by rewrite (contains_names _ _ _ Hn).
Qed.

(** What a column holds. *)
Definition floats_at (d : DataFrame) (k : string) : Prop :=
  exists xs, Df.getitem d (Some k) = Ok (Df.of_float xs).

Definition nonneg_at (d : DataFrame) (k : string) : Prop :=
  exists xs, Df.getitem d (Some k) = Ok (Df.of_float xs)
             /\ Forall (fun x => nonneg x = true) xs.

Definition present_at (d : DataFrame) (k : string) : Prop :=
  exists c, Df.getitem d (Some k) = Ok c /\ Forall (fun x => isna x = false) c.

Definition not_removal (e : log_entry) : Prop :=
  match e with LogRemoved _ => False | _ => True end.

(** The stock column is numeric wherever the reorder round would read it. *)
Definition stock_ready (d : DataFrame) : Prop :=
  forall s, Py.get columns_map "stock" = Some s -> Df.contains (Some s) d = true ->
            floats_at d s.

Lemma nonneg_present d k : nonneg_at d k -> present_at d k.
Proof.
  intros (xs & Hxs & Hnn). exists (Df.of_float xs). split; [done|].
  unfold Df.of_float. apply Forall_fmap. eapply Forall_impl; [exact Hnn|].
  intros x Hx. simpl. by apply nonneg_spec in Hx as [-> _].
Qed.

Lemma nansum_nonneg xs :
  Forall (fun x => nonneg x = true) xs -> nonneg (Num.nansum xs) = true.
Proof.
  unfold Num.nansum. intros Hxs.
  assert (Hacc : nonneg (Fin 0) = true) by done.
  revert Hacc. generalize (Fin 0). induction Hxs as [|x xs Hx _ IH]; intros acc Hacc; [done|].
  destruct (proj1 (nonneg_spec x) Hx) as [Hn _].
  rewrite filter_cons_True by done. simpl. apply IH. by apply add_nonneg.
Qed.

Lemma div_count_nonneg a n :
  nonneg a = true -> 0 < n -> nonneg (a / Num.of_Z (Z.of_nat n))%num = true.
Proof.
  intros Ha Hn. unfold Num.of_Z.
  assert (Hq : Qeq_bool (inject_Z (Z.of_nat n)) 0 = false).
  { apply not_true_is_false. intros Hq%Qeq_bool_eq. unfold Qeq in Hq. simpl in Hq. lia. }
  destruct a as [q| | |]; try done; simpl.
  - rewrite Hq. simpl. rewrite Qle_bool_Qred. apply Qle_bool_iff.
    simpl in Ha. apply Qle_bool_iff in Ha.
    unfold Qdiv. apply Qmult_le_0_compat; [done|].
    apply Qinv_le_0_compat. unfold Qle. simpl. lia.
  - rewrite Hq. simpl.
    assert (Z.sgn (Z.of_nat n) = 1%Z) as -> by lia. done.
Qed.

Lemma dropna_nil xs : Stats.dropna xs = [] -> forallb Num.is_nan xs = true.
Proof.
  unfold Stats.dropna, Num.notna.
  induction xs as [|x xs IH]; simpl; [done|].
  destruct (Num.is_nan x); simpl; [done|discriminate].
Qed.

Lemma mean_nonneg xs :
  Forall (fun x => Num.is_nan x = true \/ nonneg x = true) xs ->
  forallb Num.is_nan xs = false ->
  nonneg (Stats.mean xs) = true.
Proof.
  intros Hxs Hall. unfold Stats.mean.
  assert (Hv : Forall (fun x => nonneg x = true) (Stats.dropna xs)).
  { unfold Stats.dropna. apply Forall_forall. intros x [Hx Hn]%list_elem_of_In%filter_In.
    apply list_elem_of_In in Hx.
    destruct (proj1 (Forall_forall _ _) Hxs x Hx) as [Hnan|]; [|done].
    unfold Num.notna in Hn. by rewrite Hnan in Hn. }
  destruct (Stats.dropna xs) as [|y v] eqn:Hd.
  - rewrite (dropna_nil _ Hd) in Hall. done.
  - apply div_count_nonneg; [by apply nansum_nonneg|simpl; lia].
Qed.


Lemma abs_if_negative (fix_on : bool) xs :
  let ys := if fix_on && existsb (fun x => (x <? lit 0)%num) xs
            then List.map Num.abs xs else xs in
  fix_on = true ->
  Forall (fun x => Num.is_nan x = true \/ nonneg x = true) ys.
Proof.
  intros ys ->. unfold ys. cbn [andb]. destruct (existsb _ xs) eqn:Hneg.
  - apply Forall_forall. intros y Hy%list_elem_of_In%in_map_iff.
    destruct Hy as (x & <- & _). destruct (Num.is_nan x) eqn:Hx.
    + left. by destruct x.
    + right. by apply abs_nonneg.
  - apply Forall_forall. intros x Hx%list_elem_of_In.
    destruct (Num.is_nan x) eqn:Hn; [by left|right].
    apply nonneg_spec. split; [done|]. apply not_true_is_false. intros Hlt.
    assert (existsb (fun x => (x <? lit 0)%num) xs = true); [|congruence].
    apply existsb_exists. eauto.
Qed.

Lemma fillna_nonneg v ys :
  Forall (fun x => Num.is_nan x = true \/ nonneg x = true) ys ->
  (existsb Num.is_nan ys = true -> nonneg v = true) ->
  Forall (fun x => nonneg x = true) (fillna v ys).
Proof.
  intros Hys Hv. unfold fillna. apply Forall_forall.
  intros y Hy%list_elem_of_In%in_map_iff.
  destruct Hy as (x & <- & Hx). pose proof Hx as Hx'%list_elem_of_In.
  destruct (proj1 (Forall_forall _ _) Hys x Hx') as [Hn|Hn].
  - rewrite Hn. apply Hv. apply existsb_exists. eauto.
  - destruct (proj1 (nonneg_spec x) Hn) as [-> _]. done.
Qed.

Lemma existsb_nan_not_all ys :
  existsb Num.is_nan ys = true -> forallb Num.is_nan ys = false ->
  forallb Num.is_nan ys = false.
Proof. done. Qed.

(** A numeric round on a mapped column, with the repeated assignments to
    the column merged. *)
Lemma clean_numeric_mapped col_type d log k raw :
  mapped columns_map col_type d = Some k ->
  Df.getitem d (Some k) = Ok raw ->
  let xs := to_numeric raw in
  let fix_negative :=
    (String.eqb col_type "stock" || String.eqb col_type "sales")
    && existsb (fun x => (x <? lit 0)%num) xs in
  let ys := if fix_negative then List.map Num.abs xs else xs in
  let log1 :=
    log ++ (if fix_negative
            then [LogNegative (count_if (fun x => (x <? lit 0)%num) xs) k] else []) in
  clean_numeric columns_map col_type (d, log)
  = if existsb Num.is_nan ys
    then
      fill_value ← fill_value_for columns_map col_type
                     (Df.setitem d k (Df.of_float ys)) ys;
      Ok (Df.setitem d k (Df.of_float (fillna fill_value ys)),
          log1 ++ [LogFilled (count_if Num.is_nan ys) k fill_value])
    else Ok (Df.setitem d k (Df.of_float ys), log1).
Proof.
  intros Hm Hraw xs fix_negative ys log1. unfold clean_numeric.
  rewrite Hm, Hraw. cbn [mbind result_bind]. cbn zeta. rewrite count_if_pos.
  fold xs. fold fix_negative. unfold log1, ys.
  destruct fix_negative.
  - rewrite setitem_twice.
    destruct (existsb Num.is_nan _); [|done].
    destruct (fill_value_for _ _ _ _); [|done].
    cbn [mbind result_bind]. by rewrite setitem_twice.
  - rewrite app_nil_r.
    destruct (existsb Num.is_nan _); [|done].
    destruct (fill_value_for _ _ _ _); [|done].
    cbn [mbind result_bind]. by rewrite setitem_twice.
Qed.

Lemma floats_at_setitem d k zs k' :
  floats_at d k' -> floats_at (Df.setitem d k (Df.of_float zs)) k'.
Proof.
  intros [xs Hxs]. destruct (decide (k = k')) as [->|Hne].
  - exists zs. apply getitem_setitem_eq.
  - exists xs. by rewrite getitem_setitem_ne.
Qed.

Lemma fill_value_for_ok col_type d ys :
  (col_type = "reorder" -> stock_ready d) ->
  exists v, fill_value_for columns_map col_type d ys = Ok v
            /\ (col_type = "stock" ->
                v = if negb (forallb Num.is_nan ys) then Stats.median ys else lit 0)
            /\ (col_type = "sales" ->
                v = if negb (forallb Num.is_nan ys) then Stats.mean ys else lit 1).
Proof.
  intros Hready. unfold fill_value_for.
  destruct (String.eqb_spec col_type "stock") as [->|Hs].
  { eexists. split; [done|]. split; [done|]. discriminate. }
  destruct (String.eqb_spec col_type "sales") as [->|Hsl].
  { eexists. split; [done|]. split; [discriminate|done]. }
  destruct (String.eqb_spec col_type "reorder") as [->|Hr].
  2: { eexists. split; [done|]. split; intros; done. }
  destruct (Py.get columns_map "stock") as [s|] eqn:Hget; cbn [Py.truthy andb].
  2: { eexists. split; [done|]. split; intros; done. }
  destruct (String.eqb s ""); cbn [negb andb].
  { eexists. split; [done|]. split; intros; done. }
  destruct (Df.contains (Some s) d) eqn:Hc.
  2: { eexists. split; [done|]. split; intros; done. }
  destruct (Hready eq_refl s Hget) as [xs Hxs]; [done|].
  rewrite Hxs. cbn [mbind result_bind]. rewrite as_float_of_float.
  cbn [mbind result_bind]. eexists. split; [done|]. split; intros; done.
Qed.

Lemma clean_numeric_round col_type d log :
  (col_type = "reorder" -> stock_ready d) ->
  exists d' entries,
    clean_numeric columns_map col_type (d, log) = Ok (d', log ++ entries)
    /\ Forall not_removal entries
    /\ index d' = index d /\ Df.names d' = Df.names d
    /\ (forall k, floats_at d k -> floats_at d' k)
    /\ (forall k, nonneg_at d k -> nonneg_at d' k)
    /\ (forall k, mapped columns_map col_type d = Some k ->
          floats_at d' k
          /\ (col_type = "stock" \/ col_type = "sales" -> nonneg_at d' k)).
Proof.
  intros Hready.
  destruct (mapped columns_map col_type d) as [k|] eqn:Hm.
  2: { exists d, []. unfold clean_numeric. rewrite Hm, app_nil_r.
       repeat split; try done. }
  pose proof Hm as Hm'. apply mapped_inv in Hm' as [Hkey Hc].
  destruct (contains_getitem _ _ Hc) as [raw Hraw].
  rewrite (clean_numeric_mapped _ _ _ _ _ Hm Hraw). cbn zeta.
  set (xs := to_numeric raw).
  set (fix_on := String.eqb col_type "stock" || String.eqb col_type "sales").
  set (ys := if fix_on && _ then _ else _).
  set (neg_entry := if fix_on && _ then _ else _).
  assert (Hneg_entry : Forall not_removal neg_entry).
  { unfold neg_entry. destruct (fix_on && _); repeat constructor. }
  assert (Hready1 : col_type = "reorder" ->
                    stock_ready (Df.setitem d k (Df.of_float ys))).
  { intros Hr s Hs Hcs. apply floats_at_setitem. apply (Hready Hr s Hs).
    by rewrite (contains_names _ _ _ (names_setitem d k _ Hc)) in Hcs. }
  destruct (fill_value_for_ok col_type _ ys Hready1) as (v & Hv & Hvstock & Hvsales).
  (* the column the round leaves *)
  assert (exists zs entries,
            (if existsb Num.is_nan ys
             then fill_value ← fill_value_for columns_map col_type
                                (Df.setitem d k (Df.of_float ys)) ys;
                  Ok (Df.setitem d k (Df.of_float (fillna fill_value ys)),
                      (log ++ neg_entry)
                      ++ [LogFilled (count_if Num.is_nan ys) k fill_value])
             else Ok (Df.setitem d k (Df.of_float ys), log ++ neg_entry))
            = Ok (Df.setitem d k (Df.of_float zs), log ++ entries)
            /\ Forall not_removal entries
            /\ zs = fillna v ys) as (zs & entries & -> & Hent & Hzs).
  { destruct (existsb Num.is_nan ys) eqn:Hgap.
    - rewrite Hv. cbn [mbind result_bind]. eexists _, _.
      split; [by rewrite <- app_assoc|]. split; [|done].
      apply Forall_app. split; [done|]. repeat constructor.
    - eexists _, _. split; [reflexivity|]. split; [done|].
      by rewrite fillna_id. }
  exists (Df.setitem d k (Df.of_float zs)), entries.
  split; [done|]. split; [done|]. split; [done|].
  split; [by apply names_setitem|].
  split; [intros k'; apply floats_at_setitem|].
  split.
  - intros k' (xs' & Hxs' & Hnn). destruct (decide (k = k')) as [->|Hne].
    + exists zs. split; [apply getitem_setitem_eq|].
      rewrite Hxs' in Hraw. injection Hraw as <-.
      subst zs. unfold ys, xs. rewrite to_numeric_of_float.
      destruct (nonneg_no_gap _ Hnn) as [Hnan Hneg].
      rewrite Hneg, andb_false_r. by rewrite fillna_id.
    + exists xs'. by rewrite getitem_setitem_ne.
  - intros k' [= <-]. split; [exists zs; apply getitem_setitem_eq|].
    intros Hct. exists zs. split; [apply getitem_setitem_eq|].
    assert (Hfix : fix_on = true).
    { unfold fix_on. destruct Hct as [->| ->]; done. }
    subst zs. apply fillna_nonneg.
    + unfold ys. by apply abs_if_negative.
    + intros Hgap. pose proof (abs_if_negative fix_on xs Hfix) as Hys. fold ys in Hys.
      destruct Hct as [->| ->].
      * rewrite (Hvstock eq_refl). destruct (forallb Num.is_nan ys) eqn:Hall; [done|].
        by apply median_nonneg.
      * rewrite (Hvsales eq_refl). destruct (forallb Num.is_nan ys) eqn:Hall; [done|].
        by apply mean_nonneg.
Qed.


Lemma clean_text_round col_type d log :
  exists d' entries,
    clean_text columns_map col_type (d, log) = Ok (d', log ++ entries)
    /\ Forall not_removal entries
    /\ index d' = index d /\ Df.names d' = Df.names d
    /\ (forall k, present_at d k -> present_at d' k)
    /\ (forall k, mapped columns_map col_type d = Some k -> present_at d' k)
    /\ (forall k, mapped columns_map col_type d <> Some k ->
          Df.getitem d' (Some k) = Df.getitem d (Some k)).
Proof.
  unfold clean_text.
  destruct (mapped columns_map col_type d) as [k|] eqn:Hm.
  2: { exists d, []. rewrite app_nil_r. repeat split; done. }
  pose proof Hm as Hm'. apply mapped_inv in Hm' as [Hkey Hc].
  destruct (contains_getitem _ _ Hc) as [raw Hraw].
  rewrite Hraw. cbn [mbind result_bind]. cbn zeta.
  set (ss := List.map Str.strip (astype_str raw)).
  set (mask := List.map _ ss).
  assert (exists ss' entries,
            (if existsb id mask
             then Ok (Df.setitem (Df.setitem d k (Df.of_str ss)) k
                        (Df.of_str
                           match placeholder col_type with
                           | Some p => zip_with (fun (m : bool) s => if m then p else s) mask ss
                           | None => ss
                           end),
                      log ++ [LogText (count_if id mask) k])
             else Ok (Df.setitem d k (Df.of_str ss), log))
            = Ok (Df.setitem d k (Df.of_str ss'), log ++ entries)
            /\ Forall not_removal entries) as (ss' & entries & -> & Hent).
  { destruct (existsb id mask).
    - rewrite setitem_twice. eexists _, _. split; [reflexivity|]. repeat constructor.
    - eexists _, []. rewrite app_nil_r. split; [reflexivity|]. constructor. }
  assert (Hnew : present_at (Df.setitem d k (Df.of_str ss')) k).
  { exists (Df.of_str ss'). split; [apply getitem_setitem_eq|].
    unfold Df.of_str. apply Forall_fmap, Forall_forall. done. }
  exists (Df.setitem d k (Df.of_str ss')), entries.
  split; [done|]. split; [done|]. split; [done|].
  split; [by apply names_setitem|].
  split; [|split].
  - intros k' (c & Hc' & Hp). destruct (decide (k = k')) as [->|Hne]; [done|].
    exists c. by rewrite getitem_setitem_ne.
  - by intros k' [= <-].
  - intros k' Hne. apply getitem_setitem_ne. congruence.
Qed.

(** The eight rounds of [clean_data], before rows are pruned. *)
Definition rounds (table : DataFrame) : result (DataFrame * list log_entry) :=
  st ← foldl (fun acc col_type => acc ≫= clean_numeric columns_map col_type)
         (Ok (table, [])) ["stock"; "sales"; "reorder"; "price"; "turnover"];
  foldl (fun acc col_type => acc ≫= clean_text columns_map col_type)
    (Ok st) ["name"; "category"; "supplier"].

Lemma mapped_iff col_type d k :
  mapped columns_map col_type d = Some k
  <-> columns_map !! col_type = Some (Some k) /\ Df.contains (Some k) d = true.
Proof.
  split; [apply mapped_inv|]. intros [? ?]. by apply mapped_Some.
Qed.

Lemma rounds_spec table :
  exists d8 log8,
    rounds table = Ok (d8, log8)
    /\ Forall not_removal log8
    /\ index d8 = index table /\ Df.names d8 = Df.names table
    /\ (forall f k, f ∈ ["name"; "stock"; "sales"] ->
          columns_map !! f = Some (Some k) -> Df.contains (Some k) table = true ->
          present_at d8 k)
    /\ (forall f k, f ∈ ["stock"; "sales"] ->
          columns_map !! f = Some (Some k) -> Df.contains (Some k) table = true ->
          (forall t, t ∈ ["name"; "category"; "supplier"] ->
                     columns_map !! t <> Some (Some k)) ->
          nonneg_at d8 k).
Proof.
  destruct (clean_numeric_round "stock" table []) as
    (d1 & e1 & R1 & L1 & I1 & N1 & F1 & P1 & M1); [discriminate|].
  destruct (clean_numeric_round "sales" d1 ([] ++ e1)) as
    (d2 & e2 & R2 & L2 & I2 & N2 & F2 & P2 & M2); [discriminate|].
  assert (C1 : forall key, Df.contains key d1 = Df.contains key table)
    by (intros; by apply contains_names).
  assert (C2 : forall key, Df.contains key d2 = Df.contains key table)
    by (intros; rewrite <- C1; by apply contains_names).
  destruct (clean_numeric_round "reorder" d2 (([] ++ e1) ++ e2)) as
    (d3 & e3 & R3 & L3 & I3 & N3 & F3 & P3 & M3).
  { intros _ s Hs Hc. apply F2.
    apply (M1 s). apply mapped_iff. rewrite <- C2. split; [|done].
    unfold Py.get in Hs. destruct (columns_map !! "stock") as [[s'|]|]; simpl in Hs; congruence. }
  assert (C3 : forall key, Df.contains key d3 = Df.contains key table)
    by (intros; rewrite <- C2; by apply contains_names).
  destruct (clean_numeric_round "price" d3 ((([] ++ e1) ++ e2) ++ e3)) as
    (d4 & e4 & R4 & L4 & I4 & N4 & F4 & P4 & M4); [discriminate|].
  assert (C4 : forall key, Df.contains key d4 = Df.contains key table)
    by (intros; rewrite <- C3; by apply contains_names).
  destruct (clean_numeric_round "turnover" d4 (((([] ++ e1) ++ e2) ++ e3) ++ e4)) as
    (d5 & e5 & R5 & L5 & I5 & N5 & F5 & P5 & M5); [discriminate|].
  assert (C5 : forall key, Df.contains key d5 = Df.contains key table)
    by (intros; rewrite <- C4; by apply contains_names).
  set (log5 := ((((([] ++ e1) ++ e2) ++ e3) ++ e4) ++ e5)) in *.
  destruct (clean_text_round "name" d5 log5) as
    (d6 & e6 & R6 & L6 & I6 & N6 & T6 & M6 & U6).
  assert (C6 : forall key, Df.contains key d6 = Df.contains key table)
    by (intros; rewrite <- C5; by apply contains_names).
  destruct (clean_text_round "category" d6 (log5 ++ e6)) as
    (d7 & e7 & R7 & L7 & I7 & N7 & T7 & M7 & U7).
  assert (C7 : forall key, Df.contains key d7 = Df.contains key table)
    by (intros; rewrite <- C6; by apply contains_names).
  destruct (clean_text_round "supplier" d7 ((log5 ++ e6) ++ e7)) as
    (d8 & e8 & R8 & L8 & I8 & N8 & T8 & M8 & U8).
  exists d8, (((log5 ++ e6) ++ e7) ++ e8).
  split.
  { unfold rounds. cbn [foldl]. cbn [mbind result_bind].
    rewrite R1. cbn [mbind result_bind]. rewrite R2. cbn [mbind result_bind].
    rewrite R3. cbn [mbind result_bind]. rewrite R4. cbn [mbind result_bind].
    rewrite R5. cbn [mbind result_bind]. fold log5.
    rewrite R6. cbn [mbind result_bind]. rewrite R7. cbn [mbind result_bind].
    by rewrite R8. }
  split. { unfold log5. repeat (apply Forall_app; split); done. }
  split. { congruence. }
  split. { congruence. }
  assert (Hnum : forall f k, f ∈ ["stock"; "sales"] ->
            columns_map !! f = Some (Some k) -> Df.contains (Some k) table = true ->
            nonneg_at d5 k).
  { intros f k Hf Hk Hc. apply P5, P4, P3.
    apply elem_of_cons in Hf as [->|Hf].
    - apply P2. apply (M1 k); [|by left]. by apply mapped_iff.
    - apply list_elem_of_singleton in Hf as ->.
      apply (M2 k); [|by right]. apply mapped_iff. by rewrite C1. }
  split.
  - intros f k Hf Hk Hc. apply T8, T7.
    apply elem_of_cons in Hf as [->|Hf].
    + apply M6. apply mapped_iff. by rewrite C5.
    + apply T6, nonneg_present. by apply (Hnum f).
  - intros f k Hf Hk Hc Htext.
    destruct (Hnum f k Hf Hk Hc) as (xs & Hxs & Hnn). exists xs. split; [|done].
    rewrite U8, U7, U6; [done| | |].
    + intros [Hm _]%mapped_iff. apply (Htext "name"); [repeat constructor|done].
    + intros [Hm _]%mapped_iff. apply (Htext "category"); [repeat constructor|done].
    + intros [Hm _]%mapped_iff. apply (Htext "supplier"); [repeat constructor|done].
Qed.


Lemma names_take pos d : Df.names (Df.take pos d) = Df.names d.
Proof.
  unfold Df.names, Df.take. simpl. rewrite <- list_fmap_compose.
  apply list_fmap_ext. by intros i [k c] _.
Qed.

Lemma mask_positions_all n k :
  List.map fst (List.filter snd (imap (fun i b => (k + i, b)) (replicate n true)))
  = seq k n.
Proof.
  revert k. induction n as [|n IH]; intros k; [done|].
  simpl. rewrite Nat.add_0_r. f_equal.
  rewrite <- (IH (S k)). do 2 f_equal. apply imap_ext. intros i b _. simpl. f_equal. lia.
Qed.

Lemma index_take_all d : index (Df.take (seq 0 (Df.len d)) d) = index d.
Proof. unfold Df.take, Df.len. simpl. apply pick_seq. Qed.

(** Pruning removes nothing when one of the columns it looks at has no
    missing cell. *)
Lemma dropna_all_keeps k subset d :
  present_at d k -> Forall (fun k' => Df.contains (Some k') d = true) subset ->
  dropna_all (k :: subset) d = Ok (Df.take (seq 0 (Df.len d)) d).
Proof.
  intros (c & Hc & Hp) Hsub. unfold dropna_all. cbn [traverse].
  rewrite Hc. cbn [mbind result_bind].
  assert (exists cs, traverse (fun k => Df.getitem d (Some k)) subset = Ok cs) as [cs ->].
  { induction Hsub as [|k' subset [c' Hc']%contains_getitem _ [cs IH]]; [by eexists|].
    cbn [traverse]. rewrite Hc'. cbn [mbind result_bind]. rewrite IH. by eexists. }
  cbn [mbind result_bind]. f_equal. unfold Df.where_. f_equal.
  assert (Hkeep : List.map
            (fun i => negb (forallb (fun c0 => default false (isna <$> c0 !! i)) (c :: cs)))
            (seq 0 (Df.len d)) = replicate (Df.len d) true).
  { generalize (Df.len d). intros n. generalize 0.
    induction n as [|n IH]; intros j; [done|]. simpl. rewrite IH. f_equal.
    destruct (c !! j) as [x|] eqn:Hx; simpl; [|done].
    rewrite (proj1 (Forall_forall _ _) Hp x); [done|]. by eapply list_elem_of_lookup_2. }
  rewrite Hkeep. unfold Df.mask_positions. apply (mask_positions_all _ 0).
Qed.

Lemma clean_data_rounds table :
  clean_data table columns_map
  = st ← rounds table;
    let '(df_clean, cleaning_log) := st in
    let critical_cols :=
      omap (fun c => if Py.truthy (Py.get columns_map c) then Py.get columns_map c else None)
        ["name"; "stock"; "sales"] in
    let critical_cols :=
      List.filter (fun c => Py.truthy (Some c) && Df.contains (Some c) df_clean)
        critical_cols in
    match critical_cols with
    | [] => Ok (df_clean, cleaning_log)
    | _ =>
        let initial_rows := Df.len df_clean in
        df_clean ← dropna_all critical_cols df_clean;
        let removed_rows := initial_rows - Df.len df_clean in
        Ok (df_clean,
            if 0 <? removed_rows then cleaning_log ++ [LogRemoved removed_rows]
            else cleaning_log)
    end.
Proof.
  unfold clean_data, rounds. cbn zeta.
  by destruct (foldl _ (Ok (table, [])) _).
Qed.

(** What [clean_data] returns: the table the eight rounds leave, with its
    rows re-read in place, and the log of the rounds. *)
Lemma clean_data_spec table :
  exists d8 log8 cleaned,
    rounds table = Ok (d8, log8)
    /\ clean_data table columns_map = Ok (cleaned, log8)
    /\ (cleaned = d8 \/ cleaned = Df.take (seq 0 (Df.len d8)) d8).
Proof.
  destruct (rounds_spec table) as (d8 & log8 & Hr & Hlog & Hidx & Hnames & Hcrit & _).
  exists d8, log8. rewrite clean_data_rounds, Hr. cbn [mbind result_bind].
  set (candidates := omap _ _).
  set (critical := List.filter _ candidates).
  assert (Hall : Forall (fun k => present_at d8 k /\ Df.contains (Some k) d8 = true)
                   critical).
  { apply Forall_forall. intros k [Hk Hc]%list_elem_of_In%filter_In.
    apply andb_true_iff in Hc as [_ Hc]. split; [|done].
    apply list_elem_of_In, list_elem_of_omap in Hk as (f & Hf & Hget).
    destruct (Py.truthy (Py.get columns_map f)); [|done].
    apply (Hcrit f k Hf).
    - unfold Py.get in Hget.
      destruct (columns_map !! f) as [[k'|]|]; simpl in Hget; congruence.
    - by rewrite <- (contains_names _ _ _ Hnames). }
  destruct critical as [|k ks]; [by eauto|].
  apply Forall_cons in Hall as [[Hk _] Hks].
  rewrite (dropna_all_keeps k ks d8 Hk).
  2: { eapply Forall_impl; [exact Hks|]. by intros ? [_ ?]. }
  cbn [mbind result_bind].
  assert (Hlen : Df.len (Df.take (seq 0 (Df.len d8)) d8) = Df.len d8).
  { unfold Df.len at 1. by rewrite index_take_all. }
  rewrite Hlen, Nat.sub_diag. cbn [Nat.ltb Nat.leb]. eauto.
Qed.


Lemma present_at_take d k :
  present_at d k -> present_at (Df.take (seq 0 (Df.len d)) d) k.
Proof.
  intros (c & Hc & Hp). exists (Df.pick (seq 0 (Df.len d)) c).
  rewrite getitem_take, Hc. split; [done|].
  apply Forall_forall. intros x Hx%pick_elem. by apply (proj1 (Forall_forall _ _) Hp).
Qed.

Lemma nonneg_at_take d k :
  nonneg_at d k -> nonneg_at (Df.take (seq 0 (Df.len d)) d) k.
Proof.
  intros (xs & Hxs & Hnn). exists (Df.pick (seq 0 (Df.len d)) xs).
  rewrite getitem_take, Hxs. cbn [fmap result_fmap]. unfold Df.of_float.
  rewrite pick_fmap. split; [done|].
  apply Forall_forall. intros x Hx%pick_elem. by apply (proj1 (Forall_forall _ _) Hnn).
Qed.

(** X1: on a table with distinct headers [clean_data] never raises and
    never removes a row, whatever the column map: it returns a table with
    the row labels and the headers of the input, in the same order, and
    the log it stores has no entry for removed rows.  The pruning by
    [dropna] comes after the fills and the text placeholders, when the
    columns it looks at have no missing cell left. *)
Theorem clean_data_keeps_every_row (table : DataFrame) :
  NoDup (Df.names table) ->
  exists cleaned cleaning_log,
    clean_data table columns_map = Ok (cleaned, cleaning_log)
    /\ index cleaned = index table
    /\ Df.names cleaned = Df.names table
    /\ forall removed_rows, LogRemoved removed_rows ∉ cleaning_log.
Proof.
  intros _.
  destruct (rounds_spec table) as (d8 & log8 & Hr & Hlog & Hidx & Hnames & _).
  destruct (clean_data_spec table) as (d8' & log8' & cleaned & Hr' & Hclean & Hcases).
  rewrite Hr in Hr'. injection Hr' as <- <-.
  exists cleaned, log8. split; [done|].
  split; [|split].
  - destruct Hcases as [->| ->]; [done|]. by rewrite index_take_all.
  - destruct Hcases as [->| ->]; [done|]. by rewrite names_take.
  - intros n Hn. by apply (proj1 (Forall_forall _ _) Hlog) in Hn.
Qed.

(** X2: after [clean_data] no cell of a column mapped to the name, the
    stock or the sales field is missing. *)
Theorem clean_data_fills_critical_columns (table : DataFrame) :
  exists cleaned cleaning_log,
    clean_data table columns_map = Ok (cleaned, cleaning_log)
    /\ forall col_type header,
         col_type ∈ ["name"; "stock"; "sales"] ->
         columns_map !! col_type = Some (Some header) ->
         header ∈ Df.names table ->
         exists column,
           Df.getitem cleaned (Some header) = Ok column
           /\ Forall (fun x => isna x = false) column.
Proof.
  destruct (rounds_spec table) as (d8 & log8 & Hr & _ & _ & _ & Hcrit & _).
  destruct (clean_data_spec table) as (d8' & log8' & cleaned & Hr' & Hclean & Hcases).
  rewrite Hr in Hr'. injection Hr' as <- <-.
  exists cleaned, log8. split; [done|].
  intros f k Hf Hk Hin.
  assert (Hp : present_at d8 k).
  { apply (Hcrit f k Hf Hk). unfold Df.contains. by apply bool_decide_eq_true. }
  destruct Hcases as [->| ->]; [done|]. by apply present_at_take.
Qed.

(** X3: on a table with distinct headers, after [clean_data] a column
    mapped to the stock or the sales field holds numbers that are not
    negative, provided no text field (name, category, supplier) is mapped
    to the same header (the text rounds come last and would turn the
    column into strings) and no cell of the column reads as the least
    int64, whose absolute value numpy leaves negative. *)
Theorem clean_data_stock_and_sales_not_negative (table : DataFrame)
    (col_type header : string) (column : list cell) :
  NoDup (Df.names table) ->
  col_type ∈ ["stock"; "sales"] ->
  columns_map !! col_type = Some (Some header) ->
  header ∈ Df.names table ->
  (forall text_field, text_field ∈ ["name"; "category"; "supplier"] ->
     columns_map !! text_field <> Some (Some header)) ->
  Df.getitem table (Some header) = Ok column ->
  Forall (fun x => Num.eqb x Num.int64_min = false) (to_numeric column) ->
  exists cleaned cleaning_log values,
    clean_data table columns_map = Ok (cleaned, cleaning_log)
    /\ Df.getitem cleaned (Some header) = Ok (Df.of_float values)
    /\ Forall (fun x => nonneg x = true) values.
Proof.
  intros _ Hf Hk Hin Htext _ _.
  destruct (rounds_spec table) as (d8 & log8 & Hr & _ & _ & _ & _ & Hnum).
  destruct (clean_data_spec table) as (d8' & log8' & cleaned & Hr' & Hclean & Hcases).
  rewrite Hr in Hr'. injection Hr' as <- <-.
  assert (Hp : nonneg_at d8 header).
  { apply (Hnum col_type header Hf Hk); [|done].
    unfold Df.contains. by apply bool_decide_eq_true. }
  assert (Hp' : nonneg_at cleaned header).
  { destruct Hcases as [->| ->]; [done|]. by apply nonneg_at_take. }
  destruct Hp' as (xs & Hxs & Hnn). by exists cleaned, log8, xs.
Qed.

End CleanerFacts.

Section CleanerExample.
#[local] Existing Instance Reference.library.

Lemma clean_data_keeps_every_row_witness :
  exists cleaned cleaning_log,
    clean_data Examples.restock Examples.full_map = Ok (cleaned, cleaning_log)
    /\ index cleaned = index Examples.restock
    /\ Df.names cleaned = Df.names Examples.restock
    /\ forall removed_rows, LogRemoved removed_rows ∉ cleaning_log.
Proof.
  assert (Hnames : NoDup (Df.names Examples.restock)).
  { apply (bool_decide_unpack _). vm_compute. exact I. }
  exact (clean_data_keeps_every_row Examples.full_map Examples.restock Hnames).
Defined.

Lemma clean_data_stock_and_sales_not_negative_witness :
  exists cleaned cleaning_log values,
    clean_data Examples.restock Examples.full_map = Ok (cleaned, cleaning_log)
    /\ Df.getitem cleaned (Some "Stock") = Ok (Df.of_float values)
    /\ Forall (fun x => nonneg x = true) values.
Proof.
  assert (Hnames : NoDup (Df.names Examples.restock)).
  { apply (bool_decide_unpack _). vm_compute. exact I. }
  assert (Hfield : "stock" ∈ ["stock"; "sales"]).
  { repeat constructor. }
  assert (Hkey : Examples.full_map !! "stock" = Some (Some "Stock")).
  { vm_compute. reflexivity. }
  assert (Hheader : "Stock" ∈ Df.names Examples.restock).
  { vm_compute. repeat constructor. }
  assert (Htext : forall text_field, text_field ∈ ["name"; "category"; "supplier"] ->
                    Examples.full_map !! text_field <> Some (Some "Stock")).
  { intros t Ht. repeat (apply elem_of_cons in Ht as [->|Ht]);
      [vm_compute; discriminate..|by apply elem_of_nil in Ht]. }
  destruct (Df.getitem Examples.restock (Some "Stock")) as [column|] eqn:Hcolumn;
    [|vm_compute in Hcolumn; discriminate].
  assert (Hmin : Forall (fun x => Num.eqb x Num.int64_min = false) (to_numeric column)).
  { vm_compute in Hcolumn. injection Hcolumn as <-. cbv [to_numeric List.map].
    repeat (apply Forall_cons; split; [vm_compute; reflexivity|]). apply Forall_nil. done. }
  exact (clean_data_stock_and_sales_not_negative Examples.full_map Examples.restock
           "stock" "Stock" column Hnames Hfield Hkey Hheader Htext Hcolumn Hmin).
Defined.

(** The stock column of [Examples.restock] after cleaning: the negative
    entry made positive, the gap filled with the median of 10 and 20. *)
Example restock_cleaned_stock :
  (fun st => Df.getitem st.1 (Some "Stock"))
    <$> clean_data Examples.restock Examples.full_map
  = Ok (Ok (Df.of_float [lit 10; lit 20; lit 15])).
Proof. vm_compute. reflexivity. Qed.

End CleanerExample.

(** ** Validation of the column map *)

Section EngineValidation.
Context `{Library}.

Lemma item_of_get (m : gmap string (option string)) k s :
  Py.get m k = Some s -> Py.item m k = Ok (Some s).
Proof.
  unfold Py.get, Py.item. destruct (m !! k) as [[s'|]|]; simpl; congruence.
Qed.

Lemma coerce_numeric_ok self c :
  exists d, coerce_numeric self c = Ok (mkCalc d (cols self)).
Proof.
  unfold coerce_numeric, resolved.
  destruct (Py.get (cols self) c) as [s|] eqn:Hget; cbn [Py.truthy].
  2: { destruct self. by eexists. }
  destruct (String.eqb s ""); cbn [negb].
  { destruct self. by eexists. }
  rewrite (item_of_get _ _ _ Hget). cbn [mbind result_bind].
  destruct (Df.contains (Some s) (df self)) eqn:Hc.
  - destruct (contains_getitem _ _ Hc) as [raw ->]. cbn [mbind result_bind]. by eexists.
  - destruct self. by eexists.
Qed.

(** X6: the check of [_validate_data] and [validate_required_columns]
    agree: on a column map the processor's validation accepts, the
    engine's [_validate_data] returns, and on every other map it raises
    its ValueError.  Nothing else in [_validate_data] can fail. *)
Theorem validate_data_agrees_with_validation (self : InventoryCalculations) :
  if (DataProcessor.validate_required_columns (cols self)).1
  then is_ok (_validate_data self) = true
  else _validate_data self = Err (ValueError "Missing required columns").
Proof.
  unfold DataProcessor.validate_required_columns, _validate_data.
  cbn [List.filter fst].
  destruct (Py.truthy (Py.get (cols self) "name"));
    destruct (Py.truthy (Py.get (cols self) "category"));
    destruct (Py.truthy (Py.get (cols self) "stock"));
    destruct (Py.truthy (Py.get (cols self) "sales")); cbn; try reflexivity.
  destruct (coerce_numeric_ok self "stock") as [d1 ->]. cbn [mbind result_bind].
  destruct (coerce_numeric_ok (mkCalc d1 (cols self)) "sales") as [d2 ->].
  cbn [mbind result_bind cols].
  destruct (coerce_numeric_ok (mkCalc d2 (cols self)) "reorder") as [d3 ->].
  reflexivity.
Qed.

(** The exceptions of a failed lookup or of arithmetic on text. *)
Definition lookup_error (e : exn) : Prop :=
  e = TypeError \/ exists key, e = KeyError key.

Lemma item_error (m : gmap string (option string)) k e :
  Py.item m k = Err e -> lookup_error e.
Proof. unfold Py.item. destruct (m !! k); [done|]. intros [= <-]. right. eauto. Qed.

Lemma getitem_error d key e : Df.getitem d key = Err e -> lookup_error e.
Proof.
  unfold Df.getitem. destruct key as [k|].
  - destruct (Df.assoc k (columns d)); [done|]. intros [= <-]. right. eauto.
  - intros [= <-]. right. eauto.
Qed.

Lemma as_float_error c e : Df.as_float c = Err e -> lookup_error e.
Proof.
  unfold Df.as_float. induction c as [|x c IH]; [done|]. cbn [traverse].
  destruct x as [v|s]; cbn [mbind result_bind].
  - destruct (traverse _ c); [done|]. intros [= <-]. by apply IH.
  - intros [= <-]. by left.
Qed.

Lemma floats_error d key e : Df.floats d key = Err e -> lookup_error e.
Proof.
  unfold Df.floats. destruct (Df.getitem d key) as [c|e'] eqn:Hc; cbn [mbind result_bind].
  - destruct (Df.as_float c) as [xs|e''] eqn:Hxs; cbn [mbind result_bind]; [done|].
    intros [= <-]. by eapply as_float_error.
  - intros [= <-]. by eapply getitem_error.
Qed.

Lemma col_error self k e : col self k = Err e -> lookup_error e.
Proof.
  unfold col. destruct (Py.item (cols self) k) as [key|e'] eqn:Hk; cbn [mbind result_bind].
  - apply floats_error.
  - intros [= <-]. by eapply item_error.
Qed.

Lemma col_unresolved self k :
  Py.get (cols self) k = None -> exists e, col self k = Err e /\ lookup_error e.
Proof.
  intros Hget. unfold col.
  destruct (Py.item (cols self) k) as [key|e] eqn:Hk; cbn [mbind result_bind].
  - rewrite (item_unresolved _ _ _ Hget Hk). eexists. split; [done|]. right. eauto.
  - eexists. split; [done|]. by eapply item_error.
Qed.

Lemma resolved_error self k e : resolved self k = Err e -> lookup_error e.
Proof.
  unfold resolved. destruct (Py.truthy _); [|done].
  destruct (Py.item (cols self) k) as [key|e'] eqn:Hk; cbn [mbind result_bind]; [done|].
  intros [= <-]. by eapply item_error.
Qed.

Lemma prepare_data_unresolved self required :
  required ∈ ["sales"; "stock"] ->
  Py.get (cols self) required = None ->
  exists e, _prepare_data self = Err e /\ lookup_error e.
Proof.
  intros Hf Hget. unfold _prepare_data.
  destruct (col self "sales") as [sales|e] eqn:Hsales; cbn [mbind result_bind].
  2: { eexists. split; [done|]. by eapply col_error. }
  apply elem_of_cons in Hf as [->|Hf].
  { destruct (col_unresolved self "sales" Hget) as (e & He & _). congruence. }
  apply list_elem_of_singleton in Hf as ->.
  set (self1 := assign self "Annual_Sales" _).
  destruct (resolved self1 "price") as [has_price|e] eqn:Hprice; cbn [mbind result_bind].
  2: { eexists. split; [done|]. by eapply resolved_error. }
  assert (Hstock : forall self2 {A} (k : ndarray -> result A),
            cols self2 = cols self ->
            exists e, (stock ← col self2 "stock"; k stock) = Err e /\ lookup_error e).
  { intros self2 A k Hcols.
    destruct (col_unresolved self2 "stock") as (e & -> & He); [by rewrite Hcols|].
    by exists e. }
  destruct has_price.
  - destruct (Py.item (cols self1) "price") as [key|e] eqn:Hkey; cbn [mbind result_bind].
    2: { eexists. split; [done|]. by eapply item_error. }
    destruct (Df.getitem (df self1) key) as [raw|e] eqn:Hraw; cbn [mbind result_bind].
    2: { eexists. split; [done|]. by eapply getitem_error. }
    set (self2 := mkCalc _ (cols self1)).
    destruct (field self2 "Annual_Sales") as [annual|e] eqn:Hannual; cbn [mbind result_bind].
    2: { eexists. split; [done|]. by eapply floats_error. }
    destruct (col self2 "price") as [price|e] eqn:Hp; cbn [mbind result_bind].
    2: { eexists. split; [done|]. by eapply col_error. }
    by apply Hstock.
  - destruct (field self1 "Annual_Sales") as [annual|e] eqn:Hannual;
      cbn [mbind result_bind].
    2: { eexists. split; [done|]. by eapply floats_error. }
    by apply Hstock.
Qed.

(** X7: when the column map resolves no sales or no stock column (the
    entry is absent or None), constructing the engine fails in
    [_prepare_data] with a KeyError (or a TypeError from a text column met
    on the way): [_validate_data] runs after [_prepare_data], so its
    ValueError "Missing required columns" is never reached for these two
    fields. *)
Theorem init_unresolved_stock_or_sales (table : DataFrame)
    (columns_map : gmap string (option string)) (required : string) :
  required ∈ ["sales"; "stock"] ->
  Py.get columns_map required = None ->
  exists e,
    __init__ table columns_map = Err e
    /\ (e = TypeError \/ exists key, e = KeyError key).
Proof.
  intros Hf Hget. unfold __init__.
  destruct (prepare_data_unresolved (mkCalc table columns_map) required Hf Hget)
    as (e & -> & He).
  by exists e.
Qed.

End EngineValidation.

Section EngineValidationExample.
#[local] Existing Instance Reference.library.

Lemma init_unresolved_stock_or_sales_witness :
  exists e,
    __init__ Examples.inventory (<["stock" := None]> Examples.full_map) = Err e
    /\ (e = TypeError \/ exists key, e = KeyError key).
Proof.
  apply (init_unresolved_stock_or_sales _ _ "stock").
  - repeat constructor.
  - reflexivity.
Defined.

Example init_unresolved_stock :
  __init__ Examples.inventory (<["stock" := None]> Examples.full_map)
  = Err (KeyError None)
  /\ (DataProcessor.validate_required_columns (<["stock" := None]> Examples.full_map)).2
     = ["stock"].
Proof. vm_compute. done. Qed.

End EngineValidationExample.

(** ** The KPI report *)

Lemma pick_nil {A} pos : Df.pick pos ([] : list A) = [].
Proof. induction pos as [|i pos IH]; [done|]. by rewrite pick_cons. Qed.

Lemma len_where_empty mask d : Df.len d = 0 -> Df.len (Df.where_ mask d) = 0.
Proof.
  unfold Df.len, Df.where_, Df.take. simpl. intros Hn.
  apply nil_length_inv in Hn. rewrite Hn. by rewrite pick_nil.
Qed.

Lemma getitem_empty d k c :
  well_formed d -> Df.len d = 0 -> Df.getitem d (Some k) = Ok c -> c = [].
Proof.
  intros Hwf Hn Hc. unfold Df.getitem in Hc.
  destruct (Df.assoc k (columns d)) as [c'|] eqn:Hk; [|done]. injection Hc as ->.
  apply assoc_elem in Hk.
  pose proof (proj1 (Forall_forall _ _) Hwf _ Hk) as Hlen. simpl in Hlen.
  apply nil_length_inv. by rewrite Hlen.
Qed.

Lemma bind_Returns {A B} (m : outcome A) (f : A -> outcome B) (b : B) :
  m ≫= f = Returns b -> exists a, m = Returns a /\ f a = Returns b.
Proof. destruct m as [a|e]; simpl; [eauto | discriminate]. Qed.

Lemma lift_Returns {A} (r : result A) (a : A) : lift r = Returns a -> r = Ok a.
Proof. destruct r; simpl; congruence. Qed.

(** Splits a chain of binds that returned into its steps. *)
Ltac unbind_outcome H :=
  let a := fresh "v" in
  let Ha := fresh "E" in
  apply bind_Returns in H; destruct H as (a & Ha & H);
  try apply lift_Returns in Ha.

Lemma length_filter_imap (mask : list bool) k :
  length (List.filter snd (imap (fun i b => (k + i, b)) mask))
  = length (List.filter id mask).
Proof.
  revert k. induction mask as [|b mask IH]; intros k; [done|].
  cbn [imap]. rewrite (imap_ext _ (fun i b => (S k + i, b))).
  2: { intros i x _. simpl. f_equal. lia. }
  cbn [List.filter snd id]. destruct b; cbn [length]; by rewrite IH.
Qed.

Lemma length_mask_positions mask :
  length (Df.mask_positions mask) = count_if id mask.
Proof.
  unfold Df.mask_positions, count_if. rewrite length_map.
  apply (length_filter_imap mask 0).
Qed.

Lemma len_where mask d :
  length mask = Df.len d -> Df.len (Df.where_ mask d) = count_if id mask.
Proof.
  intros Hlen. unfold Df.where_, Df.len, Df.take. simpl.
  rewrite pick_length.
  - apply length_mask_positions.
  - fold (Df.len d). rewrite <- Hlen. apply mask_positions_bound.
Qed.

Lemma count_if_map {A B} (f : A -> B) (p : B -> bool) l :
  count_if p (List.map f l) = count_if (fun x => p (f x)) l.
Proof.
  unfold count_if. induction l as [|x l IH]; [done|]. simpl.
  destruct (p (f x)); simpl; by rewrite IH.
Qed.

Lemma getitem_length d k c :
  well_formed d -> Df.getitem d (Some k) = Ok c -> length c = Df.len d.
Proof.
  intros Hwf Hc. unfold Df.getitem in Hc.
  destruct (Df.assoc k (columns d)) as [c'|] eqn:Hk; [|done]. injection Hc as ->.
  apply assoc_elem in Hk. exact (proj1 (Forall_forall _ _) Hwf _ Hk).
Qed.

(** The five labels of the stock status. *)
Definition status_labels : list string :=
  ["CRITICAL"; "LOW"; "NORMAL"; "HEALTHY"; "EXCESS"].

Lemma status_counts status :
  Forall (fun c => exists label, c = CStr label /\ label ∈ status_labels) status ->
  count_if (cell_is "CRITICAL") status + count_if (cell_is "LOW") status
  + count_if (cell_is "HEALTHY") status + count_if (cell_is "EXCESS") status
  + count_if (cell_is "NORMAL") status = length status.
Proof.
  unfold count_if. induction 1 as [|c status (label & -> & Hl) _ IH]; [done|].
  cbn [List.filter cell_is length]. unfold status_labels in Hl.
  repeat (apply elem_of_cons in Hl as [->|Hl]; [simpl; lia|]).
  by apply elem_of_nil in Hl.
Qed.

Section KpiFacts.
Context `{Library}.

Lemma count_where_count self column label c :
  well_formed (df self) -> Df.getitem (df self) (Some column) = Ok c ->
  count_where self column label = Ok (count_if (cell_is label) c).
Proof.
  intros Hwf Hc. unfold count_where. rewrite Hc. cbn [mbind result_bind].
  rewrite len_where by (rewrite length_map; by eapply getitem_length).
  by rewrite count_if_map.
Qed.

Lemma count_where_empty self column label :
  Df.len (df self) = 0 -> Df.contains (Some column) (df self) = true ->
  count_where self column label = Ok 0.
Proof.
  intros Hn [c Hc]%contains_getitem. unfold count_where. rewrite Hc.
  cbn [mbind result_bind]. by rewrite len_where_empty.
Qed.

Lemma floats_empty d column :
  well_formed d -> Df.len d = 0 -> Df.contains (Some column) d = true ->
  Df.getitem d (Some column) ≫= Df.as_float = Ok [].
Proof.
  intros Hwf Hn [c Hc]%contains_getitem. rewrite Hc.
  by rewrite (getitem_empty _ _ _ Hwf Hn Hc).
Qed.

(** X8: on a table with no rows [calculate_kpis] raises
    ZeroDivisionError: the share of healthy rows is divided by the number
    of products without the test for zero that guards the service level
    and the stock-out risk a few lines further. *)
Theorem calculate_kpis_on_empty_table (self : InventoryCalculations) :
  well_formed (df self) ->
  Df.len (df self) = 0 ->
  (forall column,
     column ∈ ["Stock_Status"; "Inventory_Value"; "Annual_Sales"; "Final_Turnover"] ->
     Df.contains (Some column) (df self) = true) ->
  calculate_kpis self = Fails ZeroDivisionError.
Proof.
  intros Hwf Hn Hcols. unfold calculate_kpis. cbn zeta.
  assert (Hstatus : Df.contains (Some "Stock_Status") (df self) = true)
    by (apply Hcols; repeat constructor).
  rewrite !(count_where_empty _ _ _ Hn Hstatus). cbn [lift mbind outcome_bind].
  rewrite (floats_empty _ "Inventory_Value" Hwf Hn) by (apply Hcols; repeat constructor).
  cbn [lift mbind outcome_bind].
  rewrite (floats_empty _ "Annual_Sales" Hwf Hn) by (apply Hcols; repeat constructor).
  cbn [lift mbind outcome_bind].
  rewrite (floats_empty _ "Final_Turnover" Hwf Hn) by (apply Hcols; repeat constructor).
  cbn [lift mbind outcome_bind].
  change (Num.nansum [] >? lit 0)%num with false. cbn [mbind outcome_bind].
  by rewrite Hn.
Qed.

(** X9: when [calculate_kpis] returns, the table has at least one row,
    and the four stock counts of the report leave out the rows with status
    NORMAL: critical, low, healthy and excess add up to the number of
    products only together with the NORMAL rows.  The count reported as
    [emergencyStock] is the count of critical alerts. *)
Theorem calculate_kpis_status_counts (self : InventoryCalculations) (kpis : Kpis.t)
    (status : list cell) :
  calculate_kpis self = Returns kpis ->
  well_formed (df self) ->
  Df.getitem (df self) (Some "Stock_Status") = Ok status ->
  Forall (fun c => exists label, c = CStr label /\ label ∈ status_labels) status ->
  0 < Kpis.totalProducts kpis
  /\ Kpis.totalProducts kpis = Df.len (df self)
  /\ Kpis.emergencyStock kpis = Kpis.criticalAlerts kpis
  /\ Kpis.criticalAlerts kpis + Kpis.lowStock kpis + Kpis.healthyStock kpis
     + Kpis.excessStock kpis + count_if (cell_is "NORMAL") status
     = Kpis.totalProducts kpis.
Proof.
  intros Hrun Hwf Hstatus Hlabels. unfold calculate_kpis in Hrun. cbn zeta in Hrun.
  rewrite !(count_where_count _ _ _ _ Hwf Hstatus) in Hrun.
  cbn [lift mbind outcome_bind] in Hrun.
  do 4 unbind_outcome Hrun.
  unfold PyNum.int_div in Hrun.
  destruct (Z.of_nat (Df.len (df self)) =? 0)%Z eqn:Hzero; [done|].
  cbn [mbind outcome_bind] in Hrun.
  do 7 unbind_outcome Hrun. injection Hrun as <-. cbn.
  apply Z.eqb_neq in Hzero.
  split; [lia|]. split; [done|]. split; [done|].
  rewrite (status_counts _ Hlabels). by eapply getitem_length.
Qed.

End KpiFacts.

Section KpiExample.
#[local] Existing Instance Reference.library.

Lemma calculate_kpis_on_empty_table_witness :
  is_ok (__init__ Samples.no_rows Examples.full_map) = true
  /\ calculate_kpis (Examples.run Samples.no_rows Examples.full_map)
     = Fails ZeroDivisionError.
Proof.
  split; [vm_compute; reflexivity|].
  apply calculate_kpis_on_empty_table.
  - vm_compute. repeat constructor.
  - vm_compute. reflexivity.
  - intros column Hc.
    repeat (apply elem_of_cons in Hc as [->|Hc]; [vm_compute; reflexivity|]).
    by apply elem_of_nil in Hc.
Defined.

Lemma calculate_kpis_status_counts_witness :
  exists kpis,
    calculate_kpis Examples.augmented = Returns kpis
    /\ Kpis.totalProducts kpis = 3
    /\ Kpis.criticalAlerts kpis + Kpis.lowStock kpis + Kpis.healthyStock kpis
       + Kpis.excessStock kpis + 0
       = Kpis.totalProducts kpis.
Proof.
  destruct (calculate_kpis Examples.augmented) as [kpis|] eqn:Hrun;
    [|vm_compute in Hrun; discriminate].
  exists kpis. split; [done|].
  destruct (calculate_kpis_status_counts Examples.augmented kpis
              [CStr "CRITICAL"; CStr "EXCESS"; CStr "CRITICAL"] Hrun)
    as (_ & Htotal & _ & Hsum).
  - vm_compute. repeat constructor.
  - vm_compute. reflexivity.
  - repeat constructor; eexists; (split; [reflexivity|]); unfold status_labels;
      repeat constructor.
  - split; [exact Htotal|exact Hsum].
Defined.

End KpiExample.

(** ** The reorder recommendations *)

Lemma traverse_outcome_Forall2 {A B} (f : A -> outcome B) l rs :
  traverse_outcome f l = Returns rs -> Forall2 (fun a r => f a = Returns r) l rs.
Proof.
  revert rs. induction l as [|a l IH]; intros rs; cbn [traverse_outcome].
  - intros [= <-]. constructor.
  - intros Hrun. unbind_outcome Hrun. unbind_outcome Hrun. injection Hrun as <-.
    constructor; [done|by apply IH].
Qed.

Lemma length_pick_le {A} pos (l : list A) : length (Df.pick pos l) <= length pos.
Proof.
  induction pos as [|i pos IH]; [done|]. rewrite pick_cons.
  destruct (l !! i); simpl; lia.
Qed.

(** The cell of a row of a well-formed frame. *)
Lemma at_assoc d i k c x :
  well_formed d -> i < Df.len d ->
  Df.getitem d (Some k) = Ok c -> c !! i = Some x ->
  Df.assoc k (RowOps.at_ d i) = Some x.
Proof.
  intros Hwf Hi Hc Hx. unfold Df.getitem in Hc.
  destruct (Df.assoc k (columns d)) as [c'|] eqn:Hk; [|done]. injection Hc as ->.
  unfold RowOps.at_. unfold well_formed in Hwf.
  induction Hwf as [|[k' c'] cols Hlen _ IH]; [done|].
  simpl in Hlen. simpl in Hk.
  destruct (lookup_lt_is_Some_2 c' i) as [y Hy]; [lia|].
  change (omap ?f (?a :: ?l)) with (match f a with Some b => b :: omap f l | None => omap f l end).
  cbn [fst snd]. rewrite Hy. cbn [fmap option_fmap option_map Df.assoc].
  destruct (String.eqb k k'); [congruence|by apply IH].
Qed.

Section ReorderFacts.
Context `{Library}.

(** A row gets a recommendation only when its annual sales are a number
    other than zero: the estimated cost divides by them. *)
Lemma reorder_of_row_annual_sales self product r :
  reorder_of_row self product = Returns r ->
  exists x,
    RowOps.get product "Annual_Sales" (CNum (lit 1)) = CNum x
    /\ PyNum.is_zero x = false.
Proof.
  intros Hrun. unfold reorder_of_row in Hrun.
  do 7 unbind_outcome Hrun. unbind_outcome Hrun.
  unfold PyNum.quotient, PyNum.div in E6.
  destruct (PyNum.times (RowOps.get product "COGS" _) _); [|discriminate E6].
  destruct (RowOps.get product "Annual_Sales" (CNum (lit 1))) as [sales|];
    [|discriminate E6].
  exists sales. split; [done|]. destruct (PyNum.is_zero sales); [discriminate E6|done].
Qed.

Lemma priority_reorders_rows self limit reorders :
  get_priority_reorders self limit = Returns reorders ->
  exists candidates rows,
    reorder_candidates self = Ok candidates
    /\ Forall2 (fun product r => reorder_of_row self product = Returns r) rows reorders
    /\ (Df.len candidates = 0 /\ rows = []
        \/ exists selected,
             nlargest limit "Priority_Score" candidates = Ok selected
             /\ rows = RowOps.iterrows selected).
Proof.
  intros Hrun. unfold get_priority_reorders in Hrun. unbind_outcome Hrun.
  exists v. destruct (Nat.eqb_spec (Df.len v) 0) as [Hempty|Hsome].
  - injection Hrun as <-. exists []. split; [done|]. split; [constructor|]. by left.
  - unbind_outcome Hrun. exists (RowOps.iterrows v0). split; [done|].
    split; [by apply traverse_outcome_Forall2|]. right. by exists v0.
Qed.

(** X10: [get_priority_reorders] returns at most [limit] recommendations,
    and only for rows whose annual sales are not zero: the estimated cost
    of a row is a quotient of Python floats with the row's annual sales as
    divisor. *)
Theorem priority_reorders_need_annual_sales (self : InventoryCalculations)
    (limit : nat) (reorders : list Reorder.t) :
  get_priority_reorders self limit = Returns reorders ->
  length reorders <= limit
  /\ exists rows,
       Forall2 (fun product r => reorder_of_row self product = Returns r) rows reorders
       /\ Forall (fun product =>
                    exists x,
                      RowOps.get product "Annual_Sales" (CNum (lit 1)) = CNum x
                      /\ PyNum.is_zero x = false) rows.
Proof.
  intros (candidates & rows & Hc & Hrows & Hsel)%priority_reorders_rows.
  split.
  - rewrite <- (Forall2_length _ _ _ Hrows).
    destruct Hsel as [[_ ->]|(selected & Hsel & ->)]; [simpl; lia|].
    unfold nlargest, nselect in Hsel. unbind Hsel. injection Hsel as <-.
    unfold RowOps.iterrows. rewrite length_map, length_seq.
    unfold Df.len, Df.take. simpl.
    etrans; [apply length_pick_le|]. rewrite length_take. lia.
  - exists rows. split; [done|].
    clear Hsel. induction Hrows as [|product r rows reorders Hr _ IH]; constructor; [|done].
    by eapply reorder_of_row_annual_sales.
Qed.

(** X11: a row with status CRITICAL or LOW whose annual sales are zero (a
    product that is out of stock and does not sell) makes
    [get_priority_reorders] raise instead of returning, as soon as [limit]
    is large enough for every row to be selected. *)
Theorem priority_reorders_fail_on_dormant_product (self : InventoryCalculations)
    (limit row : nat) (status : list cell) (annual priority : list num)
    (label : string) (sales : num) :
  well_formed (df self) ->
  Df.getitem (df self) (Some "Stock_Status") = Ok status ->
  field self "Annual_Sales" = Ok (Arr annual) ->
  field self "Priority_Score" = Ok (Arr priority) ->
  status !! row = Some (CStr label) -> label ∈ ["CRITICAL"; "LOW"] ->
  annual !! row = Some sales -> PyNum.is_zero sales = true ->
  Df.len (df self) <= limit ->
  exists e, get_priority_reorders self limit = Fails e.
Proof.
  intros Hwf Hstatus Hannual Hpriority Hrow Hlabel Hsales Hzero Hlimit.
  destruct (get_priority_reorders self limit) as [reorders|e] eqn:Hrun; [|by eexists].
  exfalso.
  apply priority_reorders_rows in Hrun as (candidates & rows & Hc & Hrows & Hsel).
  unfold reorder_candidates in Hc. rewrite Hstatus in Hc.
  cbn [mbind result_bind] in Hc. unbind Hc. injection Hc as <-.
  apply floats_Ok in E as (c & days & Hdays & Hdaysf & ->).
  set (mask := zip_with orb _ _) in *.
  assert (Hstatus_len : length status = Df.len (df self)) by (by eapply getitem_length).
  assert (Hdays_len : length days = Df.len (df self)).
  { apply as_float_inv in Hdaysf as ->. unfold Df.of_float in Hdays.
    apply (getitem_length _ _ _ Hwf) in Hdays. by rewrite length_fmap in Hdays. }
  assert (Hmask_len : length mask = Df.len (df self)).
  { unfold mask, Np.cmp, Np.values. rewrite !length_zip_with, length_map, length_replicate.
    lia. }
  assert (Hrow_lt : row < Df.len (df self)).
  { rewrite <- Hstatus_len. by eapply lookup_lt_Some. }
  assert (Hmask : mask !! row = Some true).
  { destruct (lookup_lt_is_Some_2 days row) as [d Hd]; [lia|].
    unfold mask, Np.cmp, Np.values. rewrite !lookup_zip_with.
    change (List.map ?f ?l) with (f <$> l). rewrite list_lookup_fmap, Hrow, Hd.
    rewrite lookup_replicate_2 by lia. cbn.
    repeat (apply elem_of_cons in Hlabel as [->|Hlabel]; [done|]).
    by apply elem_of_nil in Hlabel. }
  set (candidates := Df.mask_positions mask) in *.
  assert (Hbound : Forall (fun i => i < Df.len (df self)) candidates).
  { rewrite <- Hmask_len. apply mask_positions_bound. }
  assert (Hin : row ∈ candidates).
  { unfold candidates, Df.mask_positions.
    apply list_elem_of_In, in_map_iff. exists (row, true). split; [done|].
    apply filter_In. split; [|done]. apply list_elem_of_In, list_elem_of_lookup.
    exists row. by rewrite list_lookup_imap, Hmask. }
  assert (Hlen : Df.len (Df.where_ mask (df self)) = length candidates).
  { unfold Df.where_, Df.len, Df.take. simpl. by apply pick_length. }
  destruct Hsel as [[Hempty _]|(selected & Hsel & ->)].
  { rewrite Hlen in Hempty. apply nil_length_inv in Hempty.
    rewrite Hempty in Hin. by apply elem_of_nil in Hin. }
  unfold nlargest, Df.where_ in Hsel. fold candidates in Hsel.
  rewrite (nselect_take _ _ _ _ _ priority Hwf Hbound Hpriority) in Hsel.
  injection Hsel as <-.
  rewrite iterrows_take in Hrows by (done || by apply first_by_bound).
  assert (Hchosen : row ∈ first_by Order.desc priority limit candidates).
  { rewrite first_by_all; [done|].
    etrans; [|exact Hlimit]. rewrite <- Hmask_len.
    unfold candidates. rewrite length_mask_positions. unfold count_if.
    apply filter_length_le. }
  apply list_elem_of_lookup in Hchosen as [j Hj].
  apply Forall2_fmap_l in Hrows.
  destruct (Forall2_lookup_l _ _ _ _ _ Hrows Hj) as (r & _ & Hr).
  apply reorder_of_row_annual_sales in Hr as (x & Hget & Hx).
  apply floats_Ok in Hannual as (c' & annual' & Hc' & Hfloat & [= <-]).
  apply as_float_inv in Hfloat as ->.
  assert (Hcell : Df.assoc "Annual_Sales" (RowOps.at_ (df self) row) = Some (CNum sales)).
  { apply (at_assoc _ _ _ _ _ Hwf Hrow_lt Hc').
    unfold Df.of_float. by rewrite list_lookup_fmap, Hsales. }
  unfold RowOps.get in Hget. rewrite Hcell in Hget. injection Hget as <-. congruence.
Qed.

End ReorderFacts.

Section ReorderExample.
#[local] Existing Instance Reference.library.

Lemma priority_reorders_need_annual_sales_witness :
  exists reorders,
    get_priority_reorders Examples.augmented 25 = Returns reorders
    /\ length reorders <= 25
    /\ Reorder.product <$> reorders = ["Gadget"; "Widget A"].
Proof.
  destruct (get_priority_reorders Examples.augmented 25) as [reorders|] eqn:Hrun;
    [|vm_compute in Hrun; discriminate].
  exists reorders. split; [done|].
  destruct (priority_reorders_need_annual_sales _ _ _ Hrun) as [Hlen _].
  split; [exact Hlen|].
  vm_compute in Hrun. injection Hrun as <-. reflexivity.
Defined.

Lemma priority_reorders_fail_on_dormant_product_witness :
  is_ok (__init__ Samples.dormant Examples.full_map) = true
  /\ exists e,
       get_priority_reorders (Examples.run Samples.dormant Examples.full_map) 25
       = Fails e.
Proof.
  split; [vm_compute; reflexivity|].
  apply (priority_reorders_fail_on_dormant_product _ 25 1
           [CStr "EXCESS"; CStr "CRITICAL"] [lit 240; lit 0] [lit 16; lit (-76)]
           "CRITICAL" (lit 0)).
  - vm_compute. repeat constructor.
  - vm_compute. reflexivity.
  - vm_compute. reflexivity.
  - vm_compute. reflexivity.
  - reflexivity.
  - repeat constructor.
  - reflexivity.
  - reflexivity.
  - vm_compute. lia.
Defined.

(** The product that neither is in stock nor sells makes the division
    fail. *)
Example dormant_product_divides_by_zero :
  get_priority_reorders (Examples.run Samples.dormant Examples.full_map) 25
  = Fails ZeroDivisionError.
Proof. vm_compute. reflexivity. Qed.

End ReorderExample.

(** ** The category report *)

Lemma lstrip_no_leading_space s a t :
  Str.lstrip s = String a t -> Str.is_space a = false.
Proof.
  induction s as [|c s IH]; [done|]. cbn [Str.lstrip].
  destruct (Str.is_space c) eqn:Hc; [exact IH|]. by intros [= <- _].
Qed.

Lemma rstrip_head s a t a' t' :
  s = String a t -> Str.rstrip s = String a' t' -> a' = a.
Proof.
  intros ->. cbn [Str.rstrip]. destruct (Str.rstrip t).
  - destruct (Str.is_space a); [done|]. by intros [= <- _].
  - by intros [= <- _].
Qed.

(** A name that went through [strip] does not start with white space. *)
Lemma strip_no_leading_space s a t :
  Str.strip s = String a t -> Str.is_space a = false.
Proof.
  unfold Str.strip. intros Hs.
  destruct (Str.lstrip s) as [|b u] eqn:Hl; [done|].
  rewrite (rstrip_head _ _ _ _ _ eq_refl Hs).
  by eapply lstrip_no_leading_space.
Qed.

Lemma unique_from_nonempty seen c :
  seen <> [] ->
  foldl (fun seen x => if existsb (Group.same x) seen then seen else seen ++ [x]) seen c
  <> [].
Proof.
  revert seen. induction c as [|x c IH]; intros seen Hs; [done|]. simpl.
  apply IH. destruct (existsb _ seen); [done|]. by destruct seen.
Qed.

Lemma unique_nonempty c : c <> [] -> Group.unique c <> [].
Proof.
  destruct c as [|x c]; [done|]. intros _. unfold Group.unique. simpl.
  by apply unique_from_nonempty.
Qed.

Lemma keys_nonempty grouping x :
  x ∈ grouping -> isna x = false -> Group.keys grouping <> [].
Proof.
  intros Hx Hna Hnil. unfold Group.keys in Hnil.
  assert (Hperm := stable_sort_perm Group.key_lt
                     (Group.unique (List.filter (fun x => negb (isna x)) grouping))).
  rewrite Hnil in Hperm. apply Permutation.Permutation_nil in Hperm.
  revert Hperm. apply unique_nonempty.
  assert (In x (List.filter (fun x => negb (isna x)) grouping)).
  { apply filter_In. split; [by apply list_elem_of_In|by rewrite Hna]. }
  by destruct (List.filter _ grouping).
Qed.

Section SortedFacts.
Context {A : Type} (before : A -> A -> bool).
Hypothesis before_asym : forall a b, before a b = true -> before b a = false.

(** With the strict order only known to be asymmetric the sort still
    leaves neighbours in order. *)
Lemma insert_by_Sorted x l :
  Sorted (fun a b => before b a = false) l ->
  Sorted (fun a b => before b a = false) (insert_by before x l).
Proof.
  induction 1 as [|y l Hl IH Hhd]; cbn [insert_by]; [by repeat constructor|].
  destruct (before y x) eqn:Hyx.
  - constructor; [done|]. destruct l as [|z l]; cbn [insert_by].
    + constructor. by apply before_asym.
    + destruct (before z x).
      * constructor. by inversion Hhd.
      * constructor. by apply before_asym.
  - constructor; [by constructor|]. by constructor.
Qed.

Lemma stable_sort_Sorted l :
  Sorted (fun a b => before b a = false) (stable_sort before l).
Proof.
  induction l as [|x l IH]; [constructor|]. simpl. by apply insert_by_Sorted.
Qed.

End SortedFacts.

Lemma same_refl x : Group.same x x = true.
Proof.
  unfold Group.same, Group.cell_eqb, Num.eqb, Num.leb.
  destruct x as [[q| | |]|s]; try done.
  - by rewrite (proj2 (Qle_bool_iff q q) (Qle_refl q)).
  - by rewrite String.eqb_refl.
Qed.

Lemma unique_from_keeps seen c u :
  u ∈ seen ->
  u ∈ foldl (fun seen x => if existsb (Group.same x) seen then seen else seen ++ [x])
        seen c.
Proof.
  revert seen. induction c as [|x c IH]; intros seen Hu; [done|].
  simpl. apply IH. destruct (existsb _ seen); [done|].
  apply elem_of_app. by left.
Qed.

Lemma unique_from_spec seen c :
  let out :=
    foldl (fun seen x => if existsb (Group.same x) seen then seen else seen ++ [x])
      seen c in
  (forall y, y ∈ out -> y ∈ seen \/ y ∈ c)
  /\ (forall x, x ∈ c -> exists y, y ∈ out /\ Group.same x y = true)
  /\ (NoDup seen -> NoDup out).
Proof.
  revert seen. induction c as [|x c IH]; intros seen; cbn zeta; cbn [foldl].
  - split; [by left|]. split; [|done]. by intros y Hy%elem_of_nil.
  - destruct (IH (if existsb (Group.same x) seen then seen else seen ++ [x]))
      as (Hsub & Hcover & Hnodup).
    destruct (existsb (Group.same x) seen) eqn:Hseen.
    + split; [|split; [|done]].
      * intros y [Hy|Hy]%Hsub; [by left|right; by right].
      * intros y [->|Hy]%elem_of_cons; [|by apply Hcover].
        apply existsb_exists in Hseen as (z & Hz%list_elem_of_In & Hsame).
        exists z. split; [by apply unique_from_keeps|done].
    + split; [|split].
      * intros y [[Hy|Hy%list_elem_of_singleton]%elem_of_app|Hy]%Hsub.
        -- by left.
        -- right. subst. by left.
        -- right. by right.
      * intros y [->|Hy]%elem_of_cons; [|by apply Hcover].
        exists x. split; [|apply same_refl].
        apply unique_from_keeps, elem_of_app. right. by apply list_elem_of_singleton.
      * intros Hnd. apply Hnodup. apply NoDup_app. split; [done|].
        split; [|apply NoDup_singleton].
        intros y Hy ->%list_elem_of_singleton.
        assert (existsb (Group.same x) seen = true); [|congruence].
        apply existsb_exists. exists x. split; [by apply list_elem_of_In|apply same_refl].
Qed.

Lemma keys_spec grouping :
  NoDup (Group.keys grouping)
  /\ (forall c, c ∈ Group.keys grouping -> c ∈ grouping /\ isna c = false)
  /\ (forall x, x ∈ grouping -> isna x = false ->
        exists c, c ∈ Group.keys grouping /\ Group.cell_eqb x c = true).
Proof.
  unfold Group.keys.
  set (present := List.filter (fun x => negb (isna x)) grouping).
  pose proof (stable_sort_perm Group.key_lt (Group.unique present)) as Hperm.
  destruct (unique_from_spec [] present) as (Hsub & Hcover & Hnodup).
  fold (Group.unique present) in Hsub, Hcover, Hnodup.
  assert (Hpresent : forall x, x ∈ present <-> x ∈ grouping /\ isna x = false).
  { intros x. unfold present. rewrite list_elem_of_In, filter_In, <- list_elem_of_In.
    by rewrite negb_true_iff. }
  split; [|split].
  - rewrite Hperm. apply Hnodup. constructor.
  - intros c Hc. rewrite Hperm in Hc.
    destruct (Hsub c Hc) as [Hnil%elem_of_nil|Hin]; [done|]. by apply Hpresent.
  - intros x Hx Hna.
    destruct (Hcover x) as (y & Hy & Hsame); [by apply Hpresent|].
    exists y. split; [by rewrite Hperm|].
    unfold Group.same in Hsame. by rewrite Hna, andb_false_l, orb_false_r in Hsame.
Qed.

Lemma traverse_tagged {A B C} (f : A -> result B) (l : list (A * C)) res :
  traverse (fun ac => b ← f ac.1; Ok (ac.2, b)) l = Ok res -> res.*1 = l.*2.
Proof.
  revert res. induction l as [|[a c] l IH]; intros res; cbn [traverse].
  - by intros [= <-].
  - intros Hrun. unbind Hrun. unbind Hrun. injection Hrun as <-.
    cbn [fst snd] in E. unbind E. injection E as <-.
    rewrite !fmap_cons. cbn [fst snd]. f_equal. by apply IH.
Qed.

Section CategoryFacts.
Context `{Library}.

Lemma category_metrics_inv self groups frame :
  category_metrics self = Ok (groups, frame) ->
  exists k_category grouping,
    Py.item (cols self) "category" = Ok (Some k_category)
    /\ Df.getitem (df self) (Some k_category) = Ok grouping
    /\ groups = Group.keys grouping
    /\ Forall (fun kc => exists l, kc.1 = Group.flatten l) frame.
Proof.
  intros Hrun. unfold category_metrics in Hrun. cbn zeta in Hrun.
  unbind Hrun. unbind Hrun. unbind Hrun. unbind Hrun. unbind Hrun.
  destruct v3 as [groups' columns]. injection Hrun as <- <-.
  unfold Group.by_ in E0. destruct v as [k_category|]; [|done].
  unbind E0. injection E0 as <-.
  exists k_category, v. split; [done|]. split; [done|].
  unfold Group.agg_dict in E3. unbind E3. unbind E3. injection E3 as <- <-.
  split; [done|].
  apply Forall_forall. intros kc Hkc%list_elem_of_In%in_map_iff.
  destruct Hkc as (lc & <- & _). by eexists.
Qed.

(** X12: when the header of the sales column starts with white space (as
    every header but the first does in a CSV file written with a blank
    after each comma) and the table has a category, then
    [get_category_performance] raises: the flattened column names are
    stripped, the name it then looks up is not.  Once the aggregation
    itself went through, the exception is the KeyError of that lookup. *)
Theorem category_performance_header_with_leading_space (self : InventoryCalculations)
    (c : ascii) (rest k_category : string) (grouping : list cell) (x : cell) :
  cols self !! "sales" = Some (Some (String c rest)) ->
  Str.is_space c = true ->
  cols self !! "category" = Some (Some k_category) ->
  Df.getitem (df self) (Some k_category) = Ok grouping ->
  x ∈ grouping -> isna x = false ->
  (exists e, get_category_performance self = Err e)
  /\ (is_ok (category_metrics self) = true ->
      get_category_performance self = Err (KeyError (Some (String c rest +:+ "_sum")))).
Proof.
  intros Hsales Hspace Hcategory Hgrouping Hx Hna.
  assert (Hfail : forall groups frame,
            category_metrics self = Ok (groups, frame) ->
            get_category_performance self
            = Err (KeyError (Some (String c rest +:+ "_sum")))).
  { intros groups frame Hframe. unfold get_category_performance. rewrite Hframe.
    cbn [mbind result_bind].
    apply category_metrics_inv in Hframe
      as (k_category' & grouping' & Hitem & Hgrouping' & -> & Hnames).
    unfold Py.item in Hitem. rewrite Hcategory in Hitem. injection Hitem as <-.
    rewrite Hgrouping in Hgrouping'. injection Hgrouping' as <-.
    pose proof (keys_nonempty _ _ Hx Hna) as Hkeys.
    destruct (Group.keys grouping) as [|g groups]; [done|].
    cbn [imap traverse fst snd].
    assert (Hentry : category_entry self frame 0
                     = Err (KeyError (Some (String c rest +:+ "_sum")))).
    { unfold category_entry, Py.item. rewrite Hsales. cbn [mbind result_bind].
      unfold Group.entry, metric_name. cbn [default from_option id].
      assert (Hnone : List.filter
                        (fun kc : string * list num =>
                           String.eqb kc.1 (String c rest +:+ "_" +:+ "sum")) frame = []).
      { clear -Hnames Hspace. induction Hnames as [|kc frame (l & Hl) _ IH]; [done|].
        cbn [List.filter]. destruct (String.eqb_spec kc.1 (String c rest +:+ "_" +:+ "sum"))
          as [Heq|_]; [|done].
        exfalso. rewrite Hl in Heq. unfold Group.flatten in Heq.
        apply strip_no_leading_space in Heq. congruence. }
      rewrite Hnone. reflexivity. }
    rewrite Hentry. reflexivity. }
  destruct (category_metrics self) as [[groups frame]|e] eqn:Hframe.
  - split; [eexists; by eapply Hfail|]. intros _. by eapply Hfail.
  - split; [|done]. unfold get_category_performance. rewrite Hframe. by eexists.
Qed.

(** X13: the categories [get_category_performance] reports are the
    distinct categories of the table that are not missing, each once, and
    they come in order of their total sales: no category is followed by one
    with a higher total. *)
Theorem category_performance_by_total_sales (self : InventoryCalculations)
    (result : list (cell * CategoryMetrics.t)) :
  get_category_performance self = Ok result ->
  Sorted (fun a b =>
            (CategoryMetrics.totalSales a.2 <? CategoryMetrics.totalSales b.2)%num = false)
    result
  /\ NoDup result.*1
  /\ exists k_category grouping,
       cols self !! "category" = Some (Some k_category)
       /\ Df.getitem (df self) (Some k_category) = Ok grouping
       /\ (forall c, c ∈ result.*1 -> c ∈ grouping /\ isna c = false)
       /\ (forall x, x ∈ grouping -> isna x = false ->
             exists c, c ∈ result.*1 /\ Group.cell_eqb x c = true).
Proof.
  intros Hrun. unfold get_category_performance in Hrun.
  apply bind_Ok in Hrun as ([groups frame] & Hframe & Hrun).
  apply bind_Ok in Hrun as (entries & Hentries & Hrun). injection Hrun as <-.
  apply category_metrics_inv in Hframe
    as (k_category & grouping & Hitem & Hgrouping & -> & _).
  apply traverse_tagged in Hentries. rewrite imap_pair_snd in Hentries.
  set (before := fun a b : cell * CategoryMetrics.t =>
                   (CategoryMetrics.totalSales b.2 <? CategoryMetrics.totalSales a.2)%num).
  pose proof (stable_sort_perm before entries) as Hperm.
  assert (Hkeys : (stable_sort before entries).*1 ≡ₚ Group.keys grouping).
  { by rewrite Hperm, Hentries. }
  destruct (keys_spec grouping) as (Hnodup & Hsub & Hcover).
  split; [|split].
  - apply (stable_sort_Sorted before). intros a b. apply ltb_asym.
  - by rewrite Hkeys.
  - exists k_category, grouping.
    split. { unfold Py.item in Hitem. by destruct (cols self !! "category") as [[?|]|];
               simplify_eq. }
    split; [done|]. split.
    + intros c Hc. rewrite Hkeys in Hc. by apply Hsub.
    + intros x Hx Hna. destruct (Hcover x Hx Hna) as (c & Hc & Heq).
      exists c. split; [by rewrite Hkeys|done].
Qed.

End CategoryFacts.

Section CategoryExample.
#[local] Existing Instance Reference.library.

Lemma category_performance_header_with_leading_space_witness :
  get_category_performance Samples.spaced_engine
  = Err (KeyError (Some " Sales_sum")).
Proof.
  assert (Hsales : cols Samples.spaced_engine !! "sales" = Some (Some " Sales"))
    by (vm_compute; reflexivity).
  assert (Hcategory : cols Samples.spaced_engine !! "category" = Some (Some " Category"))
    by (vm_compute; reflexivity).
  assert (Hgrouping : Df.getitem (df Samples.spaced_engine) (Some " Category")
                      = Ok [CStr "Tools"; CStr "Toys"])
    by (vm_compute; reflexivity).
  assert (Hx : CStr "Tools" ∈ [CStr "Tools"; CStr "Toys"]) by repeat constructor.
  destruct (category_performance_header_with_leading_space Samples.spaced_engine
              " " "Sales" " Category" [CStr "Tools"; CStr "Toys"] (CStr "Tools")
              Hsales eq_refl Hcategory Hgrouping Hx eq_refl) as [_ Hfail].
  apply Hfail. vm_compute. reflexivity.
Defined.

Lemma category_performance_by_total_sales_witness :
  exists result,
    get_category_performance Examples.augmented = Ok result
    /\ result.*1 = [CStr "Toys"; CStr "Tools"]
    /\ NoDup result.*1.
Proof.
  destruct (get_category_performance Examples.augmented) as [result|] eqn:Hrun;
    [|vm_compute in Hrun; discriminate].
  exists result. split; [done|].
  destruct (category_performance_by_total_sales _ _ Hrun) as (_ & Hnodup & _).
  split; [|exact Hnodup].
  vm_compute in Hrun. injection Hrun as <-. reflexivity.
Defined.

(** The table passes validation, cleaning and the engine; the KPI report
    is computed; the category report fails. *)
Example spaced_upload :
  DataProcessor.validate_required_columns Samples.spaced_map = (true, [])
  /\ Samples.spaced_map !! "sales" = Some (Some " Sales")
  /\ (exists kpis, calculate_kpis Samples.spaced_engine = Returns kpis)
  /\ get_category_performance Samples.spaced_engine
     = Err (KeyError (Some " Sales_sum")).
Proof.
  split; [vm_compute; reflexivity|]. split; [vm_compute; reflexivity|].
  split; [|vm_compute; reflexivity]. eexists. vm_compute. reflexivity.
Qed.

End CategoryExample.

(** ** The filter options *)

Lemma string_ltb_irrefl s : String.ltb s s = false.
Proof.
  unfold String.ltb. destruct (String.compare s s) eqn:Hc; try done.
  pose proof (String.compare_antisym s s) as Ha. rewrite Hc in Ha. done.
Qed.

(** Two strings are equal or one is below the other. *)
Lemma string_ltb_total s t : String.ltb s t = false -> s <> t -> String.ltb t s = true.
Proof.
  unfold String.ltb. intros Hst Hne.
  rewrite String.compare_antisym.
  destruct (String.compare s t) eqn:Hc; try done.
  by apply String.compare_eq_iff in Hc.
Qed.

(** [sorted] on a list of strings. *)
Fixpoint insert_text (x : string) (l : list string) : list string :=
  match l with
  | [] => [x]
  | y :: l' => if String.ltb x y then x :: y :: l' else y :: insert_text x l'
  end.

Definition sort_text (l : list string) : list string :=
  foldl (fun placed x => insert_text x placed) [] l.

Lemma insert_text_perm x l : insert_text x l ≡ₚ x :: l.
Proof.
  induction l as [|y l IH]; [done|]. simpl.
  destruct (String.ltb x y); [done|]. rewrite IH. apply Permutation_swap.
Qed.

Lemma sort_text_from_perm placed l :
  foldl (fun placed x => insert_text x placed) placed l ≡ₚ placed ++ l.
Proof.
  revert placed. induction l as [|x l IH]; intros placed; simpl.
  - by rewrite app_nil_r.
  - rewrite IH, insert_text_perm. simpl. apply Permutation_middle.
Qed.

Lemma sort_text_perm l : sort_text l ≡ₚ l.
Proof. apply (sort_text_from_perm [] l). Qed.

Lemma insert_text_Sorted x l :
  x ∉ l ->
  Sorted (fun a b => String.ltb a b = true) l ->
  Sorted (fun a b => String.ltb a b = true) (insert_text x l).
Proof.
  intros Hx Hl. induction Hl as [|y l Hl IH Hhd]; cbn [insert_text];
    [by repeat constructor|].
  apply not_elem_of_cons in Hx as [Hne Hx].
  destruct (String.ltb x y) eqn:Hxy.
  - constructor; [by constructor|]. by constructor.
  - constructor; [by apply IH|].
    destruct l as [|z l]; cbn [insert_text].
    + constructor. by apply string_ltb_total.
    + destruct (String.ltb x z).
      * constructor. by apply string_ltb_total.
      * constructor. by inversion Hhd.
Qed.

Lemma sort_text_from_Sorted placed l :
  NoDup (placed ++ l) ->
  Sorted (fun a b => String.ltb a b = true) placed ->
  Sorted (fun a b => String.ltb a b = true)
    (foldl (fun placed x => insert_text x placed) placed l).
Proof.
  revert placed. induction l as [|x l IH]; intros placed Hnd Hs; [done|]. simpl.
  apply IH.
  - rewrite insert_text_perm. simpl. by rewrite Permutation_middle.
  - apply insert_text_Sorted; [|done].
    apply NoDup_app in Hnd as (_ & Hdisj & _). intros Hx.
    apply (Hdisj x Hx). by left.
Qed.

Lemma sort_text_Sorted l :
  NoDup l -> Sorted (fun a b => String.ltb a b = true) (sort_text l).
Proof. intros Hnd. apply sort_text_from_Sorted; [done|constructor]. Qed.

Section OptionFacts.
Context `{Library}.

Lemma py_insert_text x l :
  py_insert (CStr x) (CStr <$> l) = Ok (CStr <$> insert_text x l).
Proof.
  induction l as [|y l IH]; [done|]. rewrite fmap_cons. cbn [py_insert py_lt insert_text].
  cbn [mbind result_bind]. destruct (String.ltb x y); [done|].
  rewrite IH. done.
Qed.

Lemma py_sorted_text l : py_sorted (CStr <$> l) = Ok (CStr <$> sort_text l).
Proof.
  unfold py_sorted, sort_text.
  change (Ok []) with (Ok (CStr <$> ([] : list string))) at 1.
  generalize ([] : list string). induction l as [|x l IH]; intros placed; [done|].
  rewrite fmap_cons. cbn [foldl mbind result_bind]. rewrite py_insert_text. apply IH.
Qed.

Lemma text_column c :
  Forall (fun x => exists s, x = CStr s) c -> exists l, c = CStr <$> l.
Proof.
  induction 1 as [|x c (s & ->) _ [l ->]]; [by exists []|]. by exists (s :: l).
Qed.

(** The distinct values of a text column are text. *)
Lemma unique_text l :
  exists names,
    Group.unique (CStr <$> l) = CStr <$> names
    /\ NoDup names /\ (forall s, s ∈ names <-> s ∈ l).
Proof.
  destruct (unique_from_spec [] (CStr <$> l)) as (Hsub & Hcover & Hnodup).
  fold (Group.unique (CStr <$> l)) in Hsub, Hcover, Hnodup.
  assert (Htext : Forall (fun c => exists s, c = CStr s) (Group.unique (CStr <$> l))).
  { apply Forall_forall. intros c [Hc%elem_of_nil|Hc%list_elem_of_fmap]%Hsub; [done|].
    destruct Hc as (s & -> & _). by eexists. }
  destruct (text_column _ Htext) as [names Hnames].
  exists names. split; [done|]. rewrite Hnames in Hsub, Hcover, Hnodup.
  split; [|split].
  - eapply (NoDup_fmap_1 CStr). apply Hnodup. constructor.
  - intros Hs.
    assert (Hin : CStr s ∈ CStr <$> names) by (apply list_elem_of_fmap; by exists s).
    apply Hsub in Hin as [Hnil%elem_of_nil|Hin]; [done|].
    apply list_elem_of_fmap in Hin as (s' & [= ->] & Hs'). done.
  - intros Hs. destruct (Hcover (CStr s)) as (y & Hy & Hsame).
    + apply list_elem_of_fmap. by exists s.
    + apply list_elem_of_fmap in Hy as (s' & -> & Hs').
      unfold Group.same in Hsame. simpl in Hsame. rewrite orb_false_r in Hsame.
      by apply String.eqb_eq in Hsame as ->.
Qed.

Lemma str_text l : List.map str (CStr <$> l) = l.
Proof. induction l as [|s l IH]; [done|]. rewrite fmap_cons. simpl. by rewrite IH. Qed.

(** The options [sorted(column.unique())] gives for a text column. *)
Lemma options_of_text c :
  Forall (fun x => exists s, x = CStr s) c ->
  exists names,
    (List.map str <$> py_sorted (Group.unique c)) = Ok names
    /\ Sorted (fun a b => String.ltb a b = true) names
    /\ (forall s, s ∈ names <-> CStr s ∈ c).
Proof.
  intros [l ->]%text_column.
  destruct (unique_text l) as (names & -> & Hnodup & Hnames).
  exists (sort_text names). rewrite py_sorted_text. cbn [fmap result_fmap].
  rewrite str_text. split; [done|]. split; [by apply sort_text_Sorted|].
  intros s. rewrite sort_text_perm, Hnames. split.
  - intros Hs. apply list_elem_of_fmap. by exists s.
  - intros (s' & [= ->] & Hs')%list_elem_of_fmap. done.
Qed.

Lemma categories_of_options self options k_category category :
  get_filter_options self = Ok options ->
  cols self !! "category" = Some (Some k_category) ->
  Df.getitem (df self) (Some k_category) = Ok category ->
  Forall (fun x => exists s, x = CStr s) category ->
  exists names,
    FilterOptions.categories options = "All Categories" :: names
    /\ Sorted (fun a b => String.ltb a b = true) names
    /\ (forall s, s ∈ names <-> CStr s ∈ category).
Proof.
  intros Hrun Hkey Hcategory Htext. unfold get_filter_options in Hrun.
  unfold Py.item in Hrun. rewrite Hkey in Hrun. cbn [mbind result_bind] in Hrun.
  rewrite Hcategory in Hrun. cbn [mbind result_bind] in Hrun.
  destruct (options_of_text category Htext) as (names & Hnames & Hsorted & Hin).
  apply bind_Ok in Hrun as (categories & Hcategories & Hrun).
  rewrite Hcategories in Hnames. cbn [fmap result_fmap] in Hnames.
  injection Hnames as <-.
  apply bind_Ok in Hrun as (status & _ & Hrun).
  apply bind_Ok in Hrun as (statuses & _ & Hrun).
  apply bind_Ok in Hrun as (abc & _ & Hrun).
  apply bind_Ok in Hrun as (abc_classes & _ & Hrun).
  injection Hrun as <-. cbn. by eexists.
Qed.

(** X14: for a table whose categories are text, the category options of
    [get_filter_options] are the entry "All Categories" followed by the
    categories of the table, each once, in strictly increasing order. *)
Theorem filter_options_list_each_category_once (self : InventoryCalculations)
    (options : FilterOptions.t) (k_category : string) (category : list cell) :
  get_filter_options self = Ok options ->
  cols self !! "category" = Some (Some k_category) ->
  Df.getitem (df self) (Some k_category) = Ok category ->
  Forall (fun x => exists s, x = CStr s) category ->
  exists names,
    FilterOptions.categories options = "All Categories" :: names
    /\ Sorted (fun a b => String.ltb a b = true) names
    /\ (forall s, s ∈ names <-> CStr s ∈ category).
Proof. apply categories_of_options. Qed.

Lemma traverse_Forall2 {A B} (f : A -> result B) l res :
  traverse f l = Ok res -> Forall2 (fun a b => f a = Ok b) l res.
Proof.
  revert res. induction l as [|a l IH]; intros res; cbn [traverse].
  - intros [= <-]. constructor.
  - intros Hrun. apply bind_Ok in Hrun as (b & Hb & Hrun).
    apply bind_Ok in Hrun as (bs & Hbs & Hrun). injection Hrun as <-.
    constructor; [done|by apply IH].
Qed.

Lemma mask_positions_true mask p :
  p ∈ Df.mask_positions mask -> mask !! p = Some true.
Proof.
  unfold Df.mask_positions. intros Hp%list_elem_of_In%in_map_iff.
  destruct Hp as ([p' b] & <- & [Hin Hb]%filter_In). simpl in *. subst b.
  apply list_elem_of_In, list_elem_of_lookup in Hin as [i Hi].
  rewrite list_lookup_imap in Hi.
  destruct (mask !! i) eqn:Hm; simpl in Hi; [|done]. by injection Hi as <- <-.
Qed.

Lemma count_if_pos_elem {A} (p : A -> bool) l x :
  x ∈ l -> p x = true -> 0 < count_if p l.
Proof.
  intros Hx Hp. unfold count_if.
  assert (In x (List.filter p l)) by (apply filter_In; split; [by apply list_elem_of_In|done]).
  destruct (List.filter p l); [done|simpl; lia].
Qed.

Lemma product_of_row_category self row p :
  product_of_row self row = Ok p ->
  exists category,
    row_col self row "category" = Ok category /\ Product.category p = str category.
Proof.
  intros Hrun. unfold product_of_row in Hrun.
  apply bind_Ok in Hrun as (name & _ & Hrun).
  apply bind_Ok in Hrun as (category & Hcategory & Hrun).
  exists category. split; [done|].
  do 9 (apply bind_Ok in Hrun as (? & _ & Hrun)).
  by injection Hrun as <-.
Qed.

(** X15: each category that [get_filter_options] offers, other than the
    entries "All Categories" and "All" and the empty string, selects
    exactly the products of that category when it is passed to
    [filter_products]: at least one product, as many as the table has rows
    of the category, all of them of the category. *)
Theorem offered_category_selects_its_rows (self : InventoryCalculations)
    (options : FilterOptions.t) (c k_category : string) (category : list cell)
    (products : list Product.t) :
  well_formed (df self) ->
  get_filter_options self = Ok options ->
  c ∈ FilterOptions.categories options ->
  c ∉ ["All Categories"; "All"] -> c <> "" ->
  cols self !! "category" = Some (Some k_category) ->
  Df.getitem (df self) (Some k_category) = Ok category ->
  Forall (fun x => exists s, x = CStr s) category ->
  filter_products self (Some c) None None None = Ok products ->
  0 < length products
  /\ length products = count_if (cell_is c) category
  /\ Forall (fun p => Product.category p = c) products.
Proof.
  intros Hwf Hoptions Hc Hall Hne Hkey Hcategory Htext Hrun.
  destruct (categories_of_options _ _ _ _ Hoptions Hkey Hcategory Htext)
    as (names & Hnames & _ & Hin).
  assert (Hcell : CStr c ∈ category).
  { apply Hin. rewrite Hnames in Hc. apply elem_of_cons in Hc as [->|Hc]; [|done].
    exfalso. apply Hall. by left. }
  unfold filter_products, by_category, is_set in Hrun.
  destruct (String.eqb_spec c "") as [|_]; [done|].
  rewrite bool_decide_eq_false_2 in Hrun by done.
  cbn [negb andb] in Hrun. unfold Py.item in Hrun. rewrite Hkey in Hrun.
  cbn [mbind result_bind] in Hrun. unfold where_eq in Hrun. rewrite Hcategory in Hrun.
  cbn [mbind result_bind by_status by_abc_class by_search is_set] in Hrun.
  apply bind_Ok in Hrun as (results & Hresults & Hrun). injection Hrun as <-.
  set (pos := Df.mask_positions (List.map (cell_is c) category)) in *.
  assert (Hlen : length category = Df.len (df self)) by (by eapply getitem_length).
  assert (Hbound : Forall (fun i => i < Df.len (df self)) pos).
  { rewrite <- Hlen, <- (length_map (cell_is c)). apply mask_positions_bound. }
  unfold Df.where_ in Hresults. fold pos in Hresults.
  rewrite iterrows_take in Hresults by done.
  apply traverse_Forall2 in Hresults.
  assert (Hcount : length results = count_if (cell_is c) category).
  { rewrite <- (Forall2_length _ _ _ Hresults), length_fmap.
    unfold pos. by rewrite length_mask_positions, count_if_map. }
  rewrite stable_sort_perm.
  split; [|split; [done|]].
  - rewrite Hcount. eapply count_if_pos_elem; [exact Hcell|].
    simpl. apply String.eqb_refl.
  - apply Forall2_fmap_l in Hresults.
    apply Forall_forall. intros p Hp.
    apply list_elem_of_lookup in Hp as [i Hi].
    destruct (Forall2_lookup_r _ _ _ _ _ Hresults Hi) as (row & Hrow & Hp).
    apply product_of_row_category in Hp as (cell & Hcell' & ->).
    unfold row_col, Py.item in Hcell'. rewrite Hkey in Hcell'.
    cbn [mbind result_bind] in Hcell'. unfold RowOps.item in Hcell'.
    cbn [mbind option_bind] in Hcell'.
    assert (Hmask : List.map (cell_is c) category !! row = Some true).
    { apply mask_positions_true. by eapply list_elem_of_lookup_2. }
    change (List.map ?f ?l) with (f <$> l) in Hmask.
    rewrite list_lookup_fmap in Hmask.
    destruct (category !! row) as [x|] eqn:Hx; [|done]. injection Hmask as Hmask.
    assert (Hrow' : row < Df.len (df self)).
    { rewrite <- Hlen. by eapply lookup_lt_Some. }
    rewrite (at_assoc _ _ _ _ _ Hwf Hrow' Hcategory Hx) in Hcell'.
    injection Hcell' as <-. destruct x as [|s]; [done|].
    simpl in Hmask. apply String.eqb_eq in Hmask as ->. done.
Qed.

End OptionFacts.

Section OptionExample.
#[local] Existing Instance Reference.library.

Lemma filter_options_list_each_category_once_witness :
  exists options,
    get_filter_options Examples.augmented = Ok options
    /\ FilterOptions.categories options = ["All Categories"; "Tools"; "Toys"].
Proof.
  destruct (get_filter_options Examples.augmented) as [options|] eqn:Hrun;
    [|vm_compute in Hrun; discriminate].
  exists options. split; [done|].
  destruct (filter_options_list_each_category_once Examples.augmented options
              "Category" [CStr "Tools"; CStr "Tools"; CStr "Toys"] Hrun)
    as (names & Hoptions & _).
  - vm_compute. reflexivity.
  - vm_compute. reflexivity.
  - repeat constructor; by eexists.
  - rewrite Hoptions. vm_compute in Hrun. injection Hrun as <-.
    cbn in Hoptions. exact (eq_sym Hoptions).
Defined.

Lemma offered_category_selects_its_rows_witness :
  exists products,
    filter_products Examples.augmented (Some "Tools") None None None = Ok products
    /\ length products = 2
    /\ Forall (fun p => Product.category p = "Tools") products.
Proof.
  destruct (filter_products Examples.augmented (Some "Tools") None None None)
    as [products|] eqn:Hrun; [|vm_compute in Hrun; discriminate].
  destruct (get_filter_options Examples.augmented) as [options|] eqn:Hoptions;
    [|vm_compute in Hoptions; discriminate].
  exists products. split; [reflexivity|].
  assert (Hwf : well_formed (df Examples.augmented)).
  { vm_compute. repeat constructor. }
  assert (Hin : "Tools" ∈ FilterOptions.categories options).
  { vm_compute in Hoptions. injection Hoptions as <-.
    cbn [FilterOptions.categories]. right. left. }
  assert (Hall : "Tools" ∉ ["All Categories"; "All"]).
  { intros Hall. repeat (apply elem_of_cons in Hall as [Hall|Hall]; [discriminate Hall|]).
    by apply elem_of_nil in Hall. }
  assert (Hne : "Tools" <> "") by discriminate.
  assert (Hkey : cols Examples.augmented !! "category" = Some (Some "Category")).
  { vm_compute. reflexivity. }
  assert (Hcategory : Df.getitem (df Examples.augmented) (Some "Category")
                      = Ok [CStr "Tools"; CStr "Tools"; CStr "Toys"]).
  { vm_compute. reflexivity. }
  assert (Htext : Forall (fun x => exists s, x = CStr s)
                    [CStr "Tools"; CStr "Tools"; CStr "Toys"]).
  { repeat constructor; by eexists. }
  destruct (offered_category_selects_its_rows Examples.augmented options "Tools"
              "Category" [CStr "Tools"; CStr "Tools"; CStr "Toys"] products
              Hwf Hoptions Hin Hall Hne Hkey Hcategory Htext Hrun)
    as (_ & Hlen & Hprod).
  split; [exact Hlen|exact Hprod].
Defined.

End OptionExample.

(** ** The insights and the KPI report count the same rows *)

Lemma count_if_and (a b : list bool) :
  count_if id (zip_with andb a b) <= count_if id b.
Proof.
  unfold count_if. revert b. induction a as [|x a IH]; intros [|y b]; simpl; try lia.
  specialize (IH b). destruct x, y; simpl; lia.
Qed.

Lemma count_if_either {A} (p q : A -> bool) l :
  count_if (fun x => p x || q x) l <= count_if p l + count_if q l.
Proof.
  unfold count_if. induction l as [|x l IH]; simpl; [lia|].
  destruct (p x), (q x); simpl; lia.
Qed.

Lemma critical_alert_listed (critical n : nat) (others : list insight) :
  (forall m, CriticallyLow m ∉ others) ->
  CriticallyLow n ∈ (if 0 <? critical then [CriticallyLow critical] else []) ++ others
  <-> n = critical /\ 0 < n.
Proof.
  intros Hothers. rewrite elem_of_app.
  destruct (Nat.ltb_spec 0 critical) as [Hpos|Hzero].
  - rewrite list_elem_of_singleton. split.
    + intros [[= ->]|Hin]; [done|]. by apply Hothers in Hin.
    + intros [-> _]. by left.
  - rewrite elem_of_nil. split.
    + intros [[]|Hin]. by apply Hothers in Hin.
    + intros [-> ?]. lia.
Qed.

Section InsightFacts.
Context `{Library}.

(** X16: the insights and the KPI report count the same rows.  When both
    [calculate_kpis] and [get_inventory_insights] return for a well-formed
    table, the critical-stock alert is listed exactly when the report's
    [criticalAlerts] is positive and carries that count; the count of
    understocked A-class items is never more than the critical and low
    counts of the report together; and no opportunity is ever listed. *)
Theorem insights_agree_with_kpis (self : InventoryCalculations) (kpis : Kpis.t)
    (insights : Insights.t) :
  well_formed (df self) ->
  calculate_kpis self = Returns kpis ->
  get_inventory_insights self = Ok insights ->
  (forall n, CriticallyLow n ∈ Insights.alerts insights
             <-> n = Kpis.criticalAlerts kpis /\ 0 < n)
  /\ (forall n, UnderstockedAClass n ∈ Insights.risks insights ->
                0 < n <= Kpis.criticalAlerts kpis + Kpis.lowStock kpis)
  /\ Insights.opportunities insights = [].
Proof.
  intros Hwf Hkpis Hrun.
  destruct (Df.getitem (df self) (Some "Stock_Status")) as [status|e] eqn:Hstatus.
  2: { unfold get_inventory_insights, count_where in Hrun. by rewrite Hstatus in Hrun. }
  (* the report *)
  unfold calculate_kpis in Hkpis. cbn zeta in Hkpis.
  rewrite !(count_where_count _ _ _ _ Hwf Hstatus) in Hkpis.
  cbn [lift mbind outcome_bind] in Hkpis.
  do 4 unbind_outcome Hkpis.
  apply bind_Returns in Hkpis as (healthy_share & _ & Hkpis).
  do 7 unbind_outcome Hkpis. injection Hkpis as <-. cbn [Kpis.criticalAlerts Kpis.lowStock].
  (* the insights *)
  unfold get_inventory_insights in Hrun. cbn zeta in Hrun.
  rewrite (count_where_count _ _ _ _ Hwf Hstatus), Hstatus in Hrun.
  cbn [mbind result_bind] in Hrun.
  apply bind_Ok in Hrun as (excess_value & _ & Hrun).
  apply bind_Ok in Hrun as (turnover & _ & Hrun).
  apply bind_Ok in Hrun as (abc & Habc & Hrun).
  cbn [mbind result_bind] in Hrun. injection Hrun as <-. cbn [Insights.alerts Insights.risks Insights.opportunities].
  set (critical := count_if (cell_is "CRITICAL") status).
  split; [|split; [|done]].
  - intros n.
    match goal with |- context [if ?large then _ ++ _ else _] => destruct large end.
    + apply critical_alert_listed. intros m Hm.
      apply list_elem_of_singleton in Hm. discriminate Hm.
    + rewrite <- (app_nil_r (if 0 <? critical then _ else _)).
      apply critical_alert_listed. intros m Hm. by apply elem_of_nil in Hm.
  - intros n. set (understocked := zip_with andb _ _).
    assert (Hle : count_if id understocked
                  <= critical + count_if (cell_is "LOW") status).
    { unfold understocked. etrans; [apply count_if_and|].
      rewrite count_if_map. apply count_if_either. }
    assert (Hlen : Df.len (Df.where_ understocked (df self)) = count_if id understocked).
    { apply len_where. unfold understocked.
      rewrite length_zip_with, !length_map.
      rewrite (getitem_length _ _ _ Hwf Habc), (getitem_length _ _ _ Hwf Hstatus). lia. }
    rewrite Hlen.
    destruct (Nat.ltb_spec 0 (count_if id understocked)) as [Hpos|Hzero];
      rewrite ?elem_of_cons, ?elem_of_nil; [|intros []].
    intros [[= ->]|[]]. lia.
Qed.

End InsightFacts.

Section InsightExample.
#[local] Existing Instance Reference.library.

Lemma insights_agree_with_kpis_witness :
  exists kpis insights,
    calculate_kpis Examples.augmented = Returns kpis
    /\ get_inventory_insights Examples.augmented = Ok insights
    /\ forall n, CriticallyLow n ∈ Insights.alerts insights
                 <-> n = Kpis.criticalAlerts kpis /\ 0 < n.
Proof.
  destruct (calculate_kpis Examples.augmented) as [kpis|e] eqn:Hkpis;
    [|vm_compute in Hkpis; discriminate].
  destruct (get_inventory_insights Examples.augmented) as [insights|e] eqn:Hrun;
    [|vm_compute in Hrun; discriminate].
  exists kpis, insights. split; [reflexivity|]. split; [reflexivity|].
  assert (Hwf : well_formed (df Examples.augmented)).
  { vm_compute. repeat constructor. }
  exact (proj1 (insights_agree_with_kpis Examples.augmented kpis insights
                  Hwf Hkpis Hrun)).
Defined.

End InsightExample.

(** ** The upload checks *)

Lemma contains_char_cons (sep c : ascii) (s : string) :
  Str.contains (String sep EmptyString) (String c s)
  = Ascii.eqb sep c || Str.contains (String sep EmptyString) s.
Proof.
  cbn [Str.contains String.prefix].
  destruct (Ascii.eqb_spec sep c) as [->|Hne].
  - destruct (ascii_dec c c); [|done]. by destruct s.
  - destruct (ascii_dec sep c); [done|]. done.
Qed.

(** Unfolds one step of a string concatenation. *)
Ltac string_app :=
  repeat first
    [ progress change (String.append EmptyString ?s) with s
    | progress change (String.append (String ?c ?s) ?t) with (String c (String.append s t)) ].

Ltac string_app_in H :=
  repeat first
    [ progress change (String.append EmptyString ?s) with s in H
    | progress change (String.append (String ?c ?s) ?t)
        with (String c (String.append s t)) in H ].

Lemma contains_char_nil (sep : ascii) :
  Str.contains (String sep EmptyString) EmptyString = false.
Proof. done. Qed.

Lemma rsplit_once_spec (sep : ascii) (s : string) :
  (Str.contains (String sep EmptyString) s = false /\ Api.rsplit_once sep s = [s])
  \/ (Str.contains (String sep EmptyString) s = true
      /\ exists stem extension,
           Api.rsplit_once sep s = [stem; extension]
           /\ s = (stem ++ String sep extension)%string
           /\ Str.contains (String sep EmptyString) extension = false).
Proof.
  induction s as [|c s IH].
  - left. done.
  - rewrite contains_char_cons. cbn [Api.rsplit_once].
    destruct IH as [[Hno ->]|[Hyes (stem & extension & -> & -> & Hext)]].
    + rewrite Hno, orb_false_r, (Ascii.eqb_sym sep c).
      destruct (Ascii.eqb_spec c sep) as [->|Hne]; [right|left; done].
      split; [done|]. by exists EmptyString, s.
    + right. rewrite Hyes, orb_true_r. split; [done|].
      by exists (String c stem), extension.
Qed.

Lemma contains_char_app (sep : ascii) (stem extension : string) :
  Str.contains (String sep EmptyString) (stem ++ String sep extension) = true.
Proof.
  induction stem as [|c stem IH].
  - string_app. by rewrite contains_char_cons, Ascii.eqb_refl.
  - string_app. by rewrite contains_char_cons, IH, orb_true_r.
Qed.

Lemma rsplit_once_last (sep : ascii) (stem extension : string) :
  Str.contains (String sep EmptyString) extension = false ->
  Api.rsplit_once sep (stem ++ String sep extension) = [stem; extension].
Proof.
  intros Hext. induction stem as [|c stem IH]; string_app; cbn [Api.rsplit_once].
  - destruct (rsplit_once_spec sep extension) as [[_ ->]|[Hyes _]]; [|congruence].
    by rewrite Ascii.eqb_refl.
  - by rewrite IH.
Qed.

Lemma lower_ascii_dot c : Str.lower_ascii c <> "."%char -> c <> "."%char.
Proof. by intros Hc ->. Qed.

Lemma csv_has_no_dot extension :
  Str.lower extension = "csv" -> Str.contains "." extension = false.
Proof.
  destruct extension as [|a [|b [|c [|]]]]; try done.
  cbn [Str.lower]. intros [= Ha Hb Hc].
  rewrite !contains_char_cons, contains_char_nil.
  assert (a <> "."%char) by (apply lower_ascii_dot; by rewrite Ha).
  assert (b <> "."%char) by (apply lower_ascii_dot; by rewrite Hb).
  assert (c <> "."%char) by (apply lower_ascii_dot; by rewrite Hc).
  destruct (Ascii.eqb_spec "." a) as [<-|_]; [done|].
  destruct (Ascii.eqb_spec "." b) as [<-|_]; [done|].
  destruct (Ascii.eqb_spec "." c) as [<-|_]; [done|]. done.
Qed.

(** X17: [allowed_file] never fails on the index it takes, and accepts
    exactly the file names that end in a dot followed by [csv] in any
    letter case; the text before that dot may be anything, also empty. *)
Theorem allowed_file_accepts_csv_extension (filename : string) :
  exists accepted,
    Api.allowed_file filename = Some accepted
    /\ (accepted = true
        <-> exists stem extension,
              filename = (stem ++ "." ++ extension)%string
              /\ Str.lower extension = "csv").
Proof.
  unfold Api.allowed_file.
  destruct (rsplit_once_spec "." filename)
    as [[Hno Hsplit]|[Hyes (stem & extension & Hsplit & -> & Hext)]].
  - rewrite Hno. exists false. split; [done|]. split; [done|].
    intros (stem & extension & -> & _).
    string_app_in Hno. by rewrite contains_char_app in Hno.
  - rewrite Hyes, Hsplit. cbn [lookup list_lookup mbind option_bind].
    eexists. split; [done|]. rewrite bool_decide_eq_true.
    unfold Api.ALLOWED_EXTENSIONS. rewrite list_elem_of_singleton. split.
    + intros Hcsv. by exists stem, extension.
    + intros (stem' & extension' & Heq & Hcsv). string_app_in Heq.
      pose proof (rsplit_once_last "." stem' extension' (csv_has_no_dot _ Hcsv)) as Hlast.
      rewrite <- Heq, (rsplit_once_last "." stem extension Hext) in Hlast.
      by injection Hlast as _ ->.
Qed.

Example allowed_file_names :
  Api.allowed_file "stock.CSV" = Some true
  /\ Api.allowed_file ".csv" = Some true
  /\ Api.allowed_file "stock.csv.bak" = Some false
  /\ Api.allowed_file "csv" = Some false.
Proof. split; [done|]. split; [done|]. split; done. Qed.

Section UploadFacts.
Variable io_error : Type.
Variable read_csv : string -> nat -> io_error + DataFrame.

(** X18: [validate_csv_format] declares a file valid exactly when its
    first five rows could be read, the sample has at least three columns
    and at least one row, and each of the fields name, category, stock and
    sales is resolved to a header of the sample that is not empty.  A valid
    answer carries no error message and reports the detected columns. *)
Theorem validate_csv_format_valid (file_path : string) :
  let verdict := validate_csv_format io_error read_csv file_path in
  (Verdict.valid verdict = true
   <-> exists df_sample,
         read_csv file_path 5 = inr df_sample
         /\ 3 <= length (Df.names df_sample)
         /\ 0 < Df.len df_sample
         /\ forall required, required ∈ ["name"; "category"; "stock"; "sales"] ->
              exists header,
                DataProcessor.detect_columns df_sample !! required = Some (Some header)
                /\ header ∈ Df.names df_sample /\ header <> "")
  /\ (Verdict.valid verdict = true ->
      Verdict.error verdict = None
      /\ exists df_sample,
           read_csv file_path 5 = inr df_sample
           /\ Verdict.detected_columns <$> Verdict.info verdict
              = Some (DataProcessor.detect_columns df_sample)).
Proof.
  cbn zeta. unfold validate_csv_format.
  destruct (read_csv file_path 5) as [e|df_sample]; cbn [Verdict.valid].
  { split; [|done]. split; [done|]. by intros (? & [=] & _). }
  destruct (Nat.ltb_spec (length (Df.names df_sample)) 3) as [Hfew|Hcols];
    cbn [Verdict.valid].
  { split; [|done]. split; [done|]. intros (? & [= <-] & ? & _). lia. }
  destruct (Nat.eqb_spec (Df.len df_sample) 0) as [Hempty|Hrows];
    cbn [Verdict.valid].
  { split; [|done]. split; [done|]. intros (? & [= <-] & _ & ? & _). lia. }
  set (columns_map := DataProcessor.detect_columns df_sample).
  unfold DataProcessor.validate_required_columns. cbn zeta.
  cbn [Verdict.valid Verdict.error Verdict.info].
  set (missing := List.filter _ _).
  assert (Hvalid : (length missing =? 0) = true
                   <-> forall required, required ∈ ["name"; "category"; "stock"; "sales"] ->
                         exists header, columns_map !! required = Some (Some header)
                                        /\ header ∈ Df.names df_sample /\ header <> "").
  { rewrite Nat.eqb_eq, length_zero_iff_nil. unfold missing. split.
    - intros Hnone required Hreq.
      destruct (Py.truthy (Py.get columns_map required)) eqn:Htruthy.
      + unfold Py.get, Py.truthy in Htruthy.
        destruct (columns_map !! required) as [[header|]|] eqn:Hlookup; try done.
        exists header. split; [done|]. by apply detect_columns_header in Hlookup.
      + assert (In required []) as []. rewrite <- Hnone.
        apply filter_In. split; [by apply list_elem_of_In|]. by rewrite Htruthy.
    - intros Hall. destruct (List.filter _ _) as [|required rest] eqn:Hfilter; [done|].
      exfalso. assert (Hin : In required (required :: rest)) by (by left).
      rewrite <- Hfilter in Hin. apply filter_In in Hin as [Hreq Htruthy].
      apply list_elem_of_In, Hall in Hreq as (header & Hlookup & _ & Hne).
      unfold Py.get, Py.truthy in Htruthy. rewrite Hlookup in Htruthy.
      cbn [mbind option_bind id] in Htruthy.
      by destruct (String.eqb_spec header ""). }
  split.
  - rewrite Hvalid. split.
    + intros Hall. exists df_sample. split; [done|]. split; [lia|]. split; [lia|done].
    + by intros (? & [= <-] & _ & _ & Hall).
  - intros Hok. rewrite Hok. cbn [negb]. split; [done|]. by exists df_sample.
Qed.

End UploadFacts.
